(** * SHIP86 cartridge daemon: a shallow embedding of [automon/sd_monitor.py]

    The daemon watches block-device notifications, resolves the mount point
    of an inserted card, checks the detached signature of [cart.yaml] and
    runs the manifest's [exec] command, killing it again when the card is
    removed.

    Everything the daemon asks of the operating system (the file system,
    sysfs, the mount table, the account database, the external verifier,
    process creation and signalling) is answered by a [World]: a record of
    oracles indexed by a logical clock.  Every consultation reads the clock
    and advances it by one, so the same question asked twice may be answered
    differently.  What the daemon does to its surroundings is appended to a
    chronological trace of [effect]s. *)

From Stdlib Require Import String Ascii List ZArith Bool Arith Lia DecimalString.
Import ListNotations.
Open Scope string_scope.
Open Scope list_scope.

(** ** Python strings *)

Module PyStr.

(** [p in s] for two strings. *)
Fixpoint contains (sub s : string) : bool :=
  String.prefix sub s ||
  match s with
  | EmptyString => false
  | String _ s' => contains sub s'
  end.

(** [s.startswith(p)] *)
Definition startswith (s p : string) : bool := String.prefix p s.

(** [s.split(sep)] for a one-character separator. *)
Fixpoint split (sep : ascii) (s : string) : list string :=
  match s with
  | EmptyString => [EmptyString]
  | String c s' =>
      if Ascii.eqb c sep then EmptyString :: split sep s'
      else match split sep s' with
           | h :: t => String c h :: t
           | [] => [String c EmptyString]
           end
  end.

(** [s.split("/")[-1]] *)
Definition last_component (s : string) : string :=
  last (split "/" s) EmptyString.

(** [s.split(sep, 1)]: [None] when [sep] does not occur in [s]. *)
Fixpoint split_once (sep : ascii) (s : string) : option (string * string) :=
  match s with
  | EmptyString => None
  | String c s' =>
      if Ascii.eqb c sep then Some (EmptyString, s')
      else match split_once sep s' with
           | Some (k, v) => Some (String c k, v)
           | None => None
           end
  end.

(** [s.endswith(p)] *)
Definition endswith (s p : string) : bool :=
  String.prefix (string_of_list_ascii (rev (list_ascii_of_string p)))
                (string_of_list_ascii (rev (list_ascii_of_string s))).

(** The ASCII characters for which [str.isspace] holds. *)
Definition is_space (c : ascii) : bool :=
  let n := nat_of_ascii c in
  (Nat.leb 9 n && Nat.leb n 13) || (Nat.leb 28 n && Nat.leb n 32).

Fixpoint lstrip (s : string) : string :=
  match s with
  | EmptyString => EmptyString
  | String c s' => if is_space c then lstrip s' else s
  end.

Fixpoint rstrip (s : string) : string :=
  match s with
  | EmptyString => EmptyString
  | String c s' =>
      match rstrip s' with
      | EmptyString => if is_space c then EmptyString else String c EmptyString
      | r => String c r
      end
  end.

(** [s.strip()] *)
Definition strip (s : string) : string := rstrip (lstrip s).

Definition is_digit (c : ascii) : bool :=
  let n := nat_of_ascii c in Nat.leb 48 n && Nat.leb n 57.

(** [s.isdigit()] on ASCII text: non-empty and all decimal digits. *)
Fixpoint all_digits (s : string) : bool :=
  match s with
  | EmptyString => true
  | String c s' => is_digit c && all_digits s'
  end.

Definition isdigit (s : string) : bool :=
  match s with
  | EmptyString => false
  | _ => all_digits s
  end.

(** The digits of a decimal literal; single underscores may separate
    digits, as in Python 3. [prev] tells whether the previous character
    was a digit. *)
Fixpoint digits (s : string) (acc : Z) (prev : bool) : option Z :=
  match s with
  | EmptyString => if prev then Some acc else None
  | String c s' =>
      if is_digit c
      then digits s' (10 * acc + Z.of_nat (nat_of_ascii c - 48)) true
      else if Ascii.eqb c "_" && prev then digits s' acc false
      else None
  end.

(** [int(s)]: [None] stands for [ValueError]. *)
Definition int (s : string) : option Z :=
  match strip s with
  | String "-" s' => option_map Z.opp (digits s' 0 false)
  | String "+" s' => digits s' 0 false
  | s' => digits s' 0 false
  end.

(** Truth value of a string, and of an optional string ([None] or [""]). *)
Definition truthy (s : string) : bool := negb (String.eqb s EmptyString).

Definition truthy_opt (o : option string) : bool :=
  match o with
  | Some s => truthy s
  | None => false
  end.

(** [o == lit] where [o] may be [None]. *)
Definition opt_eqb (o : option string) (lit : string) : bool :=
  match o with
  | Some s => String.eqb s lit
  | None => false
  end.

End PyStr.

(** ** Python values as produced by [yaml.safe_load] *)

#[warnings="-register-all"]
Inductive pyval : Type :=
| PNone
| PBool (b : bool)
| PInt (z : Z)
| PStr (s : string)
| PList (l : list pyval)
| PDict (kv : list (pyval * pyval)).

(** ** Exceptions *)

Inductive exn : Type :=
| KeyboardInterrupt
| OSError              (* IOError, FileNotFoundError, PermissionError, ... *)
| ProcessLookupError   (* a subclass of OSError *)
| CalledProcessError
| TimeoutExpired
| SubprocessError      (* raised by Popen when preexec_fn fails *)
| KeyError
| ValueError
| TypeError
| IndexError
| YAMLError.

Definition exn_eqb (a b : exn) : bool :=
  match a, b with
  | KeyboardInterrupt, KeyboardInterrupt | OSError, OSError
  | ProcessLookupError, ProcessLookupError
  | CalledProcessError, CalledProcessError
  | TimeoutExpired, TimeoutExpired | SubprocessError, SubprocessError
  | KeyError, KeyError | ValueError, ValueError | TypeError, TypeError
  | IndexError, IndexError | YAMLError, YAMLError => true
  | _, _ => false
  end.

(** [except (IOError, OSError)] *)
Definition is_OSError (e : exn) : bool :=
  match e with
  | OSError | ProcessLookupError => true
  | _ => false
  end.

Inductive result (A : Type) : Type :=
| Ok (a : A)
| Raise (e : exn).
Arguments Ok {A} a.
Arguments Raise {A} e.

(** ** Processes, signals, effects *)

Inductive signal : Type := SIGTERM | SIGKILL.

(** A [subprocess.Popen] handle. *)
Record process : Type := { pid : Z }.

Definition dict (V : Type) : Type := list (string * V).

(** The arguments of the one [subprocess.Popen] call of the daemon.
    [sr_identity] is [Some (uid, gid)] when [preexec_fn] switches user. *)
Record spawn_req : Type := {
  sr_script : pyval;
  sr_cwd : string;
  sr_identity : option (Z * Z);
  sr_env : dict string
}.

(** A piece of a printed line: literal text or a formatted value. *)
Inductive out : Type :=
| OStr (s : string)
| OVal (v : pyval)
| ONum (z : Z).

Inductive effect : Type :=
| Print (line : list out)
| Sleep (ms : Z)                          (* time.sleep, in milliseconds *)
| Spawn (req : spawn_req) (p : process)   (* a Popen call that returned p *)
| Killpg (pgid : Z) (sig : signal)        (* a call of os.killpg *)
| Wait (p : process) (timeout_ms : Z).    (* a call of proc.wait *)

(** ** The world *)

Record passwd : Type := { pw_uid : Z; pw_gid : Z; pw_dir : string }.

(** What running the external verifier gives: an exit status (negative
    when it was killed by a signal), or no process at all. *)
Inductive verifier_outcome : Type :=
| Exited (code : Z)
| NotStarted.

(** What [os.killpg] gives: the signal is sent, or the call raises
    [ProcessLookupError] (no such group) or [PermissionError]. *)
Inductive kill_outcome : Type :=
| Signalled
| NoSuchProcess
| NotPermitted.

(** A [pyudev.Device] as the daemon reads it.  A [device_node] of [None]
    is written [""]: the daemon tests the truth value of the node before
    any other use, and both are false. *)
Record device : Type := {
  device_node : string;
  device_type : option string;
  action : option string;
  properties : dict string
}.

(** What [monitor.poll()] gives. *)
Inductive poll_outcome : Type :=
| PollDevice (d : device)
| PollNone
| PollRaise (e : exn).

Record World : Type := {
  (** [os.path.exists(path)] *)
  path_exists : nat -> string -> bool;
  (** [open(path).read()]; [None] is an [OSError] *)
  read_file : nat -> string -> option string;
  (** [os.listdir(path)] *)
  listdir : nat -> string -> option (list string);
  (** the lines of [/proc/mounts], each already cut by [line.split()] *)
  proc_mounts : nat -> option (list (list string));
  (** [os.stat(path).st_uid]; [None] is an [OSError] *)
  stat_uid : nat -> string -> option Z;
  (** [ssh-keygen -Y verify -f signers -I ns -n ns -s sig -] fed [stdin] *)
  ssh_keygen_verify : nat -> string -> string -> string -> string -> verifier_outcome;
  (** [yaml.safe_load] of a file's text; [None] is a [YAMLError] *)
  yaml_safe_load : string -> option pyval;
  (** [pwd.getpwnam(name)]; [None] is a [KeyError] *)
  getpwnam : nat -> string -> option passwd;
  (** [os.environ] of the daemon *)
  environ : dict string;
  (** [subprocess.Popen(...)] *)
  popen : nat -> spawn_req -> result process;
  (** [proc.poll()]: the return code once the child has exited *)
  proc_poll : nat -> process -> option Z;
  (** [os.getpgid(pid)] of a child that has not been reaped *)
  getpgid : nat -> Z -> Z;
  (** [os.killpg(pgid, sig)] *)
  killpg : nat -> Z -> signal -> kill_outcome;
  (** [proc.wait(timeout)]: [None] is [TimeoutExpired] *)
  proc_wait : nat -> process -> Z -> option Z
}.

(** ** State of the daemon and the monad of its code *)

Definition event : Type := string * string.

Record St : Type := {
  clock : nat;
  trace : list effect;
  last_event : option event;
  running_processes : dict process
}.

Definition M (A : Type) : Type := St -> result A * St.

Definition ret {A} (a : A) : M A := fun s => (Ok a, s).

Definition bind {A B} (m : M A) (k : A -> M B) : M B :=
  fun s =>
    match m s with
    | (Ok a, s') => k a s'
    | (Raise e, s') => (Raise e, s')
    end.

Definition raise {A} (e : exn) : M A := fun s => (Raise e, s).

(** [try: m  except <catches>: h] *)
Definition try_except {A} (m : M A) (catches : exn -> bool) (h : exn -> M A) : M A :=
  fun s =>
    match m s with
    | (Ok a, s') => (Ok a, s')
    | (Raise e, s') => if catches e then h e s' else (Raise e, s')
    end.

Declare Scope py_scope.
Delimit Scope py_scope with py.
Notation "x <- m ;; k" := (bind m (fun x => k))
  (at level 61, m at next level, right associativity) : py_scope.
Notation "m ;; k" := (bind m (fun _ => k))
  (at level 61, right associativity) : py_scope.
Open Scope py_scope.

(** Reads the clock and advances it: the time of one consultation. *)
Definition tick : M nat :=
  fun s => (Ok (clock s),
            {| clock := S (clock s); trace := trace s;
               last_event := last_event s;
               running_processes := running_processes s |}).

Definition emit (e : effect) : M unit :=
  fun s => (Ok tt,
            {| clock := clock s; trace := trace s ++ [e];
               last_event := last_event s;
               running_processes := running_processes s |}).

Definition print (line : list out) : M unit := emit (Print line).
Definition prints (text : string) : M unit := print [OStr text].

(** Consults an oracle at the current time. *)
Definition ask {A} (q : nat -> A) : M A := t <- tick ;; ret (q t).

(** Consults an oracle whose [None] is the exception [e]. *)
Definition ask_or {A} (e : exn) (q : nat -> option A) : M A :=
  r <- ask q ;;
  match r with
  | Some a => ret a
  | None => raise e
  end.

(** Local variables of [monitor]. *)
Definition get_last_event : M (option event) := fun s => (Ok (last_event s), s).

Definition set_last_event (e : option event) : M unit :=
  fun s => (Ok tt,
            {| clock := clock s; trace := trace s;
               last_event := e;
               running_processes := running_processes s |}).

Definition get_running : M (dict process) :=
  fun s => (Ok (running_processes s), s).

Definition set_running (d : dict process) : M unit :=
  fun s => (Ok tt,
            {| clock := clock s; trace := trace s;
               last_event := last_event s;
               running_processes := d |}).

(** ** Python dictionaries, in insertion order *)

Module PyDict.
Section Ops.
Context {V : Type}.

(** [d.get(k)] *)
Fixpoint get (d : dict V) (k : string) : option V :=
  match d with
  | [] => None
  | (k', v) :: d' => if String.eqb k' k then Some v else get d' k
  end.

(** [k in d] *)
Definition mem (d : dict V) (k : string) : bool :=
  match get d k with
  | Some _ => true
  | None => false
  end.

(** [d[k] = v]: an existing key keeps its place, a new one goes last. *)
Fixpoint set (d : dict V) (k : string) (v : V) : dict V :=
  match d with
  | [] => [(k, v)]
  | (k', v') :: d' =>
      if String.eqb k' k then (k', v) :: d' else (k', v') :: set d' k v
  end.

(** What is left of [d] after [d.pop(k)]. *)
Definition remove (d : dict V) (k : string) : dict V :=
  filter (fun kv => negb (String.eqb (fst kv) k)) d.

(** [d.values()] *)
Definition values (d : dict V) : list V := map snd d.

(** [d.update(other)] *)
Definition update (d other : dict V) : dict V :=
  fold_left (fun acc kv => set acc (fst kv) (snd kv)) other d.

End Ops.
End PyDict.

(** ** The manifest as a Python value *)

Module PyVal.

(** Truth value of an object. *)
Definition truthy (v : pyval) : bool :=
  match v with
  | PNone => false
  | PBool b => b
  | PInt z => negb (Z.eqb z 0)
  | PStr s => PyStr.truthy s
  | PList l => match l with [] => false | _ => true end
  | PDict kv => match kv with [] => false | _ => true end
  end.

(** [v == "exec"] *)
Definition is_exec (v : pyval) : bool :=
  match v with
  | PStr s => String.eqb s "exec"
  | _ => false
  end.

(** ["exec" in config]: membership in a mapping's keys or a list's
    items, substring of a string, [TypeError] on other objects. *)
Definition contains_exec (config : pyval) : result bool :=
  match config with
  | PDict kv => Ok (existsb (fun p => is_exec (fst p)) kv)
  | PList l => Ok (existsb is_exec l)
  | PStr s => Ok (PyStr.contains "exec" s)
  | PNone | PBool _ | PInt _ => Raise TypeError
  end.

(** [config["exec"]] *)
Definition getitem_exec (config : pyval) : result pyval :=
  match config with
  | PDict kv =>
      match find (fun p => is_exec (fst p)) kv with
      | Some p => Ok (snd p)
      | None => Raise KeyError
      end
  | _ => Raise TypeError
  end.

End PyVal.

Definition lift {A} (r : result A) : M A := fun s => (r, s).

(** [os.path.join(a, b)] for a relative [b]. *)
Definition path_join (a b : string) : string :=
  match a with
  | EmptyString => b
  | _ => if PyStr.endswith a "/"
         then (a ++ b)%string
         else (a ++ "/" ++ b)%string
  end.

(** [str(z)] of an integer. *)
Definition str_of_Z (z : Z) : string :=
  DecimalString.NilZero.string_of_int (Z.to_int z).

Definition TRUSTED_PUBKEY : string := "/etc/cart_trust/allowed_signers".
Definition SIGNATURE_NAMESPACE : string := "cart".

(** ** The daemon *)

Section Daemon.

Variable w : World.

(** *** MediaClassifier *)

(** [is_sd_card(device)] *)
Definition is_sd_card (d : device) : M bool :=
  if negb (PyStr.truthy (device_node d))
     || negb (PyStr.opt_eqb (device_type d) "disk")
  then ret false
  else
    let node := device_node d in
    if PyStr.contains "mmcblk" node then ret true
    else if PyStr.startswith node "/dev/sd" then
      if PyStr.opt_eqb (PyDict.get (properties d) "ID_BUS") "usb" then ret true
      else if PyStr.opt_eqb (PyDict.get (properties d) "DEVTYPE") "disk" then
        try_except
          (let removable_path :=
             ("/sys/block/" ++ PyStr.last_component node ++ "/removable")%string in
           text <- ask_or OSError (fun t => read_file w t removable_path) ;;
           ret (String.eqb (PyStr.strip text) "1"))
          is_OSError
          (fun _ => ret false)
      else ret false
    else ret false.

(** [has_media(device)], for a device that has a node: [monitor] calls it
    on devices that [is_sd_card] has accepted.  On a device without a node
    [device.device_node.split] raises [AttributeError], which is not among
    the exceptions caught; here the node is a string throughout. *)
Definition has_media (d : device) : M bool :=
  if PyStr.truthy_opt (PyDict.get (properties d) "ID_PART_TABLE_TYPE") then ret true
  else if PyStr.truthy_opt (PyDict.get (properties d) "ID_FS_TYPE") then ret true
  else
    try_except
      (let name := PyStr.last_component (device_node d) in
       text <- ask_or OSError
                 (fun t => read_file w t ("/sys/block/" ++ name ++ "/size")%string) ;;
       match PyStr.int (PyStr.strip text) with
       | Some n => ret (Z.ltb 0 n)
       | None => raise ValueError
       end)
      (fun e => is_OSError e || exn_eqb e ValueError)
      (fun _ => ret false).

(** *** MountResolver *)

(** The scan of the lines of [/proc/mounts]: [Some path] is the value
    returned from inside the loop. *)
Fixpoint scan_mounts (partitions : list string) (lines : list (list string))
  : M (option string) :=
  match lines with
  | [] => ret None
  | parts :: rest =>
      match parts with
      | [] => raise IndexError
      | p0 :: tl =>
          if existsb (String.eqb p0) partitions
          then match tl with
               | [] => raise IndexError
               | p1 :: _ => ret (Some p1)
               end
          else scan_mounts partitions rest
      end
  end.

(** The [n] remaining rounds of the polling loop of [get_mount_point]. *)
Fixpoint mount_rounds (device_node : string) (n : nat) (partitions : list string)
  : M (option string) :=
  match n with
  | O => ret None
  | S n' =>
      let dev_name := PyStr.last_component device_node in
      found <- try_except
                 (entries <- ask_or OSError
                               (fun t => listdir w t ("/sys/block/" ++ dev_name)%string) ;;
                  ret (partitions ++
                       map (fun entry => ("/dev/" ++ entry)%string)
                           (filter (fun entry => PyStr.startswith entry dev_name)
                                   entries)))
                 is_OSError
                 (fun _ => ret partitions) ;;
      let partitions' := match found with
                         | [] => [device_node]
                         | _ => found
                         end in
      hit <- try_except
               (lines <- ask_or OSError (proc_mounts w) ;;
                scan_mounts partitions' lines)
               is_OSError
               (fun _ => ret None) ;;
      match hit with
      | Some mount_point => ret (Some mount_point)
      | None => emit (Sleep 500) ;; mount_rounds device_node n' partitions'
      end
  end.

(** [get_mount_point(device_node, timeout)] *)
Definition get_mount_point (device_node : string) (timeout : nat)
  : M (option string) :=
  mount_rounds device_node (timeout * 2) [].

(** *** TrustVerifier *)

(** [verify_cart_signature(cart_path)] *)
Definition verify_cart_signature (cart_path : string) : M bool :=
  let sig_path := (cart_path ++ ".sig")%string in
  sig_there <- ask (fun t => path_exists w t sig_path) ;;
  if negb sig_there then
    prints "ERROR: cart.yaml.sig missing" ;; ret false
  else
    key_there <- ask (fun t => path_exists w t TRUSTED_PUBKEY) ;;
    if negb key_there then
      prints "ERROR: Trusted public key missing" ;; ret false
    else
      try_except
        (f <- ask_or OSError (fun t => read_file w t cart_path) ;;
         status <- ask (fun t => ssh_keygen_verify w t TRUSTED_PUBKEY
                                   SIGNATURE_NAMESPACE sig_path f) ;;
         match status with
         | Exited 0 => ret tt
         | Exited _ => raise CalledProcessError
         | NotStarted => raise OSError
         end ;;
         prints "Signature verification OK" ;;
         ret true)
        (fun e => exn_eqb e CalledProcessError)
        (fun _ => prints "ERROR: Signature verification FAILED" ;; ret false).

(** *** ProcessSupervisor *)

Definition target_vars : list string :=
  ["DISPLAY"; "WAYLAND_DISPLAY"; "XAUTHORITY"; "DBUS_SESSION_BUS_ADDRESS"].

(** One item of a process environment taken into [display_vars]. *)
Definition take_item (display_vars : dict string) (item : string) : dict string :=
  match PyStr.split_once "=" item with
  | Some (key, val) =>
      if existsb (String.eqb key) target_vars && negb (PyDict.mem display_vars key)
      then PyDict.set display_vars key val
      else display_vars
  | None => display_vars
  end.

(** The loop of [get_user_display_env] over the entries of [/proc]. *)
Fixpoint scan_environs (uid : Z) (pids : list string) (display_vars : dict string)
  : M (dict string) :=
  match pids with
  | [] => ret display_vars
  | pid :: rest =>
      if negb (PyStr.isdigit pid) then scan_environs uid rest display_vars
      else
        step <- try_except
                  (let stat_path := ("/proc/" ++ pid ++ "/stat")%string in
                   let environ_path := ("/proc/" ++ pid ++ "/environ")%string in
                   owner <- ask_or OSError (fun t => stat_uid w t stat_path) ;;
                   if negb (Z.eqb owner uid) then ret (display_vars, false)
                   else
                     env_data <- ask_or OSError (fun t => read_file w t environ_path) ;;
                     let vars := fold_left take_item
                                   (PyStr.split Ascii.zero env_data) display_vars in
                     ret (vars, PyDict.mem vars "DISPLAY"
                                || PyDict.mem vars "WAYLAND_DISPLAY"))
                  is_OSError
                  (fun _ => ret (display_vars, false)) ;;
        if snd step then ret (fst step)
        else scan_environs uid rest (fst step)
  end.

(** [get_user_display_env(uid)] *)
Definition get_user_display_env (uid : Z) : M (dict string) :=
  try_except
    (pids <- ask_or OSError (fun t => listdir w t "/proc") ;;
     scan_environs uid pids [])
    is_OSError
    (fun _ => ret []).

(** [start_cart_process(mount_point, run_as_user)] *)
Definition start_cart_process (mount_point : string) (run_as_user : option string)
  : M (option process) :=
  let cart_path := path_join mount_point "cart.yaml" in
  there <- ask (fun t => path_exists w t cart_path) ;;
  if negb there then
    prints "No cart.yaml detected" ;; ret None
  else
    print [OStr "Found cart.yaml at "; OStr cart_path] ;;
    trusted <- verify_cart_signature cart_path ;;
    if negb trusted then
      prints "Execution blocked (untrusted cart)" ;; ret None
    else
      text <- ask_or OSError (fun t => read_file w t cart_path) ;;
      config <- match yaml_safe_load w text with
                | Some v => ret v
                | None => raise YAMLError
                end ;;
      no_exec <- (if negb (PyVal.truthy config) then ret true
                  else has <- lift (PyVal.contains_exec config) ;; ret (negb has)) ;;
      if no_exec : bool then
        prints "No 'exec' field in cart.yaml" ;; ret None
      else
        script <- lift (PyVal.getitem_exec config) ;;
        setup <-
          (match run_as_user with
           | Some user =>
               if PyStr.truthy user then
                 pw <- ask_or KeyError (fun t => getpwnam w t user) ;;
                 let uid := pw_uid pw in
                 let gid := pw_gid pw in
                 let env :=
                   PyDict.set
                     (PyDict.set
                        (PyDict.set
                           (PyDict.set (environ w) "HOME" (pw_dir pw))
                           "USER" user)
                        "LOGNAME" user)
                     "XDG_RUNTIME_DIR" ("/run/user/" ++ str_of_Z uid)%string in
                 user_env <- get_user_display_env uid ;;
                 print [OStr "Executing as "; OStr user; OStr ": "; OVal script] ;;
                 ret (Some (uid, gid), PyDict.update env user_env)
               else
                 print [OStr "Executing: "; OVal script] ;;
                 ret (None, environ w)
           | None =>
               print [OStr "Executing: "; OVal script] ;;
               ret (None, environ w)
           end) ;;
        let req := {| sr_script := script; sr_cwd := mount_point;
                      sr_identity := fst setup; sr_env := snd setup |} in
        launched <- ask (fun t => popen w t req) ;;
        match launched with
        | Ok proc => emit (Spawn req proc) ;; ret (Some proc)
        | Raise e => raise e
        end.

(** [os.killpg(pgid, sig)] *)
Definition os_killpg (pgid : Z) (sig : signal) : M unit :=
  emit (Killpg pgid sig) ;;
  r <- ask (fun t => killpg w t pgid sig) ;;
  match r with
  | Signalled => ret tt
  | NoSuchProcess => raise ProcessLookupError
  | NotPermitted => raise OSError
  end.

(** [proc.wait(timeout)], the timeout in milliseconds *)
Definition wait (proc : process) (timeout_ms : Z) : M unit :=
  emit (Wait proc timeout_ms) ;;
  r <- ask (fun t => proc_wait w t proc timeout_ms) ;;
  match r with
  | Some _ => ret tt
  | None => raise TimeoutExpired
  end.

(** [kill_cart_process(proc)] *)
Definition kill_cart_process (proc : process) : M unit :=
  code <- ask (fun t => proc_poll w t proc) ;;
  match code with
  | Some _ => ret tt
  | None =>
      pgid <- ask (fun t => getpgid w t (pid proc)) ;;
      print [OStr "Killing process group "; ONum pgid] ;;
      try_except
        (os_killpg pgid SIGTERM ;;
         wait proc 3000)
        (fun e => exn_eqb e TimeoutExpired || exn_eqb e ProcessLookupError)
        (fun e => match e with
                  | TimeoutExpired => os_killpg pgid SIGKILL
                  | _ => ret tt
                  end)
  end.

(** *** EventDispatcher *)

Definition event_eqb (a b : event) : bool :=
  String.eqb (fst a) (fst b) && String.eqb (snd a) (snd b).

(** [event == last_event] *)
Definition is_last_event (last : option event) (e : event) : bool :=
  match last with
  | Some l => event_eqb e l
  | None => false
  end.

(** The chain of tests on [device.action] in [monitor]: the event of a
    notification, or [None] where the loop goes on to the next one. *)
Definition classify (d : device) : M (option event) :=
  if PyStr.opt_eqb (action d) "add" then
    ret (Some ("insert", device_node d))
  else if PyStr.opt_eqb (action d) "remove" then
    ret (Some ("remove", device_node d))
  else if PyStr.opt_eqb (action d) "change" then
    media <- has_media d ;;
    ret (Some (if media : bool then "insert" else "remove", device_node d))
  else ret None.

(** What [monitor] does with an event that is not a duplicate. *)
Definition process_event (run_as_user : option string) (e : event) : M unit :=
  let device_node := snd e in
  if String.eqb (fst e) "insert" then
    print [OStr "SD card inserted: "; OStr device_node] ;;
    mount_point <- get_mount_point device_node 5 ;;
    if PyStr.truthy_opt mount_point then
      match mount_point with
      | Some mp =>
          proc <- start_cart_process mp run_as_user ;;
          match proc with
          | Some p =>
              running <- get_running ;;
              set_running (PyDict.set running device_node p)
          | None => ret tt
          end
      | None => ret tt
      end
    else prints "Card not mounted"
  else
    print [OStr "SD card removed: "; OStr device_node] ;;
    running <- get_running ;;
    match PyDict.get running device_node with
    | Some proc =>
        set_running (PyDict.remove running device_node) ;;
        kill_cart_process proc
    | None => ret tt
    end.

(** The body of the loop of [monitor] for one notification. *)
Definition handle_device (run_as_user : option string) (d : device) : M unit :=
  sd <- is_sd_card d ;;
  if negb sd then ret tt
  else
    classified <- classify d ;;
    match classified with
    | None => ret tt
    | Some e =>
        last <- get_last_event ;;
        if is_last_event last e then ret tt
        else
          set_last_event (Some e) ;;
          process_event run_as_user e
    end.

(** How far the loop got on the notifications it was given: still
    waiting in [monitor.poll()], or left because [poll] gave [None]. *)
Inductive loop_end : Type := Polling | Finished.

(** [for device in iter(monitor.poll, None): ...] over the outcomes of the
    successive calls of [monitor.poll()]. *)
Fixpoint event_loop (run_as_user : option string) (polls : list poll_outcome)
  : M loop_end :=
  match polls with
  | [] => ret Polling
  | PollNone :: _ => ret Finished
  | PollRaise e :: _ => raise e
  | PollDevice d :: rest =>
      handle_device run_as_user d ;;
      event_loop run_as_user rest
  end.

(** [for proc in running_processes.values(): kill_cart_process(proc)] *)
Fixpoint kill_all (procs : list process) : M unit :=
  match procs with
  | [] => ret tt
  | proc :: rest => kill_cart_process proc ;; kill_all rest
  end.

Definition newline : string := String (ascii_of_nat 10) EmptyString.

(** [monitor(run_as_user)]; an interrupt arrives as the outcome of a
    [monitor.poll()] call. *)
Definition monitor (run_as_user : option string) (polls : list poll_outcome)
  : M loop_end :=
  prints "Monitoring for SD cards... (Ctrl+C to exit)" ;;
  (if PyStr.truthy_opt run_as_user then
     match run_as_user with
     | Some user => print [OStr "Exec commands will run as: "; OStr user]
     | None => ret tt
     end
   else ret tt) ;;
  set_last_event None ;;
  set_running [] ;;
  try_except
    (event_loop run_as_user polls)
    (fun e => exn_eqb e KeyboardInterrupt)
    (fun _ =>
       prints (newline ++ "Stopping...")%string ;;
       running <- get_running ;;
       kill_all (PyDict.values running) ;;
       prints "Stopped." ;;
       ret Finished).

End Daemon.

(** The state in which [monitor] is entered. *)
Definition boot : St :=
  {| clock := 0; trace := []; last_event := None; running_processes := [] |}.

(** The exit status of the script once [monitor] is over: 0 when it
    returns, 1 when an exception leaves it; [None] while it is still
    waiting for a notification. *)
Definition exit_status (r : result loop_end) : option Z :=
  match r with
  | Ok Polling => None
  | Ok Finished => Some 0%Z
  | Raise _ => Some 1%Z
  end.

(** ** Concrete worlds and notifications *)

Module Demo.

Definition manifest_text : string := "exec: ./run.sh".
Definition manifest : pyval := PDict [(PStr "exec", PStr "./run.sh")].

(** A world where every card is mounted, signed by a trusted key and
    carries the manifest [exec: ./run.sh]; a child gets the time of its
    creation as process id and leads its own group. *)
Definition calm : World :=
  {| path_exists := fun _ _ => true;
     read_file := fun _ _ => Some manifest_text;
     listdir := fun _ _ => Some [];
     proc_mounts := fun _ => Some [["/dev/sda"; "/mnt/a"; "vfat"];
                                   ["/dev/sdb"; "/mnt/b"; "vfat"]];
     stat_uid := fun _ _ => None;
     ssh_keygen_verify := fun _ _ _ _ _ => Exited 0;
     yaml_safe_load := fun text =>
                         if String.eqb text manifest_text then Some manifest else None;
     getpwnam := fun _ name =>
                   if String.eqb name "player"
                   then Some {| pw_uid := 1000; pw_gid := 1000; pw_dir := "/home/player" |}
                   else None;
     environ := [("PATH", "/usr/bin")];
     popen := fun t _ => Ok {| pid := Z.of_nat t |};
     proc_poll := fun _ _ => None;
     getpgid := fun _ p => p;
     killpg := fun _ _ _ => Signalled;
     proc_wait := fun _ _ _ => Some 0%Z |}.

(** [calm] with other answers about the file system, the verifier and
    the YAML parser. *)
Definition variant
    (exists_ : nat -> string -> bool)
    (read : nat -> string -> option string)
    (verify : nat -> string -> string -> string -> string -> verifier_outcome)
    (load : string -> option pyval) : World :=
  {| path_exists := exists_;
     read_file := read;
     listdir := listdir calm;
     proc_mounts := proc_mounts calm;
     stat_uid := stat_uid calm;
     ssh_keygen_verify := verify;
     yaml_safe_load := load;
     getpwnam := getpwnam calm;
     environ := environ calm;
     popen := popen calm;
     proc_poll := proc_poll calm;
     getpgid := getpgid calm;
     killpg := killpg calm;
     proc_wait := proc_wait calm |}.

(** The card carries no [cart.yaml.sig]. *)
Definition unsigned : World :=
  variant (fun _ path => negb (PyStr.endswith path ".sig"))
          (read_file calm) (ssh_keygen_verify calm) (yaml_safe_load calm).

(** The host has no trusted-signer store. *)
Definition no_signers : World :=
  variant (fun _ path => negb (String.eqb path TRUSTED_PUBKEY))
          (read_file calm) (ssh_keygen_verify calm) (yaml_safe_load calm).

(** The verifier rejects every signature. *)
Definition rejecting : World :=
  variant (path_exists calm) (read_file calm)
          (fun _ _ _ _ _ => Exited 255) (yaml_safe_load calm).

(** The verifier cannot be run ([ssh-keygen] is not installed). *)
Definition no_verifier : World :=
  variant (path_exists calm) (read_file calm)
          (fun _ _ _ _ _ => NotStarted) (yaml_safe_load calm).

(** The manifest is signed but is not well-formed YAML. *)
Definition garbled : World :=
  variant (path_exists calm) (fun _ _ => Some "exec: [")
          (ssh_keygen_verify calm) (fun _ => None).

(** The manifest is signed and is the one YAML scalar [execute this]. *)
Definition prose : World :=
  variant (path_exists calm) (fun _ _ => Some "execute this")
          (ssh_keygen_verify calm) (fun _ => Some (PStr "execute this")).

(** The manifest is signed and is an empty file. *)
Definition blank : World :=
  variant (path_exists calm) (fun _ _ => Some "")
          (ssh_keygen_verify calm) (fun _ => Some PNone).

(** The text that replaces the manifest once it has been verified. *)
Definition swapped_text : string := "exec: ./other.sh".

(** The manifest is signed; after the verifier has read it, at time 3,
    the file holds another command.  The verifier accepts the signed
    text only. *)
Definition swapping : World :=
  variant (path_exists calm)
          (fun t _ => if Nat.leb t 3 then Some manifest_text else Some swapped_text)
          (fun _ _ _ _ stdin =>
             if String.eqb stdin manifest_text then Exited 0 else Exited 255)
          (fun text =>
             if String.eqb text manifest_text then Some manifest
             else if String.eqb text swapped_text
                  then Some (PDict [(PStr "exec", PStr "./other.sh")])
                  else None).

(** A USB card reader's disk. *)
Definition card (node act : string) : device :=
  {| device_node := node; device_type := Some "disk";
     action := Some act; properties := [("ID_BUS", "usb")] |}.

(** The daemon after it has started the payload of [/dev/sda]. *)
Definition tracking : St :=
  {| clock := 9; trace := [];
     last_event := Some ("insert", "/dev/sda");
     running_processes := [("/dev/sda", {| pid := 8 |})] |}.

End Demo.

(** ** More worlds *)

Module Scenes.

(** The environment of process 812. *)
Definition session_environ : string :=
  ("HOME=/home/player" ++ String Ascii.zero
   ("DISPLAY=:0" ++ String Ascii.zero
    ("XAUTHORITY=/home/player/.Xauthority" ++ String Ascii.zero
     "DISPLAY=:1")))%string.

(** [Demo.calm] with a session of the account [player]: process 812 is
    theirs and has a display, process 1 is not theirs and process 900 is
    not looked at; the daemon has a display of its own. *)
Definition session : World :=
  {| path_exists := path_exists Demo.calm;
     read_file := fun t path =>
                    if String.eqb path "/proc/812/environ" then Some session_environ
                    else if String.eqb path "/proc/1/environ" then Some "DISPLAY=:9"
                    else read_file Demo.calm t path;
     listdir := fun t path =>
                  if String.eqb path "/proc" then Some ["1"; "self"; "812"; "900"]
                  else listdir Demo.calm t path;
     proc_mounts := proc_mounts Demo.calm;
     stat_uid := fun _ path =>
                   if String.eqb path "/proc/812/stat" then Some 1000%Z
                   else if String.eqb path "/proc/1/stat" then Some 0%Z
                   else None;
     ssh_keygen_verify := ssh_keygen_verify Demo.calm;
     yaml_safe_load := yaml_safe_load Demo.calm;
     getpwnam := getpwnam Demo.calm;
     environ := [("PATH", "/usr/bin"); ("HOME", "/root"); ("DISPLAY", ":7")];
     popen := popen Demo.calm;
     proc_poll := proc_poll Demo.calm;
     getpgid := getpgid Demo.calm;
     killpg := killpg Demo.calm;
     proc_wait := proc_wait Demo.calm |}.

(** [Demo.calm] with a mount table that holds a blank line. *)
Definition blank_line : World :=
  {| path_exists := path_exists Demo.calm;
     read_file := read_file Demo.calm;
     listdir := listdir Demo.calm;
     proc_mounts := fun _ => Some [["tmpfs"; "/run"; "tmpfs"]; [];
                                   ["/dev/sda"; "/mnt/a"; "vfat"]];
     stat_uid := stat_uid Demo.calm;
     ssh_keygen_verify := ssh_keygen_verify Demo.calm;
     yaml_safe_load := yaml_safe_load Demo.calm;
     getpwnam := getpwnam Demo.calm;
     environ := environ Demo.calm;
     popen := popen Demo.calm;
     proc_poll := proc_poll Demo.calm;
     getpgid := getpgid Demo.calm;
     killpg := killpg Demo.calm;
     proc_wait := proc_wait Demo.calm |}.

(** [Demo.calm] where no card is ever mounted. *)
Definition unmounted : World :=
  {| path_exists := path_exists Demo.calm;
     read_file := read_file Demo.calm;
     listdir := fun _ _ => Some ["sda1"; "queue"];
     proc_mounts := fun t => if Nat.even t then None
                             else Some [["tmpfs"; "/run"; "tmpfs"]];
     stat_uid := stat_uid Demo.calm;
     ssh_keygen_verify := ssh_keygen_verify Demo.calm;
     yaml_safe_load := yaml_safe_load Demo.calm;
     getpwnam := getpwnam Demo.calm;
     environ := environ Demo.calm;
     popen := popen Demo.calm;
     proc_poll := proc_poll Demo.calm;
     getpgid := getpgid Demo.calm;
     killpg := killpg Demo.calm;
     proc_wait := proc_wait Demo.calm |}.

(** [Demo.calm] where the daemon may not signal its children. *)
Definition guarded : World :=
  {| path_exists := path_exists Demo.calm;
     read_file := read_file Demo.calm;
     listdir := listdir Demo.calm;
     proc_mounts := proc_mounts Demo.calm;
     stat_uid := stat_uid Demo.calm;
     ssh_keygen_verify := ssh_keygen_verify Demo.calm;
     yaml_safe_load := yaml_safe_load Demo.calm;
     getpwnam := getpwnam Demo.calm;
     environ := environ Demo.calm;
     popen := popen Demo.calm;
     proc_poll := proc_poll Demo.calm;
     getpgid := getpgid Demo.calm;
     killpg := fun _ _ _ => NotPermitted;
     proc_wait := proc_wait Demo.calm |}.

(** The manifest is signed and is the YAML sequence [[exec, ./run.sh]]. *)
Definition listed : World :=
  Demo.variant (path_exists Demo.calm) (fun _ _ => Some "[exec, ./run.sh]")
    (ssh_keygen_verify Demo.calm)
    (fun _ => Some (PList [PStr "exec"; PStr "./run.sh"])).

(** [Demo.calm] where the shell that leads a payload's group has exited
    while the group is still there. *)
Definition orphaned : World :=
  {| path_exists := path_exists Demo.calm;
     read_file := read_file Demo.calm;
     listdir := listdir Demo.calm;
     proc_mounts := proc_mounts Demo.calm;
     stat_uid := stat_uid Demo.calm;
     ssh_keygen_verify := ssh_keygen_verify Demo.calm;
     yaml_safe_load := yaml_safe_load Demo.calm;
     getpwnam := getpwnam Demo.calm;
     environ := environ Demo.calm;
     popen := popen Demo.calm;
     proc_poll := fun _ _ => Some 0%Z;
     getpgid := getpgid Demo.calm;
     killpg := fun _ _ _ => Signalled;
     proc_wait := proc_wait Demo.calm |}.

End Scenes.

(** ** The vocabulary of the statements *)

(** The effects added to the trace between two states. *)
Definition since (s s' : St) : list effect :=
  skipn (length (trace s)) (trace s').

Definition is_spawn (e : effect) : bool :=
  match e with Spawn _ _ => true | _ => false end.

Definition is_killpg (e : effect) : bool :=
  match e with Killpg _ _ => true | _ => false end.

(** Effects that neither create nor signal a process. *)
Definition silent (e : effect) : bool :=
  match e with Print _ | Sleep _ => true | _ => false end.

Definition spawns (tr : list effect) : list effect := filter is_spawn tr.
Definition killpgs (tr : list effect) : list effect := filter is_killpg tr.

(** [frame ok s s']: from [s] to [s'] time went on, only effects allowed
    by [ok] were added, and the local variables of [monitor] are as they
    were. *)
Record frame (ok : effect -> bool) (s s' : St) : Prop := {
  fr_trace : exists d, trace s' = trace s ++ d /\ forallb ok d = true;
  fr_clock : clock s <= clock s';
  fr_last : last_event s' = last_event s;
  fr_running : running_processes s' = running_processes s
}.

(** Every run of [m] is a [frame ok]. *)
Definition Framed {A} (ok : effect -> bool) (m : M A) : Prop :=
  forall s r s', m s = (r, s') -> frame ok s s'.

(** The state after one consultation, and after one effect. *)
Definition advance (s : St) : St := snd (tick s).
Definition log (e : effect) (s : St) : St := snd (emit e s).

(** The state of a daemon that has done nothing but let time pass. *)
Definition at_time (t : nat) : St :=
  {| clock := t; trace := []; last_event := None; running_processes := [] |}.

(** The verdict of [verify_cart_signature] when it is entered at time [t]:
    [Ok true] is the trusted verdict. *)
Definition verdict (w : World) (cart_path : string) (t : nat) : result bool :=
  fst (verify_cart_signature w cart_path (at_time t)).

(** The trust failures of a verification entered at time [t]: the
    signature file is missing, the trusted-signer store is missing, or the
    verifier, run on the manifest's bytes, exits with a nonzero status. *)
Inductive trust_failure (w : World) (cart_path : string) (t : nat) : Prop :=
| signature_missing :
    path_exists w t (cart_path ++ ".sig")%string = false ->
    trust_failure w cart_path t
| signers_missing :
    path_exists w (S t) TRUSTED_PUBKEY = false ->
    trust_failure w cart_path t
| verifier_rejects f code :
    read_file w (S (S t)) cart_path = Some f ->
    ssh_keygen_verify w (S (S (S t))) TRUSTED_PUBKEY SIGNATURE_NAMESPACE
      (cart_path ++ ".sig")%string f = Exited code ->
    code <> 0%Z ->
    trust_failure w cart_path t.

(** The state after an assignment to [last_event], to [running_processes]. *)
Definition with_last (e : option event) (s : St) : St := snd (set_last_event e s).
Definition with_running (d : dict process) (s : St) : St := snd (set_running d s).

(** Every run of [m] appends at most [n] [Spawn] effects. *)
Definition Spawning {A} (n : nat) (m : M A) : Prop :=
  forall s r s', m s = (r, s') ->
    exists d, trace s' = trace s ++ d /\ length (spawns d) <= n.

(** The causes for which [verify_cart_signature] answers [False]. *)
Inductive cause : Type := SignatureMissing | SignersMissing | VerifierRejected.

(** The line printed for each cause. *)
Definition reason (c : cause) : string :=
  match c with
  | SignatureMissing => "ERROR: cart.yaml.sig missing"
  | SignersMissing => "ERROR: Trusted public key missing"
  | VerifierRejected => "ERROR: Signature verification FAILED"
  end.

(** [c] is the first check that fails in a verification entered at [t];
    a verifier that exits nonzero has rejected the signature or has been
    killed by a signal. *)
Definition first_failure (w : World) (cart_path : string) (t : nat) (c : cause)
  : Prop :=
  match c with
  | SignatureMissing =>
      path_exists w t (cart_path ++ ".sig")%string = false
  | SignersMissing =>
      path_exists w t (cart_path ++ ".sig")%string = true
      /\ path_exists w (S t) TRUSTED_PUBKEY = false
  | VerifierRejected =>
      path_exists w t (cart_path ++ ".sig")%string = true
      /\ path_exists w (S t) TRUSTED_PUBKEY = true
      /\ exists f code,
           read_file w (S (S t)) cart_path = Some f
           /\ ssh_keygen_verify w (S (S (S t))) TRUSTED_PUBKEY SIGNATURE_NAMESPACE
                (cart_path ++ ".sig")%string f = Exited code
           /\ code <> 0%Z
  end.

(** [start_cart_process] cut in two at [script = config["exec"]]; the
    two halves are proved to make up the function. *)
Section Halves.

Variable w : World.

(** The first half of [start_cart_process], up to [script = config["exec"]]:
    [None] stands for each of its early [return None]. *)
Definition read_exec (mount_point : string) : M (option pyval) :=
  let cart_path := path_join mount_point "cart.yaml" in
  there <- ask (fun t => path_exists w t cart_path) ;;
  if negb there then
    prints "No cart.yaml detected" ;; ret None
  else
    print [OStr "Found cart.yaml at "; OStr cart_path] ;;
    trusted <- verify_cart_signature w cart_path ;;
    if negb trusted then
      prints "Execution blocked (untrusted cart)" ;; ret None
    else
      text <- ask_or OSError (fun t => read_file w t cart_path) ;;
      config <- match yaml_safe_load w text with
                | Some v => ret v
                | None => raise YAMLError
                end ;;
      no_exec <- (if negb (PyVal.truthy config) then ret true
                  else has <- lift (PyVal.contains_exec config) ;; ret (negb has)) ;;
      if no_exec : bool then
        prints "No 'exec' field in cart.yaml" ;; ret None
      else
        script <- lift (PyVal.getitem_exec config) ;;
        ret (Some script).

(** The identity and the environment of the child. *)
Definition child_setup (run_as_user : option string) (script : pyval)
  : M (option (Z * Z) * dict string) :=
  match run_as_user with
  | Some user =>
      if PyStr.truthy user then
        pw <- ask_or KeyError (fun t => getpwnam w t user) ;;
        let uid := pw_uid pw in
        let gid := pw_gid pw in
        let env :=
          PyDict.set
            (PyDict.set
               (PyDict.set
                  (PyDict.set (environ w) "HOME" (pw_dir pw))
                  "USER" user)
               "LOGNAME" user)
            "XDG_RUNTIME_DIR" ("/run/user/" ++ str_of_Z uid)%string in
        user_env <- get_user_display_env w uid ;;
        print [OStr "Executing as "; OStr user; OStr ": "; OVal script] ;;
        ret (Some (uid, gid), PyDict.update env user_env)
      else
        print [OStr "Executing: "; OVal script] ;;
        ret (None, environ w)
  | None =>
      print [OStr "Executing: "; OVal script] ;;
      ret (None, environ w)
  end.

(** The second half: the setup of the child and its creation. *)
Definition launch (mount_point : string) (run_as_user : option string)
    (script : pyval) : M (option process) :=
  setup <- child_setup run_as_user script ;;
  let req := {| sr_script := script; sr_cwd := mount_point;
                sr_identity := fst setup; sr_env := snd setup |} in
  launched <- ask (fun t => popen w t req) ;;
  match launched with
  | Ok proc => emit (Spawn req proc) ;; ret (Some proc)
  | Raise e => raise e
  end.

End Halves.

(** The state in which [monitor] enters its loop. *)
Definition started (run_as_user : option string) (s : St) : St :=
  with_running [] (with_last None
    (match run_as_user with
     | Some user =>
         if PyStr.truthy user
         then log (Print [OStr "Exec commands will run as: "; OStr user])
                (log (Print [OStr "Monitoring for SD cards... (Ctrl+C to exit)"]) s)
         else log (Print [OStr "Monitoring for SD cards... (Ctrl+C to exit)"]) s
     | None => log (Print [OStr "Monitoring for SD cards... (Ctrl+C to exit)"]) s
     end)).

(** The handler of [KeyboardInterrupt] in [monitor]. *)
Definition shutdown (w : World) : M loop_end :=
  prints (newline ++ "Stopping...")%string ;;
  running <- get_running ;;
  kill_all w (PyDict.values running) ;;
  prints "Stopped." ;;
  ret Finished.

(** From [s] to [s'] no process was created or signalled and the mapping
    is as it was ([last_event] may have changed). *)
Definition quiet (s s' : St) : Prop :=
  exists d, trace s' = trace s ++ d
            /\ forallb silent d = true
            /\ running_processes s' = running_processes s.

(** The ways in which a manifest is not run: it is absent; it is trusted
    but holds no [exec]; it is trusted but is not YAML. *)
Inductive defect : Type := Absent | NoExec | Unparsable.

(** The manifest at [cart_path] has the defect when [start_cart_process]
    is entered at time [t]; a trusted verification takes the four
    consultations after [t], so the manifest is read again at [t + 5]. *)
Definition has_defect (w : World) (cart_path : string) (t : nat) (df : defect)
  : Prop :=
  match df with
  | Absent => path_exists w t cart_path = false
  | NoExec =>
      path_exists w t cart_path = true
      /\ verdict w cart_path (S t) = Ok true
      /\ exists text config,
           read_file w (5 + t) cart_path = Some text
           /\ yaml_safe_load w text = Some config
           /\ (PyVal.truthy config = false
               \/ PyVal.contains_exec config = Ok false)
  | Unparsable =>
      path_exists w t cart_path = true
      /\ verdict w cart_path (S t) = Ok true
      /\ exists text,
           read_file w (5 + t) cart_path = Some text
           /\ yaml_safe_load w text = None
  end.

(** How the insert event ends on each defect, and the last line printed
    before it does. *)
Definition defect_result (df : defect) : result unit :=
  match df with
  | Absent | NoExec => Ok tt
  | Unparsable => Raise YAMLError
  end.

Definition defect_line (df : defect) : string :=
  match df with
  | Absent => "No cart.yaml detected"
  | NoExec => "No 'exec' field in cart.yaml"
  | Unparsable => "Signature verification OK"
  end.

(** The line [verify_cart_signature] prints before it answers [True]. *)
Definition is_trusted_line (e : effect) : bool :=
  match e with
  | Print [OStr text] => String.eqb text "Signature verification OK"
  | _ => false
  end.

(** [gated trusted tr]: every [Spawn] of [tr] comes after a trusted line
    printed since the [Spawn] before it; [trusted] tells whether such a
    line is already there when [tr] begins. *)
Fixpoint gated (trusted : bool) (tr : list effect) : bool :=
  match tr with
  | [] => true
  | e :: tr' =>
      if is_spawn e then trusted && gated false tr'
      else gated (trusted || is_trusted_line e) tr'
  end.

(** Every run of [m] appends a gated list of effects. *)
Definition Gated {A} (m : M A) : Prop :=
  forall s r s', m s = (r, s') ->
    exists d, trace s' = trace s ++ d /\ gated false d = true.

(** [kill_cart_process] has dealt with [proc] from [s] to [s']: the call
    that is entered in [s] returns normally, in [s'], and it has found
    the child exited and done nothing, or has announced the kill and
    called [os.killpg] with [SIGTERM] on the child's process group. *)
Definition dealt_with (w : World) (proc : process) (s s' : St) : Prop :=
  kill_cart_process w proc s = (Ok tt, s')
  /\ match proc_poll w (clock s) proc with
     | Some _ => since s s' = []
     | None =>
         let pgid := getpgid w (S (clock s)) (pid proc) in
         exists tail,
           since s s' = Print [OStr "Killing process group "; ONum pgid]
                          :: Killpg pgid SIGTERM :: tail
     end.

(** The sweep of the interrupt handler has gone through [procs] from [s]
    to [s']: [kill_cart_process] has dealt with each of them, in this
    order, every call entered in the state in which the call before it
    returned. *)
Fixpoint swept (w : World) (procs : list process) (s s' : St) : Prop :=
  match procs with
  | [] => s' = s
  | proc :: rest =>
      exists s1, dealt_with w proc s s1 /\ swept w rest s1 s'
  end.

(** *** The classifier *)

(** The sysfs attributes the classifier reads for a device node. *)
Definition removable_path (node : string) : string :=
  ("/sys/block/" ++ PyStr.last_component node ++ "/removable")%string.

Definition size_path (node : string) : string :=
  ("/sys/block/" ++ PyStr.last_component node ++ "/size")%string.

(** What makes a device an SD card for [is_sd_card] entered at time [t]:
    a whole disk with a node, which is a native reader, or a [/dev/sd*]
    disk on the USB bus or flagged removable in sysfs. *)
Definition card_like (w : World) (d : device) (t : nat) : Prop :=
  device_node d <> ""
  /\ device_type d = Some "disk"
  /\ (PyStr.contains "mmcblk" (device_node d) = true
      \/ (PyStr.startswith (device_node d) "/dev/sd" = true
          /\ (PyDict.get (properties d) "ID_BUS" = Some "usb"
              \/ (PyDict.get (properties d) "DEVTYPE" = Some "disk"
                  /\ exists text,
                       read_file w t (removable_path (device_node d)) = Some text
                       /\ PyStr.strip text = "1")))).

(** What makes [has_media] answer [True] when it is entered at time [t]. *)
Definition media_present (w : World) (d : device) (t : nat) : Prop :=
  (exists v, PyDict.get (properties d) "ID_PART_TABLE_TYPE" = Some v /\ v <> "")
  \/ (exists v, PyDict.get (properties d) "ID_FS_TYPE" = Some v /\ v <> "")
  \/ (exists text n,
        read_file w t (size_path (device_node d)) = Some text
        /\ PyStr.int (PyStr.strip text) = Some n
        /\ (0 < n)%Z).

(** *** The mount table *)

(** The device names [get_mount_point] looks for in the mount table: the
    node itself, or [/dev/] followed by an entry of the disk's sysfs
    directory that starts with the disk's name. *)
Definition candidate (node p : string) : Prop :=
  p = node
  \/ exists entry,
       PyStr.startswith entry (PyStr.last_component node) = true
       /\ p = ("/dev/" ++ entry)%string.

(** A device name [get_mount_point] has come to look for in a call
    entered at time [t0]: the node itself, or [/dev/] followed by an entry
    that a listing of the disk's sysfs directory held, during the call,
    and that starts with the disk's name. *)
Definition listed_candidate (w : World) (node : string) (t0 : nat) (p : string)
  : Prop :=
  p = node
  \/ exists t entries entry,
       t0 <= t
       /\ listdir w t ("/sys/block/" ++ PyStr.last_component node)%string
          = Some entries
       /\ In entry entries
       /\ PyStr.startswith entry (PyStr.last_component node) = true
       /\ p = ("/dev/" ++ entry)%string.

(** The value of [partitions] after the sysfs listing of a round that
    is entered at time [t] with the list [partitions]. *)
Definition partitions_after (w : World) (node : string) (t : nat)
    (partitions : list string) : list string :=
  let dev_name := PyStr.last_component node in
  let found :=
    match listdir w t ("/sys/block/" ++ dev_name)%string with
    | Some entries =>
        partitions ++
        map (fun entry => ("/dev/" ++ entry)%string)
            (filter (fun entry => PyStr.startswith entry dev_name) entries)
    | None => partitions
    end in
  match found with
  | [] => [node]
  | _ => found
  end.

(** The outcome of the scan of the mount table, which consults nothing. *)
Definition scan_result (partitions : list string) (lines : list (list string))
  : result (option string) :=
  fst (scan_mounts partitions lines boot).

(** A line of the mount table whose first field is no candidate. *)
Definition foreign_line (node : string) (parts : list string) : Prop :=
  exists p0 rest, parts = p0 :: rest /\ ~ candidate node p0.

(** No mount table ever holds a line for the node or one of its
    partitions. *)
Definition never_mounted (w : World) (node : string) : Prop :=
  forall t,
    match proc_mounts w t with
    | Some lines => Forall (foreign_line node) lines
    | None => True
    end.

(** *** The verification *)

(** The signature of the manifest is accepted by a verification entered
    at time [t]: both files exist and the verifier exits with status 0 on
    the manifest's bytes. *)
Definition accepted (w : World) (cart_path : string) (t : nat) : Prop :=
  path_exists w t (cart_path ++ ".sig")%string = true
  /\ path_exists w (S t) TRUSTED_PUBKEY = true
  /\ exists f,
       read_file w (S (S t)) cart_path = Some f
       /\ ssh_keygen_verify w (S (S (S t))) TRUSTED_PUBKEY SIGNATURE_NAMESPACE
            (cart_path ++ ".sig")%string f = Exited 0.

(** The verification cannot be carried out: both files exist, but the
    manifest cannot be read or the verifier cannot be started. *)
Definition cannot_verify (w : World) (cart_path : string) (t : nat) : Prop :=
  path_exists w t (cart_path ++ ".sig")%string = true
  /\ path_exists w (S t) TRUSTED_PUBKEY = true
  /\ (read_file w (S (S t)) cart_path = None
      \/ exists f,
           read_file w (S (S t)) cart_path = Some f
           /\ ssh_keygen_verify w (S (S (S t))) TRUSTED_PUBKEY SIGNATURE_NAMESPACE
                (cart_path ++ ".sig")%string f = NotStarted).

(** *** The session and the child *)

(** The two files of a process that [get_user_display_env] reads. *)
Definition stat_path (pid : string) : string := ("/proc/" ++ pid ++ "/stat")%string.
Definition environ_path (pid : string) : string := ("/proc/" ++ pid ++ "/environ")%string.

(** The variable [key=val] stands in the environment of a process of
    [uid] that is listed in [pids]: its owner was looked up at some time
    [t] and its environment read right after. *)
Definition in_session (w : World) (uid : Z) (pids : list string) (key val : string)
  : Prop :=
  exists pid t env_data,
    In pid pids
    /\ PyStr.isdigit pid = true
    /\ stat_uid w t (stat_path pid) = Some uid
    /\ read_file w (S t) (environ_path pid) = Some env_data
    /\ In (key ++ "=" ++ val)%string (PyStr.split Ascii.zero env_data).

(** A dictionary of display variables: distinct keys, all of them targets. *)
Definition display_keys (vars : dict string) : Prop :=
  NoDup (map fst vars) /\ incl (map fst vars) target_vars.

(** The effects that are printed lines. *)
Definition is_print (e : effect) : bool :=
  match e with Print _ => true | _ => false end.

(** The variables [start_cart_process] sets from the account. *)
Definition account_vars : list string :=
  ["HOME"; "USER"; "LOGNAME"; "XDG_RUNTIME_DIR"].

(** *** Whole runs *)

(** The notifications among the outcomes of [monitor.poll()]. *)
Definition is_notification (o : poll_outcome) : bool :=
  match o with PollDevice _ => true | _ => false end.

(** [p] is a child of the daemon: it was created between [s0] and [s]. *)
Definition is_child (s0 s : St) (p : process) : Prop :=
  exists req, In (Spawn req p) (since s0 s).

(** Between [s0] and [s] the daemon has dealt with its own children only:
    every process it tracks is a child, and every signal it has sent went
    to the process group that [os.getpgid] gave for a child. *)
Definition own_children (w : World) (s0 s : St) : Prop :=
  (exists d, trace s = trace s0 ++ d)
  /\ (forall node p, In (node, p) (running_processes s) -> is_child s0 s p)
  /\ (forall pgid sig,
        In (Killpg pgid sig) (since s0 s) ->
        exists t p, is_child s0 s p /\ pgid = getpgid w t (pid p)).

(** *** The manifest *)

(** What [start_cart_process] makes of a parsed manifest: a command to
    run, no command, or an exception. *)
Definition command_of (config : pyval) : result (option pyval) :=
  match config with
  | PDict kv =>
      match find (fun p => PyVal.is_exec (fst p)) kv with
      | Some p => Ok (Some (snd p))
      | None => Ok None
      end
  | PList l => if existsb PyVal.is_exec l then Raise TypeError else Ok None
  | PStr text => if PyStr.contains "exec" text then Raise TypeError else Ok None
  | PNone => Ok None
  | PBool b => if b then Raise TypeError else Ok None
  | PInt z => if Z.eqb z 0 then Ok None else Raise TypeError
  end.

(** ** Reasoning about runs *)

Lemma frame_refl ok s : frame ok s s.
Proof.
  split; auto. exists []. now rewrite app_nil_r.
Qed.

Lemma frame_trans ok s1 s2 s3 : frame ok s1 s2 -> frame ok s2 s3 -> frame ok s1 s3.
Proof.
  intros [[d1 [T1 O1]] C1 L1 R1] [[d2 [T2 O2]] C2 L2 R2]. split.
  - exists (d1 ++ d2). rewrite T2, T1, app_assoc, forallb_app, O1, O2. auto.
  - lia.
  - congruence.
  - congruence.
Qed.

Lemma frame_weaken (ok ok' : effect -> bool) s s' :
  (forall e, ok e = true -> ok' e = true) -> frame ok s s' -> frame ok' s s'.
Proof.
  intros Hsub [[d [T O]] C L R]. split; auto.
  exists d. split; auto.
  rewrite forallb_forall in *. auto.
Qed.

Lemma frame_since ok s s' :
  frame ok s s' -> trace s' = trace s ++ since s s' /\ forallb ok (since s s') = true.
Proof.
  intros [[d [T O]] _ _ _]. unfold since. rewrite T.
  rewrite skipn_app, skipn_all, Nat.sub_diag. simpl. auto.
Qed.

Lemma Framed_ret {A} ok (a : A) : Framed ok (ret a).
Proof. intros s r s' H. inversion H. apply frame_refl. Qed.

Lemma Framed_raise {A} ok e : Framed ok (@raise A e).
Proof. intros s r s' H. inversion H. apply frame_refl. Qed.

Lemma Framed_lift {A} ok (x : result A) : Framed ok (lift x).
Proof. intros s r s' H. inversion H. apply frame_refl. Qed.

Lemma Framed_tick ok : Framed ok tick.
Proof.
  intros s r s' H. inversion H. split; simpl; auto.
  exists []. now rewrite app_nil_r.
Qed.

Lemma Framed_emit ok e : ok e = true -> Framed ok (emit e).
Proof.
  intros He s r s' H. inversion H. split; simpl; auto.
  exists [e]. simpl. now rewrite He.
Qed.

Lemma Framed_bind {A B} ok (m : M A) (k : A -> M B) :
  Framed ok m -> (forall a, Framed ok (k a)) -> Framed ok (bind m k).
Proof.
  intros Hm Hk s r s' H. unfold bind in H.
  destruct (m s) as [[a | e] s1] eqn:E.
  - eapply frame_trans; [eapply Hm; eauto | eapply Hk; eauto].
  - inversion H; subst. eapply Hm; eauto.
Qed.

Lemma Framed_try {A} ok (m : M A) catches (h : exn -> M A) :
  Framed ok m -> (forall e, Framed ok (h e)) -> Framed ok (try_except m catches h).
Proof.
  intros Hm Hh s r s' H. unfold try_except in H.
  destruct (m s) as [[a | e] s1] eqn:E.
  - inversion H; subst. eapply Hm; eauto.
  - destruct (catches e).
    + eapply frame_trans; [eapply Hm; eauto | eapply Hh; eauto].
    + inversion H; subst. eapply Hm; eauto.
Qed.

Lemma Framed_ask {A} ok (q : nat -> A) : Framed ok (ask q).
Proof.
  apply Framed_bind; [apply Framed_tick | intros; apply Framed_ret].
Qed.

Lemma Framed_ask_or {A} ok e (q : nat -> option A) : Framed ok (ask_or e q).
Proof.
  apply Framed_bind; [apply Framed_ask |].
  intros [a |]; [apply Framed_ret | apply Framed_raise].
Qed.

Lemma Framed_weaken {A} (ok ok' : effect -> bool) (m : M A) :
  (forall e, ok e = true -> ok' e = true) -> Framed ok m -> Framed ok' m.
Proof.
  intros Hsub Hm s r s' H. eapply frame_weaken; eauto.
Qed.

(** Walks through a computation built from the monad's operations. *)
Ltac framed :=
  repeat first
    [ match goal with H : _ |- Framed _ _ => apply H end
    | apply Framed_ret | apply Framed_raise | apply Framed_lift
    | apply Framed_tick | apply Framed_ask | apply Framed_ask_or
    | apply Framed_emit; reflexivity
    | apply Framed_bind; [ | intros ]
    | apply Framed_try; [ | intros ]
    | progress cbv zeta
    | match goal with
      | |- Framed _ (match ?x with _ => _ end) => destruct x
      end ].

Section Frames.

Variable w : World.

Lemma is_sd_card_silent d : Framed silent (is_sd_card w d).
Proof. unfold is_sd_card. framed. Qed.

Lemma has_media_silent d : Framed silent (has_media w d).
Proof. unfold has_media. framed. Qed.

Lemma classify_silent d : Framed silent (classify w d).
Proof.
  pose proof (has_media_silent d). unfold classify. framed.
Qed.

Lemma scan_mounts_silent partitions lines : Framed silent (scan_mounts partitions lines).
Proof.
  induction lines as [| parts rest IH]; simpl; framed.
Qed.

Lemma mount_rounds_silent node n :
  forall partitions, Framed silent (mount_rounds w node n partitions).
Proof.
  induction n as [| n IH]; intros partitions; simpl; framed;
    apply scan_mounts_silent.
Qed.

Lemma get_mount_point_silent node timeout :
  Framed silent (get_mount_point w node timeout).
Proof. apply mount_rounds_silent. Qed.

Lemma verify_cart_signature_silent cart_path :
  Framed silent (verify_cart_signature w cart_path).
Proof. unfold verify_cart_signature, prints, print. framed. Qed.

Lemma scan_environs_silent uid pids :
  forall vars, Framed silent (scan_environs w uid pids vars).
Proof.
  induction pids as [| pid rest IH]; intros vars; simpl; framed.
Qed.

Lemma get_user_display_env_silent uid : Framed silent (get_user_display_env w uid).
Proof.
  unfold get_user_display_env. framed. apply scan_environs_silent.
Qed.

(** [start_cart_process] sends no signal. *)
Lemma start_cart_process_no_signal mount_point user :
  Framed (fun e => silent e || is_spawn e) (start_cart_process w mount_point user).
Proof.
  assert (Hsub : forall e, silent e = true -> silent e || is_spawn e = true)
    by (intros e ->; reflexivity).
  pose proof (Framed_weaken _ _ _ Hsub
                (verify_cart_signature_silent (path_join mount_point "cart.yaml"))).
  assert (forall uid, Framed (fun e => silent e || is_spawn e)
                        (get_user_display_env w uid))
    by (intros uid; eapply Framed_weaken; [exact Hsub | apply get_user_display_env_silent]).
  unfold start_cart_process, prints, print. framed.
  all: auto.
Qed.

(** [kill_cart_process] creates no process. *)
Lemma kill_cart_process_no_spawn proc :
  Framed (fun e => negb (is_spawn e)) (kill_cart_process w proc).
Proof.
  unfold kill_cart_process, os_killpg, wait, print. framed.
Qed.

Lemma kill_all_no_spawn procs :
  Framed (fun e => negb (is_spawn e)) (kill_all w procs).
Proof.
  pose proof (kill_cart_process_no_spawn).
  induction procs as [| p rest IH]; simpl; framed.
Qed.

End Frames.

(** ** Stepping through a run *)

Lemma bind_ask {A B} (q : nat -> A) (k : A -> M B) s :
  bind (ask q) k s = k (q (clock s)) (advance s).
Proof. reflexivity. Qed.

Lemma bind_emit {B} e (k : unit -> M B) s :
  bind (emit e) k s = k tt (log e s).
Proof. reflexivity. Qed.

Lemma bind_ret {A B} (a : A) (k : A -> M B) s : bind (ret a) k s = k a s.
Proof. reflexivity. Qed.

Lemma bind_ext {A B} (m : M A) (k k' : A -> M B) s :
  (forall a s', k a s' = k' a s') -> bind m k s = bind m k' s.
Proof.
  intros H. unfold bind. destruct (m s) as [[a | e] s1]; auto.
Qed.

Lemma bind_bind {A B C} (m : M A) (k : A -> M B) (h : B -> M C) s :
  bind (bind m k) h s = bind m (fun a => bind (k a) h) s.
Proof.
  unfold bind. destruct (m s) as [[a | e] s1]; reflexivity.
Qed.

(** Runs the leading consultations and effects of a computation. *)
Ltac steps :=
  repeat first [ rewrite bind_bind | rewrite bind_emit | rewrite bind_ask
               | rewrite bind_ret ].

Lemma frame_advance ok s : frame ok s (advance s).
Proof. apply (Framed_tick ok s (Ok (clock s))). reflexivity. Qed.

Lemma frame_log ok e s : ok e = true -> frame ok s (log e s).
Proof. intros He. apply (Framed_emit ok e He s (Ok tt)). reflexivity. Qed.

Lemma silent_no_spawn s s' : frame silent s s' -> spawns (since s s') = [].
Proof.
  intros F. apply frame_since in F. destruct F as [_ F].
  unfold spawns. induction (since s s') as [| e d IH]; simpl in *; auto.
  apply andb_prop in F. destruct F as [Fe Fd].
  destruct e; simpl in *; auto; discriminate.
Qed.

(** ** The verdict on a manifest *)

Section Trust.

Variable w : World.

Lemma verdict_of_run cart_path s :
  fst (verify_cart_signature w cart_path s) = verdict w cart_path (clock s).
Proof.
  unfold verdict, verify_cart_signature, prints, print.
  rewrite !bind_ask. simpl (clock (at_time _)).
  destruct (path_exists w (clock s) _); cbn [negb].
  2: reflexivity.
  rewrite !bind_ask. simpl (clock (advance _)).
  destruct (path_exists w (S (clock s)) _); cbn [negb].
  2: reflexivity.
  unfold try_except, ask_or. rewrite !bind_bind, !bind_ask.
  simpl (clock (advance _)).
  destruct (read_file w (S (S (clock s))) cart_path) as [f |]; [| reflexivity].
  rewrite ?bind_ret, ?bind_bind, ?bind_ask. simpl (clock (advance _)).
  destruct (ssh_keygen_verify w (S (S (S (clock s)))) _ _ _ f) as [code |];
    [| reflexivity].
  destruct code; reflexivity.
Qed.

Lemma trust_failure_verdict cart_path t :
  trust_failure w cart_path t -> verdict w cart_path t = Ok false.
Proof.
  intros TF. unfold verdict, verify_cart_signature, prints, print.
  rewrite !bind_ask. simpl (clock (at_time _)).
  destruct (path_exists w t _) eqn:Esig; cbn [negb].
  2: reflexivity.
  rewrite !bind_ask. simpl (clock (advance _)).
  destruct (path_exists w (S t) _) eqn:Ekey; cbn [negb].
  2: reflexivity.
  destruct TF as [H | H | f code Hf Hv Hc]; try congruence.
  unfold try_except, ask_or. rewrite !bind_bind, !bind_ask.
  simpl (clock (advance _)). rewrite Hf.
  rewrite ?bind_ret, ?bind_bind, ?bind_ask. simpl (clock (advance _)).
  rewrite Hv. destruct code; try reflexivity. congruence.
Qed.

End Trust.

(** ** The dispatcher, one notification at a time *)

Section Dispatch.

Variable w : World.
Variable run_as_user : option string.

(** What an insert event does, by the outcome of its steps. *)
Lemma process_event_insert node s :
  process_event w run_as_user ("insert", node) s =
  match get_mount_point w node 5 (log (Print [OStr "SD card inserted: "; OStr node]) s) with
  | (Ok (Some mp), s1) =>
      if PyStr.truthy mp then
        match start_cart_process w mp run_as_user s1 with
        | (Ok (Some p), s2) =>
            (Ok tt, with_running (PyDict.set (running_processes s2) node p) s2)
        | (Ok None, s2) => (Ok tt, s2)
        | (Raise e, s2) => (Raise e, s2)
        end
      else (Ok tt, log (Print [OStr "Card not mounted"]) s1)
  | (Ok None, s1) => (Ok tt, log (Print [OStr "Card not mounted"]) s1)
  | (Raise e, s1) => (Raise e, s1)
  end.
Proof.
  unfold process_event. cbn [fst snd String.eqb Ascii.eqb Bool.eqb].
  unfold print at 1. rewrite bind_emit. unfold bind at 1.
  destruct (get_mount_point w node 5 _) as [[[mp |] | e] s1]; try reflexivity.
  cbn [PyStr.truthy_opt]. destruct (PyStr.truthy mp); [| reflexivity].
  unfold bind at 1.
  destruct (start_cart_process w mp run_as_user s1) as [[[p |] | e] s2];
    reflexivity.
Qed.

(** What a remove event does. *)
Lemma process_event_remove node s :
  process_event w run_as_user ("remove", node) s =
  let s0 := log (Print [OStr "SD card removed: "; OStr node]) s in
  match PyDict.get (running_processes s) node with
  | Some proc =>
      kill_cart_process w proc
        (with_running (PyDict.remove (running_processes s) node) s0)
  | None => (Ok tt, s0)
  end.
Proof.
  unfold process_event. cbn [fst snd String.eqb Ascii.eqb Bool.eqb].
  unfold print at 1. rewrite bind_emit. unfold get_running, bind at 1.
  cbn [running_processes log emit snd].
  destruct (PyDict.get (running_processes s) node); reflexivity.
Qed.

(** The loop body, by the outcome of its steps. *)
Lemma handle_device_steps d s :
  handle_device w run_as_user d s =
  match is_sd_card w d s with
  | (Ok true, s1) =>
      match classify w d s1 with
      | (Ok (Some e), s2) =>
          if is_last_event (last_event s2) e then (Ok tt, s2)
          else process_event w run_as_user e (with_last (Some e) s2)
      | (Ok None, s2) => (Ok tt, s2)
      | (Raise x, s2) => (Raise x, s2)
      end
  | (Ok false, s1) => (Ok tt, s1)
  | (Raise x, s1) => (Raise x, s1)
  end.
Proof.
  unfold handle_device. unfold bind at 1.
  destruct (is_sd_card w d s) as [[[|] | x] s1]; try reflexivity.
  cbn [negb]. unfold bind at 1.
  destruct (classify w d s1) as [[[e |] | x] s2]; try reflexivity.
  unfold get_last_event, bind at 1.
  destruct (is_last_event (last_event s2) e); reflexivity.
Qed.

(** An exception of the loop body ends the loop: no later notification is
    looked at. *)
Lemma event_loop_raises d rest s x s' :
  handle_device w run_as_user d s = (Raise x, s') ->
  event_loop w run_as_user (PollDevice d :: rest) s = (Raise x, s').
Proof.
  intros H. simpl. unfold bind. now rewrite H.
Qed.

Lemma event_loop_goes_on d rest s s' :
  handle_device w run_as_user d s = (Ok tt, s') ->
  event_loop w run_as_user (PollDevice d :: rest) s = event_loop w run_as_user rest s'.
Proof.
  intros H. simpl. unfold bind. now rewrite H.
Qed.

End Dispatch.

(** ** Classification of notifications *)

Lemma opt_eqb_false o lit : o <> Some lit -> PyStr.opt_eqb o lit = false.
Proof.
  intros H. destruct o as [x |]; simpl; auto.
  apply String.eqb_neq. congruence.
Qed.

(** [has_media] always answers: its exceptions are caught. *)
Lemma has_media_answers w d s :
  exists media s', has_media w d s = (Ok media, s').
Proof.
  unfold has_media.
  destruct (PyStr.truthy_opt (PyDict.get (properties d) "ID_PART_TABLE_TYPE"));
    [now eexists _, _ |].
  destruct (PyStr.truthy_opt (PyDict.get (properties d) "ID_FS_TYPE"));
    [now eexists _, _ |].
  unfold try_except, ask_or. rewrite bind_bind, bind_ask.
  destruct (read_file w (clock s) _) as [text |]; [| now eexists _, _].
  rewrite bind_ret.
  destruct (PyStr.int (PyStr.strip text)); now eexists _, _.
Qed.

(** C8: the event of a "change" notification is decided by [has_media]
    alone: insert when media is present, remove when it is absent; and a
    notification whose action is none of add, remove and change yields no
    event: on a qualifying device the loop body returns right after the
    test of the device, with no effect. *)
Theorem change_is_classified_by_media
    (w : World) (run_as_user : option string) (d : device) :
  (action d = Some "change" ->
   forall s, exists media s',
     has_media w d s = (Ok media, s') /\
     classify w d s =
       (Ok (Some (if media then "insert" else "remove", device_node d)), s'))
  /\ (action d <> Some "add" -> action d <> Some "remove" ->
      action d <> Some "change" ->
      forall s,
        classify w d s = (Ok None, s) /\
        forall s1, is_sd_card w d s = (Ok true, s1) ->
                   handle_device w run_as_user d s = (Ok tt, s1)).
Proof.
  split.
  - intros Hact s. destruct (has_media_answers w d s) as [media [s' Hm]].
    exists media, s'. split; [exact Hm |].
    unfold classify. rewrite Hact. cbn -[has_media].
    unfold bind. rewrite Hm. reflexivity.
  - intros Ha Hr Hc.
    assert (Hcl : forall s, classify w d s = (Ok None, s)).
    { intros s. unfold classify.
      now rewrite (opt_eqb_false _ _ Ha), (opt_eqb_false _ _ Hr), (opt_eqb_false _ _ Hc). }
    intros s. split; [apply Hcl |].
    intros s1 Hsd. rewrite handle_device_steps, Hsd, Hcl. reflexivity.
Qed.

(** A "change" on a card reader whose size attribute is not a number. *)
Lemma change_is_classified_by_media_witness :
  exists media s',
    has_media Demo.calm (Demo.card "/dev/sda" "change") boot = (Ok media, s') /\
    classify Demo.calm (Demo.card "/dev/sda" "change") boot =
      (Ok (Some (if media then "insert" else "remove", "/dev/sda")), s').
Proof.
  exact (proj1 (change_is_classified_by_media Demo.calm None
                  (Demo.card "/dev/sda" "change")) eq_refl boot).
Defined.

(** ** Counting launches *)

Lemma spawns_app d1 d2 : spawns (d1 ++ d2) = spawns d1 ++ spawns d2.
Proof. apply filter_app. Qed.

Lemma since_of_trace s s' d : trace s' = trace s ++ d -> since s s' = d.
Proof.
  intros H. unfold since. rewrite H, skipn_app, skipn_all, Nat.sub_diag.
  reflexivity.
Qed.

Lemma Spawning_quiet {A} (ok : effect -> bool) (m : M A) :
  (forall e, ok e = true -> is_spawn e = false) -> Framed ok m -> Spawning 0 m.
Proof.
  intros Hok Hm s r s' H. destruct (Hm _ _ _ H) as [[d [T O]] _ _ _].
  exists d. split; auto.
  assert (Hd : spawns d = []).
  { clear T. unfold spawns. induction d as [| e d IH]; simpl in *; auto.
    apply andb_prop in O. destruct O as [Oe Od].
    rewrite (Hok _ Oe). auto. }
  rewrite Hd. auto.
Qed.

Lemma Spawning_silent {A} (m : M A) : Framed silent m -> Spawning 0 m.
Proof.
  apply Spawning_quiet. intros [] H; simpl in *; auto; discriminate.
Qed.

Lemma Spawning_more {A} n n' (m : M A) : n <= n' -> Spawning n m -> Spawning n' m.
Proof.
  intros Hle Hm s r s' H. destruct (Hm _ _ _ H) as [d [T L]].
  exists d. split; auto. lia.
Qed.

Lemma Spawning_bind {A B} n (m : M A) (k : A -> M B) :
  Spawning 0 m -> (forall a, Spawning n (k a)) -> Spawning n (bind m k).
Proof.
  intros Hm Hk s r s' H. unfold bind in H.
  destruct (m s) as [[a | e] s1] eqn:E.
  - destruct (Hm _ _ _ E) as [d1 [T1 L1]]. destruct (Hk _ _ _ _ H) as [d2 [T2 L2]].
    exists (d1 ++ d2). rewrite T2, T1, app_assoc, spawns_app, length_app.
    split; auto. lia.
  - inversion H; subst. destruct (Hm _ _ _ E) as [d1 [T1 L1]].
    exists d1. split; auto. lia.
Qed.

Lemma Spawning_bind_last {A B} n (m : M A) (k : A -> M B) :
  Spawning n m -> (forall a, Spawning 0 (k a)) -> Spawning n (bind m k).
Proof.
  intros Hm Hk s r s' H. unfold bind in H.
  destruct (m s) as [[a | e] s1] eqn:E.
  - destruct (Hm _ _ _ E) as [d1 [T1 L1]]. destruct (Hk _ _ _ _ H) as [d2 [T2 L2]].
    exists (d1 ++ d2). rewrite T2, T1, app_assoc, spawns_app, length_app.
    split; auto. lia.
  - inversion H; subst. destruct (Hm _ _ _ E) as [d1 [T1 L1]].
    exists d1. split; auto.
Qed.

Lemma Spawning_ret {A} n (a : A) : Spawning n (ret a).
Proof.
  intros s r s' H. inversion H. exists []. rewrite app_nil_r. simpl. split; auto. lia.
Qed.

Lemma Spawning_raise {A} n e : Spawning n (@raise A e).
Proof.
  intros s r s' H. inversion H. exists []. rewrite app_nil_r. simpl. split; auto. lia.
Qed.

Lemma Spawning_emit e : Spawning 1 (emit e).
Proof.
  intros s r s' H. inversion H. exists [e]. simpl. split; auto.
  destruct (is_spawn e); simpl; lia.
Qed.

Section Launches.

Variable w : World.
Variable run_as_user : option string.

(** [start_cart_process] launches at most one process. *)
Lemma start_cart_process_spawning mount_point :
  Spawning 1 (start_cart_process w mount_point run_as_user).
Proof.
  pose proof (fun c => Spawning_silent _ (verify_cart_signature_silent w c)) as Hv.
  pose proof (fun u => Spawning_silent _ (get_user_display_env_silent w u)) as Hu.
  assert (Ha : forall A (q : nat -> A), Spawning 0 (ask q))
    by (intros; apply Spawning_silent, Framed_ask).
  assert (Ho : forall A e (q : nat -> option A), Spawning 0 (ask_or e q))
    by (intros; apply Spawning_silent, Framed_ask_or).
  assert (Hl : forall A (x : result A), Spawning 0 (lift x))
    by (intros; apply Spawning_silent, Framed_lift).
  assert (Hp : forall line, Spawning 0 (emit (Print line)))
    by (intros; apply Spawning_silent, Framed_emit; reflexivity).
  unfold start_cart_process, prints, print.
  repeat first
    [ match goal with H : _ |- Spawning _ _ => apply H end
    | apply Spawning_ret | apply Spawning_raise
    | match goal with
      | |- Spawning _ (bind (emit (Spawn _ _)) _) =>
          apply Spawning_bind_last; [apply Spawning_emit | intros]
      end
    | apply Spawning_bind; [ | intros ]
    | progress cbv zeta
    | match goal with
      | |- Spawning _ (match ?x with _ => _ end) => destruct x
      end ].
Qed.

Lemma process_event_spawning e : Spawning 1 (process_event w run_as_user e).
Proof.
  pose proof (fun n t => Spawning_silent _ (get_mount_point_silent w n t)) as Hm.
  pose proof (fun p => Spawning_quiet _ _
                         (fun e H => proj1 (negb_true_iff _) H)
                         (kill_cart_process_no_spawn w p)) as Hk.
  pose proof start_cart_process_spawning as Hs.
  assert (Hp : forall line, Spawning 0 (emit (Print line)))
    by (intros; apply Spawning_silent, Framed_emit; reflexivity).
  assert (Hg : Spawning 0 get_running).
  { intros s r s' H. inversion H. exists []. rewrite app_nil_r. auto. }
  assert (Hsr : forall d, Spawning 1 (set_running d)).
  { intros d s r s' H. inversion H. exists []. simpl. rewrite app_nil_r. auto. }
  unfold process_event, prints, print.
  destruct (String.eqb (fst e) "insert").
  - apply Spawning_bind; [apply Hp | intros _].
    apply Spawning_bind; [apply Hm | intros mp].
    destruct (PyStr.truthy_opt mp); [| apply Spawning_more with 0; auto].
    destruct mp as [mp |]; [| apply Spawning_ret].
    intros s r s' H. unfold bind in H.
    destruct (start_cart_process w mp run_as_user s) as [[[p |] | x] s1] eqn:E;
      inversion H; subst; clear H; destruct (Hs _ _ _ _ E) as [d [T L]];
      exists d; simpl; auto.
  - apply Spawning_more with 0; auto.
    apply Spawning_bind; [apply Hp | intros _].
    apply Spawning_bind; [apply Hg | intros running].
    destruct (PyDict.get running (snd e)); [| apply Spawning_ret].
    intros s r s' H. unfold bind in H. simpl in H.
    destruct (Hk _ _ _ _ H) as [d [T L]]. exists d. auto.
Qed.

Lemma handle_device_spawning d : Spawning 1 (handle_device w run_as_user d).
Proof.
  intros s r s' H. rewrite handle_device_steps in H.
  pose proof (Spawning_silent _ (is_sd_card_silent w d)) as Hsd.
  pose proof (Spawning_silent _ (classify_silent w d)) as Hcl.
  destruct (is_sd_card w d s) as [[[|] | x] s1] eqn:E1;
    destruct (Hsd _ _ _ E1) as [d1 [T1 L1]].
  2, 3: inversion H; subst; exists d1; split; auto; lia.
  destruct (classify w d s1) as [[[e |] | x] s2] eqn:E2;
    destruct (Hcl _ _ _ E2) as [d2 [T2 L2]].
  2, 3: inversion H; subst; exists (d1 ++ d2);
        rewrite T2, T1, app_assoc, spawns_app, length_app; split; auto; lia.
  destruct (is_last_event (last_event s2) e).
  - inversion H; subst. exists (d1 ++ d2).
    rewrite T2, T1, app_assoc, spawns_app, length_app; split; auto; lia.
  - destruct (process_event_spawning e _ _ _ H) as [d3 [T3 L3]].
    simpl in T3. exists (d1 ++ d2 ++ d3).
    rewrite T3, T2, T1, !app_assoc, !spawns_app, !length_app. split; auto. lia.
Qed.

End Launches.

(** ** Duplicate suppression *)



Section Duplicates.

Variable w : World.
Variable run_as_user : option string.

(** An event that is not an insert is handled as a removal. *)
Lemma process_event_other a node s :
  String.eqb a "insert" = false ->
  process_event w run_as_user (a, node) s =
  let s0 := log (Print [OStr "SD card removed: "; OStr node]) s in
  match PyDict.get (running_processes s) node with
  | Some proc =>
      kill_cart_process w proc
        (with_running (PyDict.remove (running_processes s) node) s0)
  | None => (Ok tt, s0)
  end.
Proof.
  intros Ha. unfold process_event. cbn [fst snd]. rewrite Ha.
  unfold print at 1. rewrite bind_emit. unfold get_running, bind at 1.
  cbn [running_processes log emit snd].
  destruct (PyDict.get (running_processes s) node); reflexivity.
Qed.




End Duplicates.



(** ** Removal *)

Lemma get_remove {V} (d : dict V) k : PyDict.get (PyDict.remove d k) k = None.
Proof.
  unfold PyDict.remove. induction d as [| [k' v] d IH]; simpl; auto.
  destruct (String.eqb k' k) eqn:E; simpl; auto. now rewrite E.
Qed.

Section Removal.

Variable w : World.

(** The run of [kill_cart_process] on a child that has not exited, by
    the outcomes of the two [os.killpg] calls and of [proc.wait]. *)
Lemma kill_cart_process_running proc s :
  proc_poll w (clock s) proc = None ->
  let pgid := getpgid w (S (clock s)) (pid proc) in
  let s1 := advance (log (Killpg pgid SIGTERM)
                       (log (Print [OStr "Killing process group "; ONum pgid])
                          (advance (advance s)))) in
  kill_cart_process w proc s =
  match killpg w (S (S (clock s))) pgid SIGTERM with
  | NoSuchProcess => (Ok tt, s1)
  | NotPermitted => (Raise OSError, s1)
  | Signalled =>
      let s2 := advance (log (Wait proc 3000) s1) in
      match proc_wait w (S (S (S (clock s)))) proc 3000 with
      | Some _ => (Ok tt, s2)
      | None =>
          (match killpg w (S (S (S (S (clock s))))) pgid SIGKILL with
           | Signalled => Ok tt
           | NoSuchProcess => Raise ProcessLookupError
           | NotPermitted => Raise OSError
           end,
           advance (log (Killpg pgid SIGKILL) s2))
      end
  end.
Proof.
  intros Hpoll pgid s1. unfold kill_cart_process.
  rewrite bind_ask, Hpoll, bind_ask. unfold print. rewrite bind_emit.
  change (getpgid w (clock (advance s)) (pid proc)) with pgid.
  unfold try_except, os_killpg, wait.
  steps.
  change (clock (log _ (log _ (advance (advance s))))) with (S (S (clock s))).
  destruct (killpg w (S (S (clock s))) pgid SIGTERM); try reflexivity.
  steps.
  change (clock (log (Wait proc 3000) _)) with (S (S (S (clock s)))).
  destruct (proc_wait w (S (S (S (clock s)))) proc 3000); try reflexivity.
  cbn [bind raise exn_eqb orb]. steps.
  change (clock (log (Killpg pgid SIGKILL) _)) with (S (S (S (S (clock s))))).
  destruct (killpg w (S (S (S (S (clock s))))) pgid SIGKILL); reflexivity.
Qed.

(** A child that has exited is left alone. *)
Lemma kill_cart_process_exited proc code s :
  proc_poll w (clock s) proc = Some code ->
  kill_cart_process w proc s = (Ok tt, advance s).
Proof.
  intros Hpoll. unfold kill_cart_process. now rewrite bind_ask, Hpoll.
Qed.

End Removal.

(** C3, as the code has it: a remove event for a device node that is
    tracked.  The node is taken out of the mapping first, so it is gone
    afterwards whatever happens next.  What is killed goes by the tracked
    process itself, the leader of the group, not by the group.  When
    [proc.poll()] tells that the leader has exited, nothing is signalled.
    Otherwise [os.killpg(pgid, SIGTERM)] is called on its process group: a
    group that is absent at this call ([ProcessLookupError]) ends the
    removal normally, a call that is not permitted is not handled, and
    after a call that went through [proc.wait] waits up to 3 seconds for
    the leader.  When the leader exits in time nothing more is sent;
    [os.killpg(pgid, SIGKILL)] is called exactly when the wait times out,
    and the removal ends normally when that call goes through. *)
Theorem removal_forgets_and_kills_by_the_leader
    (w : World) (run_as_user : option string) (node : string) (proc : process)
    (s : St) :
  PyDict.get (running_processes s) node = Some proc ->
  let run := process_event w run_as_user ("remove", node) s in
  let pgid := getpgid w (S (clock s)) (pid proc) in
  let removed := Print [OStr "SD card removed: "; OStr node] in
  let killing := Print [OStr "Killing process group "; ONum pgid] in
  PyDict.get (running_processes (snd run)) node = None
  /\ match proc_poll w (clock s) proc with
     | Some _ =>
         fst run = Ok tt
         /\ since s (snd run) = [removed]
     | None =>
         match killpg w (S (S (clock s))) pgid SIGTERM with
         | NoSuchProcess =>
             fst run = Ok tt
             /\ since s (snd run) = [removed; killing; Killpg pgid SIGTERM]
         | NotPermitted =>
             fst run = Raise OSError
             /\ since s (snd run) = [removed; killing; Killpg pgid SIGTERM]
         | Signalled =>
             match proc_wait w (S (S (S (clock s)))) proc 3000 with
             | Some _ =>
                 fst run = Ok tt
                 /\ since s (snd run) =
                    [removed; killing; Killpg pgid SIGTERM; Wait proc 3000]
             | None =>
                 since s (snd run) =
                   [removed; killing; Killpg pgid SIGTERM; Wait proc 3000;
                    Killpg pgid SIGKILL]
                 /\ (killpg w (S (S (S (S (clock s))))) pgid SIGKILL = Signalled ->
                     fst run = Ok tt)
             end
         end
     end.
Proof.
  intros Hget run pgid removed killing. subst run removed killing.
  rewrite process_event_remove. cbv zeta. rewrite Hget.
  set (s0 := with_running _ _).
  assert (Hc : clock s0 = clock s) by reflexivity.
  assert (Hr : PyDict.get (running_processes s0) node = None)
    by apply get_remove.
  destruct (proc_poll w (clock s) proc) as [code |] eqn:Hpoll.
  { rewrite (kill_cart_process_exited w proc code s0) by (rewrite Hc; exact Hpoll).
    cbn [fst snd]. split; [exact Hr |]. split; [reflexivity |].
    apply since_of_trace. reflexivity. }
  pose proof (kill_cart_process_running w proc s0) as Hk.
  rewrite Hc in Hk. specialize (Hk Hpoll). cbv zeta in Hk. fold pgid in Hk.
  rewrite Hk. clear Hk.
  destruct (killpg w (S (S (clock s))) pgid SIGTERM).
  - destruct (proc_wait w (S (S (S (clock s)))) proc 3000).
    + cbn [fst snd]. split; [exact Hr |]. split; [reflexivity |].
      apply since_of_trace. subst s0. simpl. rewrite <- !app_assoc. reflexivity.
    + cbn [fst snd]. split; [exact Hr |]. split.
      * apply since_of_trace. subst s0. simpl. rewrite <- !app_assoc. reflexivity.
      * intros ->. reflexivity.
  - cbn [fst snd]. split; [exact Hr |]. split; [reflexivity |].
    apply since_of_trace. subst s0. simpl. rewrite <- !app_assoc. reflexivity.
  - cbn [fst snd]. split; [exact Hr |]. split; [reflexivity |].
    apply since_of_trace. subst s0. simpl. rewrite <- !app_assoc. reflexivity.
Qed.

(** The card of a running payload is removed; the leader exits within the
    three seconds. *)
Lemma removal_forgets_and_kills_by_the_leader_witness :
  let run := process_event Demo.calm None ("remove", "/dev/sda") Demo.tracking in
  PyDict.get (running_processes (snd run)) "/dev/sda" = None
  /\ fst run = Ok tt
  /\ since Demo.tracking (snd run) =
       [Print [OStr "SD card removed: "; OStr "/dev/sda"];
        Print [OStr "Killing process group "; ONum 8];
        Killpg 8 SIGTERM; Wait {| pid := 8 |} 3000].
Proof.
  exact (removal_forgets_and_kills_by_the_leader Demo.calm None "/dev/sda"
           {| pid := 8 |} Demo.tracking eq_refl).
Defined.

(** The claim as it was written fails on three removals of the tracked
    card [/dev/sda].  In [Demo.calm] the leader exits within the three
    seconds while its group can still be signalled at any time: the group
    has not exited, and no forced kill is sent.  In [Scenes.orphaned] the
    leader has exited before the card is removed while its group is still
    there: nothing is signalled at all.  In [Scenes.guarded] the daemon
    may not signal the group: there is no wait and no forced kill, the
    error leaves the handling of the event, and [monitor] ends on it
    without looking at the next notification. *)
Lemma removal_leaves_a_live_group :
  let removal w := process_event w None ("remove", "/dev/sda") Demo.tracking in
  (fst (removal Demo.calm) = Ok tt
   /\ killpgs (since Demo.tracking (snd (removal Demo.calm))) = [Killpg 8 SIGTERM]
   /\ forall t, killpg Demo.calm t 8 SIGKILL = Signalled)
  /\ (fst (removal Scenes.orphaned) = Ok tt
      /\ since Demo.tracking (snd (removal Scenes.orphaned))
         = [Print [OStr "SD card removed: "; OStr "/dev/sda"]]
      /\ forall t sig, killpg Scenes.orphaned t 8 sig = Signalled)
  /\ (fst (removal Scenes.guarded) = Raise OSError
      /\ since Demo.tracking (snd (removal Scenes.guarded))
         = [Print [OStr "SD card removed: "; OStr "/dev/sda"];
            Print [OStr "Killing process group "; ONum 8];
            Killpg 8 SIGTERM]
      /\ fst (monitor Scenes.guarded None
                [PollDevice (Demo.card "/dev/sda" "add");
                 PollDevice (Demo.card "/dev/sda" "remove");
                 PollDevice (Demo.card "/dev/sdb" "add")] boot)
         = Raise OSError).
Proof.
  cbv zeta. split; [| split].
  - split; [vm_compute; reflexivity |]. split; [vm_compute; reflexivity |].
    intros t. reflexivity.
  - split; [vm_compute; reflexivity |]. split; [vm_compute; reflexivity |].
    intros t sig. reflexivity.
  - split; [vm_compute; reflexivity |]. split; vm_compute; reflexivity.
Qed.

(** ** The two halves of [start_cart_process] *)

Section HalvesFacts.

Variable w : World.

(** [start_cart_process] is its first half followed by its second. *)
Lemma start_cart_process_halves mount_point run_as_user s :
  start_cart_process w mount_point run_as_user s =
  match read_exec w mount_point s with
  | (Ok (Some script), s1) => launch w mount_point run_as_user script s1
  | (Ok None, s1) => (Ok None, s1)
  | (Raise e, s1) => (Raise e, s1)
  end.
Proof.
  transitivity
    (bind (read_exec w mount_point)
       (fun o => match o with
                 | Some script => launch w mount_point run_as_user script
                 | None => ret None
                 end) s).
  2: { unfold bind.
       destruct (read_exec w mount_point s) as [[[script |] | e] s1]; reflexivity. }
  unfold start_cart_process, read_exec, launch, child_setup, prints, print.
  cbv zeta.
  repeat first
    [ reflexivity
    | rewrite bind_bind; apply bind_ext; intros ? ?
    | match goal with
      | |- context [if ?b then _ else _] => destruct b
      end ].
Qed.

Lemma read_exec_silent mount_point : Framed silent (read_exec w mount_point).
Proof.
  pose proof (verify_cart_signature_silent w).
  unfold read_exec, prints, print. framed.
Qed.

Lemma child_setup_silent run_as_user script :
  Framed silent (child_setup w run_as_user script).
Proof.
  pose proof (get_user_display_env_silent w).
  unfold child_setup, print. framed.
Qed.

(** The second half sends no signal. *)
Lemma launch_no_signal mount_point run_as_user script :
  Framed (fun e => silent e || is_spawn e) (launch w mount_point run_as_user script).
Proof.
  assert (Hsub : forall e, silent e = true -> silent e || is_spawn e = true)
    by (intros e ->; reflexivity).
  pose proof (Framed_weaken _ _ _ Hsub (child_setup_silent run_as_user script)).
  unfold launch. framed.
Qed.

(** With an unknown account the second half raises [KeyError] at once. *)
Lemma launch_unknown_account mount_point user script s :
  PyStr.truthy user = true ->
  getpwnam w (clock s) user = None ->
  launch w mount_point (Some user) script s = (Raise KeyError, advance s).
Proof.
  intros Hu Hpw. unfold launch, child_setup. rewrite Hu. unfold ask_or. steps.
  rewrite Hpw. reflexivity.
Qed.

End HalvesFacts.

(** ** The loop as a whole *)

Section Loop.

Variable w : World.
Variable run_as_user : option string.

(** [monitor] by the outcome of its loop: only [KeyboardInterrupt] is
    handled. *)
Lemma monitor_steps polls s :
  monitor w run_as_user polls s =
  match event_loop w run_as_user polls (started run_as_user s) with
  | (Raise KeyboardInterrupt, s') => shutdown w s'
  | other => other
  end.
Proof.
  unfold monitor, started, prints, print. steps.
  assert (Hloop : forall st st' : St, st = st' ->
            try_except (event_loop w run_as_user polls)
              (fun e => exn_eqb e KeyboardInterrupt)
              (fun _ =>
                 emit (Print [OStr (newline ++ "Stopping...")%string]) ;;
                 running <- get_running ;;
                 kill_all w (PyDict.values running) ;;
                 emit (Print [OStr "Stopped."]) ;;
                 ret Finished) st =
            match event_loop w run_as_user polls st' with
            | (Raise KeyboardInterrupt, s') => shutdown w s'
            | other => other
            end).
  { intros st st' <-. unfold try_except.
    destruct (event_loop w run_as_user polls st) as [[l | []] s']; reflexivity. }
  destruct run_as_user as [user |]; cbn [PyStr.truthy_opt].
  - destruct (PyStr.truthy user); unfold print; steps;
      unfold set_last_event at 1, bind at 1; unfold set_running at 1, bind at 1;
      apply Hloop; reflexivity.
  - steps. unfold set_last_event at 1, bind at 1; unfold set_running at 1, bind at 1.
    apply Hloop; reflexivity.
Qed.

(** The loop over a first batch of notifications, then over a second. *)
Lemma event_loop_app before after s :
  event_loop w run_as_user (before ++ after) s =
  match event_loop w run_as_user before s with
  | (Ok Polling, s') => event_loop w run_as_user after s'
  | other => other
  end.
Proof.
  revert s. induction before as [| [d | | x] before IH]; intros s; simpl;
    try reflexivity.
  unfold bind.
  destruct (handle_device w run_as_user d s) as [[[] | x] s1]; auto.
Qed.

End Loop.

(** ** Runs that touch no process *)

Lemma quiet_refl s : quiet s s.
Proof. exists []. rewrite app_nil_r. auto. Qed.

Lemma quiet_trans s1 s2 s3 : quiet s1 s2 -> quiet s2 s3 -> quiet s1 s3.
Proof.
  intros [d1 [T1 [O1 R1]]] [d2 [T2 [O2 R2]]]. exists (d1 ++ d2).
  rewrite T2, T1, app_assoc, forallb_app, O1, O2. repeat split; congruence.
Qed.

Lemma frame_quiet s s' : frame silent s s' -> quiet s s'.
Proof. intros [[d [T O]] _ _ R]. exists d. auto. Qed.

Lemma quiet_with_last e s : quiet s (with_last e s).
Proof. exists []. simpl. rewrite app_nil_r. auto. Qed.

Lemma quiet_log_print line s : quiet s (log (Print line) s).
Proof. exists [Print line]. simpl. auto. Qed.

Lemma quiet_advance s : quiet s (advance s).
Proof. exists []. simpl. rewrite app_nil_r. auto. Qed.

Lemma quiet_no_process s s' :
  quiet s s' ->
  spawns (since s s') = [] /\ killpgs (since s s') = []
  /\ running_processes s' = running_processes s.
Proof.
  intros [d [T [O R]]]. rewrite (since_of_trace _ _ _ T).
  repeat split; auto; clear T; unfold spawns, killpgs;
    induction d as [| x d IH]; simpl in *; auto;
    apply andb_prop in O; destruct O as [Ox Od];
    destruct x; simpl in *; auto; discriminate.
Qed.

(** The loop body on a notification that is classified as an insert and
    is no duplicate: the event is processed; up to there no process was
    touched. *)
Lemma handle_device_insert
    (w : World) (run_as_user : option string) (d : device) (node : string)
    (s sa sb : St) :
  is_sd_card w d s = (Ok true, sa) ->
  classify w d sa = (Ok (Some ("insert", node)), sb) ->
  is_last_event (last_event sb) ("insert", node) = false ->
  handle_device w run_as_user d s =
    process_event w run_as_user ("insert", node)
      (with_last (Some ("insert", node)) sb)
  /\ quiet s (with_last (Some ("insert", node)) sb).
Proof.
  intros Hsd Hcl Hdup. split.
  - rewrite handle_device_steps, Hsd, Hcl, Hdup. reflexivity.
  - eapply quiet_trans; [apply frame_quiet, (is_sd_card_silent w d _ _ _ Hsd) |].
    eapply quiet_trans; [apply frame_quiet, (classify_silent w d _ _ _ Hcl) |].
    apply quiet_with_last.
Qed.

(** ** Trust failures and their reasons *)

Lemma reason_injective c1 c2 : reason c1 = reason c2 -> c1 = c2.
Proof. destruct c1, c2; simpl; intros H; try reflexivity; discriminate. Qed.

Section Blocked.

Variable w : World.

(** The run of a verification that fails for cause [c]: one line, the
    reason of [c], and the answer [False]. *)
Lemma verify_cart_signature_fails cart_path c s :
  first_failure w cart_path (clock s) c ->
  exists s',
    verify_cart_signature w cart_path s = (Ok false, s')
    /\ trace s' = trace s ++ [Print [OStr (reason c)]].
Proof.
  intros Hc. unfold verify_cart_signature, prints, print. cbv zeta.
  destruct c; simpl in Hc.
  - steps. rewrite Hc. cbn [negb]. steps. eexists. split; reflexivity.
  - destruct Hc as [Hs Hk]. steps. rewrite Hs. cbn [negb]. steps.
    change (clock (advance s)) with (S (clock s)). rewrite Hk. cbn [negb].
    steps. eexists. split; reflexivity.
  - destruct Hc as [Hs [Hk [f [code [Hf [Hv Hne]]]]]].
    steps. rewrite Hs. cbn [negb]. steps.
    change (clock (advance s)) with (S (clock s)). rewrite Hk. cbn [negb].
    unfold try_except, ask_or. steps.
    change (clock (advance (advance s))) with (S (S (clock s))). rewrite Hf.
    steps.
    change (clock (advance (advance (advance s)))) with (S (S (S (clock s)))).
    rewrite Hv. destruct code; try congruence; eexists; split; reflexivity.
Qed.

(** The run of [start_cart_process] on a manifest whose verification
    fails for cause [c]. *)
Lemma start_cart_process_blocked mount_point run_as_user c s :
  let cart_path := path_join mount_point "cart.yaml" in
  path_exists w (clock s) cart_path = true ->
  first_failure w cart_path (S (clock s)) c ->
  exists s',
    start_cart_process w mount_point run_as_user s = (Ok None, s')
    /\ trace s' = trace s ++ [Print [OStr "Found cart.yaml at "; OStr cart_path];
                              Print [OStr (reason c)];
                              Print [OStr "Execution blocked (untrusted cart)"]]
    /\ running_processes s' = running_processes s.
Proof.
  intros cart_path Hex Hc. unfold start_cart_process. fold cart_path.
  steps. rewrite Hex. cbn [negb]. unfold print at 1. steps.
  set (s1 := log _ (advance s)).
  destruct (verify_cart_signature_fails cart_path c s1 Hc) as [s2 [Hv Ht]].
  pose proof (fr_running _ _ _ (verify_cart_signature_silent w _ _ _ _ Hv)) as Hr.
  unfold bind at 1. rewrite Hv. cbn [negb]. unfold prints, print. steps.
  eexists. split; [reflexivity |]. split.
  - simpl. rewrite Ht. subst s1. simpl. rewrite <- !app_assoc. reflexivity.
  - simpl. rewrite Hr. reflexivity.
Qed.

End Blocked.

(** C4, as the code has it: a missing signature file, a missing
    trusted-signer store and a verifier that exits nonzero are not fatal.
    For a notification of an insert whose mount point is resolved and
    holds a manifest, each of them makes the daemon print the reason of
    the cause, distinct from the reasons of the other causes, then
    "Execution blocked".  The verdict is the non-trusted one, no process is
    launched or signalled, the mapping is left as it is, and the loop body
    returns normally, so the loop goes on with the next notification. *)
Theorem trust_failure_blocks_and_returns
    (w : World) (run_as_user : option string) (d : device) (node mp : string)
    (c : cause) (rest : list poll_outcome) (s sa sb s1 : St) :
  let cart_path := path_join mp "cart.yaml" in
  is_sd_card w d s = (Ok true, sa) ->
  classify w d sa = (Ok (Some ("insert", node)), sb) ->
  is_last_event (last_event sb) ("insert", node) = false ->
  get_mount_point w node 5
    (log (Print [OStr "SD card inserted: "; OStr node])
       (with_last (Some ("insert", node)) sb)) = (Ok (Some mp), s1) ->
  PyStr.truthy mp = true ->
  path_exists w (clock s1) cart_path = true ->
  first_failure w cart_path (S (clock s1)) c ->
  exists s',
    handle_device w run_as_user d s = (Ok tt, s')
    /\ event_loop w run_as_user (PollDevice d :: rest) s
       = event_loop w run_as_user rest s'
    /\ verdict w cart_path (S (clock s1)) = Ok false
    /\ since s1 s' = [Print [OStr "Found cart.yaml at "; OStr cart_path];
                      Print [OStr (reason c)];
                      Print [OStr "Execution blocked (untrusted cart)"]]
    /\ spawns (since s s') = []
    /\ killpgs (since s s') = []
    /\ running_processes s' = running_processes s
    /\ (forall c', reason c' = reason c -> c' = c).
Proof.
  intros cart_path Hsd Hcl Hdup Hm Hmp Hex Hc.
  destruct (handle_device_insert w run_as_user d node s sa sb Hsd Hcl Hdup)
    as [Hh Hq].
  destruct (start_cart_process_blocked w mp run_as_user c s1 Hex Hc)
    as [s' [Hs [Ht Hr]]].
  assert (Hd : handle_device w run_as_user d s = (Ok tt, s')).
  { rewrite Hh, process_event_insert. unfold event in *.
    rewrite Hm, Hmp, Hs. reflexivity. }
  assert (Hquiet : quiet s s').
  { eapply quiet_trans; [exact Hq |].
    eapply quiet_trans; [apply quiet_log_print |].
    eapply quiet_trans;
      [apply frame_quiet, (get_mount_point_silent w _ _ _ _ _ Hm) |].
    exists [Print [OStr "Found cart.yaml at "; OStr cart_path];
            Print [OStr (reason c)];
            Print [OStr "Execution blocked (untrusted cart)"]].
    auto. }
  destruct (quiet_no_process _ _ Hquiet) as [Hsp [Hkp Hrun]].
  exists s'. split; [exact Hd |].
  split; [apply event_loop_goes_on; exact Hd |].
  split; [| split; [| repeat split; auto using reason_injective]].
  - set (s0 := log (Print [OStr "Found cart.yaml at "; OStr cart_path]) (advance s1)).
    destruct (verify_cart_signature_fails w cart_path c s0 Hc) as [s2 [Hv _]].
    pose proof (verdict_of_run w cart_path s0) as Hvr.
    change (clock s0) with (S (clock s1)) in Hvr.
    rewrite Hv in Hvr. symmetry. exact Hvr.
  - apply since_of_trace. exact Ht.
Qed.

(** A card without [cart.yaml.sig] is inserted, then another card. *)
Lemma trust_failure_blocks_and_returns_witness :
  let d := Demo.card "/dev/sda" "add" in
  let rest := [PollDevice (Demo.card "/dev/sdb" "add")] in
  let sa := snd (is_sd_card Demo.unsigned d boot) in
  let sb := snd (classify Demo.unsigned d sa) in
  let s1 := snd (get_mount_point Demo.unsigned "/dev/sda" 5
                   (log (Print [OStr "SD card inserted: "; OStr "/dev/sda"])
                      (with_last (Some ("insert", "/dev/sda")) sb))) in
  let cart_path := path_join "/mnt/a" "cart.yaml" in
  exists s',
    handle_device Demo.unsigned None d boot = (Ok tt, s')
    /\ event_loop Demo.unsigned None (PollDevice d :: rest) boot
       = event_loop Demo.unsigned None rest s'
    /\ verdict Demo.unsigned cart_path (S (clock s1)) = Ok false
    /\ since s1 s' = [Print [OStr "Found cart.yaml at "; OStr cart_path];
                      Print [OStr (reason SignatureMissing)];
                      Print [OStr "Execution blocked (untrusted cart)"]]
    /\ spawns (since boot s') = []
    /\ killpgs (since boot s') = []
    /\ running_processes s' = running_processes boot
    /\ (forall c', reason c' = reason SignatureMissing -> c' = SignatureMissing).
Proof.
  intros d rest sa sb s1 cart_path.
  apply (trust_failure_blocks_and_returns Demo.unsigned None d "/dev/sda" "/mnt/a"
           SignatureMissing rest boot sa sb s1); vm_compute; reflexivity.
Defined.

(** A verifier that cannot be started is no such failure: the [OSError] of
    the call is not caught.  No verdict is reached, and the exception
    leaves [monitor]; the notification that follows is never looked at. *)
Lemma verifier_not_started_is_fatal :
  let run := monitor Demo.no_verifier None
               [PollDevice (Demo.card "/dev/sda" "add");
                PollDevice (Demo.card "/dev/sdb" "add")] boot in
  verdict Demo.no_verifier "/mnt/a/cart.yaml" 3 = Raise OSError
  /\ fst run = Raise OSError
  /\ trace (snd run) =
       [Print [OStr "Monitoring for SD cards... (Ctrl+C to exit)"];
        Print [OStr "SD card inserted: "; OStr "/dev/sda"];
        Print [OStr "Found cart.yaml at "; OStr "/mnt/a/cart.yaml"]].
Proof. vm_compute. repeat split. Qed.

(** ** An unknown account *)

(** C5, as the code has it: with a run-as-user account that the account
    database does not know, an insert event whose command the daemon
    would have launched under its own identity, had no account been
    configured, launches nothing: [pwd.getpwnam] raises [KeyError], which
    nothing catches.  The exception leaves [monitor], so the notifications
    that follow are not handled; the processes tracked so far are neither
    signalled nor forgotten. *)
Theorem unknown_account_stops_the_daemon
    (w : World) (user : string) (d : device) (node mp : string) (p : process)
    (before rest : list poll_outcome) (s0 s sa sb s1 s2 : St) :
  PyStr.truthy user = true ->
  (forall t, getpwnam w t user = None) ->
  event_loop w (Some user) before (started (Some user) s0) = (Ok Polling, s) ->
  is_sd_card w d s = (Ok true, sa) ->
  classify w d sa = (Ok (Some ("insert", node)), sb) ->
  is_last_event (last_event sb) ("insert", node) = false ->
  get_mount_point w node 5
    (log (Print [OStr "SD card inserted: "; OStr node])
       (with_last (Some ("insert", node)) sb)) = (Ok (Some mp), s1) ->
  PyStr.truthy mp = true ->
  start_cart_process w mp None s1 = (Ok (Some p), s2) ->
  exists s',
    monitor w (Some user) (before ++ PollDevice d :: rest) s0 = (Raise KeyError, s')
    /\ spawns (since s s') = []
    /\ killpgs (since s s') = []
    /\ running_processes s' = running_processes s.
Proof.
  intros Hu Hpw Hbefore Hsd Hcl Hdup Hm Hmp Hown.
  rewrite start_cart_process_halves in Hown.
  destruct (read_exec w mp s1) as [[[script |] | x] s3] eqn:Hread;
    try discriminate.
  clear Hown.
  assert (Hs : start_cart_process w mp (Some user) s1 = (Raise KeyError, advance s3)).
  { rewrite start_cart_process_halves, Hread.
    apply launch_unknown_account; auto. }
  assert (Hh : handle_device w (Some user) d s = (Raise KeyError, advance s3)).
  { rewrite handle_device_steps, Hsd, Hcl, Hdup, process_event_insert.
    unfold event in *. rewrite Hm, Hmp, Hs. reflexivity. }
  exists (advance s3). split.
  - rewrite monitor_steps, event_loop_app, Hbefore.
    rewrite (event_loop_raises _ _ _ _ _ _ _ Hh). reflexivity.
  - apply quiet_no_process.
    eapply quiet_trans; [apply frame_quiet, (is_sd_card_silent w d _ _ _ Hsd) |].
    eapply quiet_trans; [apply frame_quiet, (classify_silent w d _ _ _ Hcl) |].
    eapply quiet_trans; [apply quiet_with_last |].
    eapply quiet_trans; [apply quiet_log_print |].
    eapply quiet_trans;
      [apply frame_quiet, (get_mount_point_silent w _ _ _ _ _ Hm) |].
    eapply quiet_trans;
      [apply frame_quiet, (read_exec_silent w _ _ _ _ Hread) |].
    apply quiet_advance.
Qed.

(** The account "ghost" does not exist; a signed card is inserted, then
    another one. *)
Lemma unknown_account_stops_the_daemon_witness :
  let d := Demo.card "/dev/sda" "add" in
  let s := started (Some "ghost") boot in
  exists s',
    monitor Demo.calm (Some "ghost")
      ([] ++ PollDevice d :: [PollDevice (Demo.card "/dev/sdb" "add")]) boot
      = (Raise KeyError, s')
    /\ spawns (since s s') = []
    /\ killpgs (since s s') = []
    /\ running_processes s' = running_processes s.
Proof.
  intros d s.
  pose (sa := snd (is_sd_card Demo.calm d s)).
  pose (sb := snd (classify Demo.calm d sa)).
  pose (s1 := snd (get_mount_point Demo.calm "/dev/sda" 5
                     (log (Print [OStr "SD card inserted: "; OStr "/dev/sda"])
                        (with_last (Some ("insert", "/dev/sda")) sb)))).
  pose (s2 := snd (start_cart_process Demo.calm "/mnt/a" None s1)).
  apply (unknown_account_stops_the_daemon Demo.calm "ghost" d "/dev/sda" "/mnt/a"
           {| pid := 8 |} [] [PollDevice (Demo.card "/dev/sdb" "add")]
           boot s sa sb s1 s2);
    try (intros t); vm_compute; reflexivity.
Defined.

(** The daemon does not go on after the failed lookup: the insertion of
    the second card is never announced, and the script ends with status 1. *)
Lemma unknown_account_ends_the_loop :
  let run := monitor Demo.calm (Some "ghost")
               [PollDevice (Demo.card "/dev/sda" "add");
                PollDevice (Demo.card "/dev/sdb" "add")] boot in
  fst run = Raise KeyError
  /\ exit_status (fst run) = Some 1%Z
  /\ trace (snd run) =
       [Print [OStr "Monitoring for SD cards... (Ctrl+C to exit)"];
        Print [OStr "Exec commands will run as: "; OStr "ghost"];
        Print [OStr "SD card inserted: "; OStr "/dev/sda"];
        Print [OStr "Found cart.yaml at "; OStr "/mnt/a/cart.yaml"];
        Print [OStr "Signature verification OK"]].
Proof. vm_compute. repeat split. Qed.

(** ** Manifests that are not run *)

Section Trusted.

Variable w : World.

(** The run of a verification whose verdict is the trusted one: four
    consultations and one line. *)
Lemma verify_cart_signature_trusted cart_path s :
  verdict w cart_path (clock s) = Ok true ->
  verify_cart_signature w cart_path s =
    (Ok true,
     log (Print [OStr "Signature verification OK"])
       (advance (advance (advance (advance s)))))
  /\ exists f,
       read_file w (S (S (clock s))) cart_path = Some f
       /\ ssh_keygen_verify w (S (S (S (clock s)))) TRUSTED_PUBKEY
            SIGNATURE_NAMESPACE (cart_path ++ ".sig")%string f = Exited 0.
Proof.
  rewrite <- verdict_of_run.
  unfold verify_cart_signature, prints, print. cbv zeta. steps.
  destruct (path_exists w (clock s) _); cbn [negb]; [| steps; discriminate].
  steps. destruct (path_exists w (clock (advance s)) _); cbn [negb];
    [| steps; discriminate].
  unfold try_except, ask_or. steps.
  change (clock (advance (advance s))) with (S (S (clock s))).
  destruct (read_file w (S (S (clock s))) cart_path) as [f |];
    [| cbn; discriminate].
  steps.
  change (clock (advance (advance (advance s)))) with (S (S (S (clock s)))).
  destruct (ssh_keygen_verify w (S (S (S (clock s)))) _ _ _ f) as [code |] eqn:Hv;
    [| cbn; discriminate].
  destruct code; try (cbn; discriminate).
  intros _. split; [reflexivity |]. exists f. auto.
Qed.

End Trusted.

Lemma read_exec_defect (w : World) mount_point df s :
  has_defect w (path_join mount_point "cart.yaml") (clock s) df ->
  exists s',
    read_exec w mount_point s =
      (match df with
       | Absent | NoExec => Ok None
       | Unparsable => Raise YAMLError
       end, s')
    /\ exists lines, trace s' = trace s ++ lines ++ [Print [OStr (defect_line df)]].
Proof.
  intros Hd. unfold read_exec. cbv zeta. set (cart_path := path_join _ _) in *.
  steps. destruct df; simpl in Hd.
  - rewrite Hd. cbn [negb]. unfold prints, print. steps.
    eexists. split; [reflexivity |]. exists []. reflexivity.
  - destruct Hd as [Hex [Hv [text [config [Hf [Hy Hno]]]]]].
    rewrite Hex. cbn [negb]. unfold print at 1. steps.
    set (s1 := log _ (advance s)).
    destruct (verify_cart_signature_trusted w cart_path s1 Hv) as [Hrun _].
    unfold bind at 1. rewrite Hrun. cbn [negb]. unfold ask_or. steps.
    change (clock (log _ (advance (advance (advance (advance s1))))))
      with (S (S (S (S (S (clock s)))))). rewrite Hf. steps. rewrite Hy. steps.
    assert (Hne : (if negb (PyVal.truthy config) then ret true
                   else has <- lift (PyVal.contains_exec config) ;; ret (negb has))
                  = ret true).
    { destruct Hno as [Ht | Hc]; [now rewrite Ht |].
      destruct (PyVal.truthy config); [| reflexivity].
      cbn [negb]. rewrite Hc. reflexivity. }
    rewrite Hne. steps. unfold prints, print. steps.
    eexists. split; [reflexivity |].
    eexists [_; _]. subst s1. simpl. rewrite <- !app_assoc. reflexivity.
  - destruct Hd as [Hex [Hv [text [Hf Hy]]]].
    rewrite Hex. cbn [negb]. unfold print at 1. steps.
    set (s1 := log _ (advance s)).
    destruct (verify_cart_signature_trusted w cart_path s1 Hv) as [Hrun _].
    unfold bind at 1. rewrite Hrun. cbn [negb]. unfold ask_or. steps.
    change (clock (log _ (advance (advance (advance (advance s1))))))
      with (S (S (S (S (S (clock s)))))). rewrite Hf. steps. rewrite Hy.
    eexists. split; [reflexivity |].
    eexists [_]. subst s1. simpl. rewrite <- !app_assoc. reflexivity.
Qed.

(** C6, as the code has it: for a notification of an insert whose mount
    point is resolved, a manifest that is absent, or that is trusted and
    parses to an empty value or to a mapping, list or string without
    "exec", is skipped: the daemon prints the reason ("No cart.yaml
    detected", "No 'exec' field in cart.yaml"), the loop body returns
    normally and the loop goes on.  A trusted manifest that is not YAML is
    not skipped that way: the [YAMLError] of the parser is not caught, the
    last line printed is the verdict, and the loop ends with the
    exception.  In all three cases no process is launched or signalled and
    the mapping is left as it is. *)
Theorem defective_manifest_is_not_run
    (w : World) (run_as_user : option string) (d : device) (node mp : string)
    (df : defect) (rest : list poll_outcome) (s sa sb s1 : St) :
  is_sd_card w d s = (Ok true, sa) ->
  classify w d sa = (Ok (Some ("insert", node)), sb) ->
  is_last_event (last_event sb) ("insert", node) = false ->
  get_mount_point w node 5
    (log (Print [OStr "SD card inserted: "; OStr node])
       (with_last (Some ("insert", node)) sb)) = (Ok (Some mp), s1) ->
  PyStr.truthy mp = true ->
  has_defect w (path_join mp "cart.yaml") (clock s1) df ->
  exists s',
    handle_device w run_as_user d s = (defect_result df, s')
    /\ event_loop w run_as_user (PollDevice d :: rest) s
       = match df with
         | Absent | NoExec => event_loop w run_as_user rest s'
         | Unparsable => (Raise YAMLError, s')
         end
    /\ (exists lines, since s1 s' = lines ++ [Print [OStr (defect_line df)]])
    /\ spawns (since s s') = []
    /\ killpgs (since s s') = []
    /\ running_processes s' = running_processes s.
Proof.
  intros Hsd Hcl Hdup Hm Hmp Hd.
  destruct (handle_device_insert w run_as_user d node s sa sb Hsd Hcl Hdup)
    as [Hh Hq].
  destruct (read_exec_defect w mp df s1 Hd) as [s' [Hread [lines Ht]]].
  assert (Hrun : handle_device w run_as_user d s = (defect_result df, s')).
  { rewrite Hh, process_event_insert. unfold event in *.
    rewrite Hm, Hmp, start_cart_process_halves, Hread.
    destruct df; reflexivity. }
  exists s'. split; [exact Hrun |]. split; [| split].
  - destruct df; simpl in Hrun.
    + apply event_loop_goes_on; exact Hrun.
    + apply event_loop_goes_on; exact Hrun.
    + apply event_loop_raises; exact Hrun.
  - exists lines. apply since_of_trace. exact Ht.
  - apply quiet_no_process.
    eapply quiet_trans; [exact Hq |].
    eapply quiet_trans; [apply quiet_log_print |].
    eapply quiet_trans;
      [apply frame_quiet, (get_mount_point_silent w _ _ _ _ _ Hm) |].
    apply frame_quiet, (read_exec_silent w _ _ _ _ Hread).
Qed.

(** A signed, empty manifest. *)
Lemma defective_manifest_is_not_run_witness :
  let d := Demo.card "/dev/sda" "add" in
  let rest := [PollDevice (Demo.card "/dev/sdb" "add")] in
  let sa := snd (is_sd_card Demo.blank d boot) in
  let sb := snd (classify Demo.blank d sa) in
  let s1 := snd (get_mount_point Demo.blank "/dev/sda" 5
                   (log (Print [OStr "SD card inserted: "; OStr "/dev/sda"])
                      (with_last (Some ("insert", "/dev/sda")) sb))) in
  exists s',
    handle_device Demo.blank None d boot = (Ok tt, s')
    /\ event_loop Demo.blank None (PollDevice d :: rest) boot
       = event_loop Demo.blank None rest s'
    /\ (exists lines,
          since s1 s' = lines ++ [Print [OStr "No 'exec' field in cart.yaml"]])
    /\ spawns (since boot s') = []
    /\ killpgs (since boot s') = []
    /\ running_processes s' = running_processes boot.
Proof.
  intros d rest sa sb s1.
  apply (defective_manifest_is_not_run Demo.blank None d "/dev/sda" "/mnt/a"
           NoExec rest boot sa sb s1); try (vm_compute; reflexivity).
  split; [reflexivity |]. split; [reflexivity |].
  exists "", PNone. repeat split. left. reflexivity.
Defined.

(** Malformed manifests that are not skipped: one that is not YAML ends
    the daemon with [YAMLError], one that is a YAML scalar containing
    "exec" ends it with [TypeError]; neither prints a reason. *)
Lemma malformed_manifest_is_fatal :
  let polls := [PollDevice (Demo.card "/dev/sda" "add");
                PollDevice (Demo.card "/dev/sdb" "add")] in
  let verified := [Print [OStr "Monitoring for SD cards... (Ctrl+C to exit)"];
                   Print [OStr "SD card inserted: "; OStr "/dev/sda"];
                   Print [OStr "Found cart.yaml at "; OStr "/mnt/a/cart.yaml"];
                   Print [OStr "Signature verification OK"]] in
  fst (monitor Demo.garbled None polls boot) = Raise YAMLError
  /\ trace (snd (monitor Demo.garbled None polls boot)) = verified
  /\ fst (monitor Demo.prose None polls boot) = Raise TypeError
  /\ trace (snd (monitor Demo.prose None polls boot)) = verified.
Proof. vm_compute. repeat split. Qed.

(** ** Shutdown *)

Lemma since_trans s s1 s' d1 d2 :
  trace s1 = trace s ++ d1 -> trace s' = trace s1 ++ d2 ->
  since s s' = since s s1 ++ since s1 s'.
Proof.
  intros T1 T2.
  rewrite (since_of_trace s s1 d1 T1), (since_of_trace s1 s' d2 T2).
  apply since_of_trace. rewrite T2, T1, app_assoc. reflexivity.
Qed.

Section Shutdown.

Variable w : World.

(** No [os.killpg] call fails in a way the code does not catch. *)
Hypothesis forced_kill_succeeds : forall t pgid, killpg w t pgid SIGKILL = Signalled.
Hypothesis polite_kill_permitted : forall t pgid, killpg w t pgid SIGTERM <> NotPermitted.

Lemma kill_cart_process_returns proc s :
  exists s', dealt_with w proc s s'.
Proof.
  unfold dealt_with.
  destruct (proc_poll w (clock s) proc) as [code |] eqn:Hpoll.
  - rewrite (kill_cart_process_exited w proc code s Hpoll).
    eexists. split; [reflexivity |].
    apply since_of_trace. simpl. now rewrite app_nil_r.
  - rewrite (kill_cart_process_running w proc s Hpoll). cbv zeta.
    set (pgid := getpgid w (S (clock s)) (pid proc)).
    pose proof (polite_kill_permitted (S (S (clock s))) pgid) as Hperm.
    destruct (killpg w (S (S (clock s))) pgid SIGTERM); [| | congruence].
    + destruct (proc_wait w (S (S (S (clock s)))) proc 3000).
      * eexists. split; [reflexivity |]. exists [Wait proc 3000].
        apply since_of_trace. simpl. rewrite <- !app_assoc. reflexivity.
      * rewrite forced_kill_succeeds.
        eexists. split; [reflexivity |].
        exists [Wait proc 3000; Killpg pgid SIGKILL].
        apply since_of_trace. simpl. rewrite <- !app_assoc. reflexivity.
    + eexists. split; [reflexivity |]. exists [].
      apply since_of_trace. simpl. rewrite <- !app_assoc. reflexivity.
Qed.

Lemma kill_all_returns procs :
  forall s, exists s',
    kill_all w procs s = (Ok tt, s')
    /\ swept w procs s s'.
Proof.
  induction procs as [| proc rest IH]; intros s; simpl.
  - eexists. split; reflexivity.
  - destruct (kill_cart_process_returns proc s) as [s1 D1].
    destruct (IH s1) as [s' [H2 D2]].
    exists s'. unfold bind. rewrite (proj1 D1). split; [exact H2 |].
    exists s1. split; assumption.
Qed.

Lemma shutdown_returns s :
  exists s1,
    shutdown w s = (Ok Finished, log (Print [OStr "Stopped."]) s1)
    /\ swept w (PyDict.values (running_processes s))
         (log (Print [OStr (newline ++ "Stopping...")%string]) s) s1.
Proof.
  unfold shutdown, prints, print, get_running. steps. unfold bind at 1.
  set (s1 := log (Print [OStr (newline ++ "Stopping...")%string]) s).
  change (running_processes s1) with (running_processes s).
  destruct (kill_all_returns (PyDict.values (running_processes s)) s1)
    as [s2 [Hk D]].
  unfold bind at 1. rewrite Hk. steps.
  exists s2. split; [reflexivity | exact D].
Qed.

End Shutdown.

(** C9, as the code has it.  An interrupt that arrives while the daemon
    waits for a notification makes it print [Stopping...], run
    [kill_cart_process] on every tracked process, in the order of the
    mapping, print [Stopped.] and return from [monitor]: every tracked
    process is found to have exited, and then left alone, or has [SIGTERM]
    sent to its process group.  This holds as long as no [os.killpg] call
    fails in a way [kill_cart_process] does not catch, and for an
    interrupt that is not followed by another one while the handler runs:
    interrupts are delivered at [monitor.poll()] only.  Any other
    exception of [monitor.poll()], a failure of the notification bus among
    them, is not handled: it leaves [monitor] at once, in the state the
    daemon was in, so the script ends with status 1 and no tracked process
    has been signalled. *)
Theorem interrupt_kills_tracked_bus_failure_does_not
    (w : World) (run_as_user : option string) (before rest : list poll_outcome)
    (s0 s : St) :
  event_loop w run_as_user before (started run_as_user s0) = (Ok Polling, s) ->
  ((forall t pgid, killpg w t pgid SIGKILL = Signalled) ->
   (forall t pgid, killpg w t pgid SIGTERM <> NotPermitted) ->
   exists s1,
     monitor w run_as_user (before ++ PollRaise KeyboardInterrupt :: rest) s0
       = (Ok Finished, log (Print [OStr "Stopped."]) s1)
     /\ swept w (PyDict.values (running_processes s))
          (log (Print [OStr (newline ++ "Stopping...")%string]) s) s1)
  /\ (forall x, x <> KeyboardInterrupt ->
      monitor w run_as_user (before ++ PollRaise x :: rest) s0 = (Raise x, s)
      /\ exit_status (fst (monitor w run_as_user (before ++ PollRaise x :: rest) s0))
         = Some 1%Z).
Proof.
  intros Hbefore. split.
  - intros Hforce Hperm.
    destruct (shutdown_returns w Hforce Hperm s) as [s1 [Hs D]].
    exists s1. split; [| exact D].
    rewrite monitor_steps, event_loop_app, Hbefore. simpl. exact Hs.
  - intros x Hx.
    assert (Hm : monitor w run_as_user (before ++ PollRaise x :: rest) s0
                 = (Raise x, s)).
    { rewrite monitor_steps, event_loop_app, Hbefore. simpl.
      destruct x; try reflexivity. congruence. }
    rewrite Hm. split; reflexivity.
Qed.

(** Two payloads are running when the daemon is interrupted. *)
Lemma interrupt_kills_tracked_bus_failure_does_not_witness :
  let before := [PollDevice (Demo.card "/dev/sda" "add");
                 PollDevice (Demo.card "/dev/sdb" "add")] in
  let s := snd (event_loop Demo.calm None before (started None boot)) in
  exists s1,
    monitor Demo.calm None (before ++ PollRaise KeyboardInterrupt :: []) boot
      = (Ok Finished, log (Print [OStr "Stopped."]) s1)
    /\ swept Demo.calm [{| pid := 8 |}; {| pid := 17 |}]
         (log (Print [OStr (newline ++ "Stopping...")%string]) s) s1.
Proof.
  intros before s.
  assert (Hbefore : event_loop Demo.calm None before (started None boot)
                    = (Ok Polling, s))
    by (vm_compute; reflexivity).
  apply (proj1 (interrupt_kills_tracked_bus_failure_does_not Demo.calm None
                  before [] boot s Hbefore)).
  - reflexivity.
  - discriminate.
Defined.

(** The notification bus fails while a payload is running: the daemon
    ends with status 1, has called [os.killpg] not once, and the payload
    is still in the mapping. *)
Lemma bus_failure_kills_nothing :
  let run := monitor Demo.calm None
               [PollDevice (Demo.card "/dev/sda" "add"); PollRaise OSError] boot in
  fst run = Raise OSError
  /\ exit_status (fst run) = Some 1%Z
  /\ running_processes (snd run) = [("/dev/sda", {| pid := 8 |})]
  /\ killpgs (trace (snd run)) = [].
Proof. vm_compute. repeat split. Qed.

(** ** The command that is run *)

Lemma silent_not_spawn d req p :
  forallb silent d = true -> In (Spawn req p) d -> False.
Proof.
  intros O Hin. rewrite forallb_forall in O. specialize (O _ Hin). discriminate.
Qed.

Section Command.

Variable w : World.

(** What the first half has read when it hands over a script: the text
    the verifier accepted, at the third consultation after the entry, and
    the text it parsed, at the fifth; and the two lines it has printed. *)
Lemma read_exec_returns mount_point script s s' :
  read_exec w mount_point s = (Ok (Some script), s') ->
  let cart_path := path_join mount_point "cart.yaml" in
  exists verified parsed config,
    read_file w (3 + clock s) cart_path = Some verified
    /\ ssh_keygen_verify w (4 + clock s) TRUSTED_PUBKEY SIGNATURE_NAMESPACE
         (cart_path ++ ".sig")%string verified = Exited 0
    /\ read_file w (5 + clock s) cart_path = Some parsed
    /\ yaml_safe_load w parsed = Some config
    /\ PyVal.getitem_exec config = Ok script
    /\ trace s' = trace s ++ [Print [OStr "Found cart.yaml at "; OStr cart_path];
                              Print [OStr "Signature verification OK"]].
Proof.
  unfold read_exec. cbv zeta. set (cart_path := path_join _ _). steps.
  destruct (path_exists w (clock s) cart_path); cbn [negb];
    [| unfold prints, print; steps; discriminate].
  unfold print at 1. steps. set (s1 := log _ (advance s)).
  pose proof (verdict_of_run w cart_path s1) as Hv.
  unfold bind at 1.
  destruct (verify_cart_signature w cart_path s1) as [[[|] | e] s2] eqn:Hrun;
    cbn [negb]; [| unfold prints, print; steps; discriminate | discriminate].
  simpl in Hv. symmetry in Hv.
  destruct (verify_cart_signature_trusted w cart_path s1 Hv) as [Hrun' [f [Hf Hk]]].
  rewrite Hrun in Hrun'. inversion Hrun'; subst s2; clear Hrun'.
  unfold ask_or. steps.
  change (clock (log _ (advance (advance (advance (advance s1))))))
    with (5 + clock s).
  destruct (read_file w (5 + clock s) cart_path) as [parsed |] eqn:Hp;
    [| discriminate].
  steps. destruct (yaml_safe_load w parsed) as [config |] eqn:Hy; [| discriminate].
  steps.
  destruct (PyVal.truthy config); cbn [negb];
    [| steps; unfold prints, print; steps; discriminate].
  unfold lift at 1. unfold bind at 1.
  destruct (PyVal.contains_exec config) as [[|] | e]; cbn [negb];
    [| steps; unfold prints, print; steps; discriminate | discriminate].
  steps. unfold lift, bind.
  destruct (PyVal.getitem_exec config) as [script' | e] eqn:Hg; [| discriminate].
  intros H. inversion H; subst.
  exists f, parsed, config. repeat split; auto.
  subst s1. simpl. rewrite <- !app_assoc. reflexivity.
Qed.

(** A [Spawn] appended by the second half is the one of the process it
    returns, for the script it was given. *)
Lemma launch_spawn mount_point run_as_user script s r s' req p :
  launch w mount_point run_as_user script s = (r, s') ->
  In (Spawn req p) (since s s') ->
  r = Ok (Some p) /\ sr_script req = script /\ sr_cwd req = mount_point
  /\ spawns (since s s') = [Spawn req p].
Proof.
  unfold launch. unfold bind at 1.
  destruct (child_setup w run_as_user script s) as [[setup | e] s1] eqn:Hsetup.
  - destruct (child_setup_silent w _ _ _ _ _ Hsetup) as [[d [T O]] _ _ _].
    cbv zeta. steps.
    destruct (popen w (clock s1) _) as [proc | e].
    + steps. intros H. inversion H; subst; clear H.
      rewrite (since_of_trace s _ (d ++ [Spawn {| sr_script := script;
                 sr_cwd := mount_point; sr_identity := fst setup;
                 sr_env := snd setup |} proc]))
        by (simpl; rewrite T, <- app_assoc; reflexivity).
      intros Hin. apply in_app_or in Hin. destruct Hin as [Hin | [Hin | []]].
      * exfalso. eapply silent_not_spawn; eauto.
      * inversion Hin; subst. repeat split; auto.
        rewrite spawns_app. simpl.
        assert (spawns d = []) as ->; [| reflexivity].
        clear T. unfold spawns. induction d as [| x d IH]; simpl in *; auto.
        apply andb_prop in O. destruct O as [Ox Od].
        destruct x; simpl in *; auto; discriminate.
    + intros H. inversion H; subst; clear H.
      rewrite (since_of_trace s _ d) by (simpl; exact T).
      intros Hin. exfalso. eapply silent_not_spawn; eauto.
  - destruct (child_setup_silent w _ _ _ _ _ Hsetup) as [[d [T O]] _ _ _].
    intros H. inversion H; subst; clear H.
    rewrite (since_of_trace s _ d) by exact T.
    intros Hin. exfalso. eapply silent_not_spawn; eauto.
Qed.

End Command.

(** C10: every process [start_cart_process] launches runs a command taken
    from a second read of the manifest.  The verifier was fed the text
    read at the third consultation after the entry and accepted it; the
    command is the [exec] entry of the text read at the fifth, which
    nothing compares with the first.  The command is known to come from
    verified text only where the two reads agree. *)
Theorem command_is_read_after_verification
    (w : World) (mount_point : string) (run_as_user : option string)
    (s s' : St) (r : result (option process)) (req : spawn_req) (p : process) :
  start_cart_process w mount_point run_as_user s = (r, s') ->
  In (Spawn req p) (since s s') ->
  let cart_path := path_join mount_point "cart.yaml" in
  r = Ok (Some p)
  /\ spawns (since s s') = [Spawn req p]
  /\ exists verified parsed config,
       read_file w (3 + clock s) cart_path = Some verified
       /\ ssh_keygen_verify w (4 + clock s) TRUSTED_PUBKEY SIGNATURE_NAMESPACE
            (cart_path ++ ".sig")%string verified = Exited 0
       /\ read_file w (5 + clock s) cart_path = Some parsed
       /\ yaml_safe_load w parsed = Some config
       /\ PyVal.getitem_exec config = Ok (sr_script req)
       /\ (read_file w (3 + clock s) cart_path = read_file w (5 + clock s) cart_path ->
           yaml_safe_load w verified = Some config).
Proof.
  intros Hrun Hin cart_path. rewrite start_cart_process_halves in Hrun.
  destruct (read_exec w mount_point s) as [[[script |] | e] s1] eqn:Hread.
  - destruct (read_exec_silent w _ _ _ _ Hread) as [[d1 [T1 O1]] _ _ _].
    destruct (launch_no_signal w _ _ _ _ _ _ Hrun) as [[d2 [T2 _]] _ _ _].
    pose proof (since_trans _ _ _ _ _ T1 T2) as Hs.
    rewrite Hs in Hin. apply in_app_or in Hin.
    rewrite (since_of_trace _ _ _ T1) in Hin.
    destruct Hin as [Hin | Hin]; [exfalso; eapply silent_not_spawn; eauto |].
    destruct (launch_spawn w _ _ _ _ _ _ _ _ Hrun Hin) as [Hr [Hscript [_ Hsp]]].
    destruct (read_exec_returns w _ _ _ _ Hread)
      as [verified [parsed [config [Hv [Hk [Hp [Hy [Hg _]]]]]]]].
    split; [exact Hr |]. split.
    + rewrite Hs, spawns_app, Hsp, (since_of_trace _ _ _ T1).
      assert (spawns d1 = []) as ->; [| reflexivity].
      clear T1. unfold spawns. induction d1 as [| x d1 IH]; simpl in *; auto.
      apply andb_prop in O1. destruct O1 as [Ox Od].
      destruct x; simpl in *; auto; discriminate.
    + exists verified, parsed, config. fold cart_path in Hv, Hk, Hp.
      repeat split; auto.
      * rewrite Hscript. exact Hg.
      * intros Hsame. rewrite Hv, Hp in Hsame. inversion Hsame. exact Hy.
  - inversion Hrun; subst. exfalso.
    destruct (read_exec_silent w _ _ _ _ Hread) as [[d1 [T1 O1]] _ _ _].
    rewrite (since_of_trace _ _ _ T1) in Hin. eapply silent_not_spawn; eauto.
  - inversion Hrun; subst. exfalso.
    destruct (read_exec_silent w _ _ _ _ Hread) as [[d1 [T1 O1]] _ _ _].
    rewrite (since_of_trace _ _ _ T1) in Hin. eapply silent_not_spawn; eauto.
Qed.

(** The manifest is replaced between the two reads: the verifier accepts
    [exec: ./run.sh], and [./other.sh] is run. *)
Lemma command_is_read_after_verification_witness :
  let run := start_cart_process Demo.swapping "/mnt/a" None boot in
  let req := {| sr_script := PStr "./other.sh"; sr_cwd := "/mnt/a";
                sr_identity := None; sr_env := [("PATH", "/usr/bin")] |} in
  let cart_path := path_join "/mnt/a" "cart.yaml" in
  fst run = Ok (Some {| pid := 6 |})
  /\ spawns (since boot (snd run)) = [Spawn req {| pid := 6 |}]
  /\ exists verified parsed config,
       read_file Demo.swapping 3 cart_path = Some verified
       /\ ssh_keygen_verify Demo.swapping 4 TRUSTED_PUBKEY SIGNATURE_NAMESPACE
            (cart_path ++ ".sig")%string verified = Exited 0
       /\ read_file Demo.swapping 5 cart_path = Some parsed
       /\ yaml_safe_load Demo.swapping parsed = Some config
       /\ PyVal.getitem_exec config = Ok (PStr "./other.sh")
       /\ (read_file Demo.swapping 3 cart_path = read_file Demo.swapping 5 cart_path ->
           yaml_safe_load Demo.swapping verified = Some config).
Proof.
  intros run req cart_path.
  apply (command_is_read_after_verification Demo.swapping "/mnt/a" None boot
           (snd run) (fst run) req {| pid := 6 |}).
  - vm_compute. reflexivity.
  - vm_compute. repeat first [left; reflexivity | right].
Defined.

(** The two reads of the witness differ: what is run was never verified. *)
Lemma swapped_manifest_is_run_unverified :
  read_file Demo.swapping 3 "/mnt/a/cart.yaml" = Some Demo.manifest_text
  /\ read_file Demo.swapping 5 "/mnt/a/cart.yaml" = Some Demo.swapped_text
  /\ ssh_keygen_verify Demo.swapping 4 TRUSTED_PUBKEY SIGNATURE_NAMESPACE
       "/mnt/a/cart.yaml.sig" Demo.swapped_text = Exited 255
  /\ map (fun e => match e with Spawn req _ => Some (sr_script req) | _ => None end)
       (spawns (trace (snd (start_cart_process Demo.swapping "/mnt/a" None boot))))
     = [Some (PStr "./other.sh")].
Proof. vm_compute. repeat split. Qed.

(** ** Trust gates execution *)

Lemma gated_mono d :
  forall b1 b2, (b1 = true -> b2 = true) -> gated b1 d = true -> gated b2 d = true.
Proof.
  induction d as [| e d IH]; intros b1 b2 Hb; simpl; auto.
  destruct (is_spawn e).
  - intros H. apply andb_prop in H. destruct H as [H1 H2].
    rewrite (Hb H1), H2. reflexivity.
  - apply IH. intros H. apply orb_prop in H. destruct H as [H | H].
    + rewrite (Hb H). reflexivity.
    + rewrite H. apply orb_true_r.
Qed.

Lemma gated_app d1 :
  forall b d2, gated b d1 = true -> gated false d2 = true ->
               gated b (d1 ++ d2) = true.
Proof.
  induction d1 as [| e d1 IH]; intros b d2 H1 H2; simpl in *.
  - eapply gated_mono; [| exact H2]. discriminate.
  - destruct (is_spawn e).
    + apply andb_prop in H1. destruct H1 as [Hb H1].
      rewrite Hb, (IH _ _ H1 H2). reflexivity.
    + apply IH; assumption.
Qed.

Lemma gated_without_spawn d b :
  forallb (fun e => negb (is_spawn e)) d = true -> gated b d = true.
Proof.
  revert b. induction d as [| e d IH]; intros b H; simpl in *; auto.
  apply andb_prop in H. destruct H as [He Hd].
  apply negb_true_iff in He. rewrite He. auto.
Qed.

Lemma silent_without_spawn d :
  forallb silent d = true -> forallb (fun e => negb (is_spawn e)) d = true.
Proof.
  induction d as [| e d IH]; simpl; auto.
  intros H. apply andb_prop in H. destruct H as [He Hd].
  rewrite (IH Hd). destruct e; simpl in *; auto; discriminate.
Qed.

Lemma Gated_without_spawn {A} (ok : effect -> bool) (m : M A) :
  (forall e, ok e = true -> is_spawn e = false) -> Framed ok m -> Gated m.
Proof.
  intros Hok Hm s r s' H. destruct (Hm _ _ _ H) as [[d [T O]] _ _ _].
  exists d. split; auto. apply gated_without_spawn.
  rewrite forallb_forall in *. intros e He.
  rewrite (Hok _ (O _ He)). reflexivity.
Qed.

Lemma Gated_silent {A} (m : M A) : Framed silent m -> Gated m.
Proof.
  apply Gated_without_spawn. intros [] H; simpl in *; auto; discriminate.
Qed.

Lemma Gated_still {A} (m : M A) :
  (forall s, trace (snd (m s)) = trace s) -> Gated m.
Proof.
  intros Hm s r s' H. exists []. rewrite app_nil_r.
  specialize (Hm s). rewrite H in Hm. auto.
Qed.

Lemma Gated_bind {A B} (m : M A) (k : A -> M B) :
  Gated m -> (forall a, Gated (k a)) -> Gated (bind m k).
Proof.
  intros Hm Hk s r s' H. unfold bind in H.
  destruct (m s) as [[a | e] s1] eqn:E.
  - destruct (Hm _ _ _ E) as [d1 [T1 G1]]. destruct (Hk _ _ _ _ H) as [d2 [T2 G2]].
    exists (d1 ++ d2). rewrite T2, T1, app_assoc. split; auto.
    apply gated_app; assumption.
  - inversion H; subst. apply (Hm _ _ _ E).
Qed.

Lemma Gated_try {A} (m : M A) catches (h : exn -> M A) :
  Gated m -> (forall e, Gated (h e)) -> Gated (try_except m catches h).
Proof.
  intros Hm Hh s r s' H. unfold try_except in H.
  destruct (m s) as [[a | e] s1] eqn:E.
  - inversion H; subst. apply (Hm _ _ _ E).
  - destruct (catches e).
    + destruct (Hm _ _ _ E) as [d1 [T1 G1]].
      destruct (Hh _ _ _ _ H) as [d2 [T2 G2]].
      exists (d1 ++ d2). rewrite T2, T1, app_assoc. split; auto.
      apply gated_app; assumption.
    + inversion H; subst. apply (Hm _ _ _ E).
Qed.

Lemma Gated_ret {A} (a : A) : Gated (ret a).
Proof. apply Gated_still. reflexivity. Qed.

Section Gates.

Variable w : World.
Variable run_as_user : option string.

(** The second half appends lines and then, at most, one [Spawn]. *)
Lemma launch_trace mount_point script s r s' :
  launch w mount_point run_as_user script s = (r, s') ->
  exists lines,
    forallb silent lines = true
    /\ (trace s' = trace s ++ lines
        \/ exists req p, trace s' = trace s ++ lines ++ [Spawn req p]).
Proof.
  unfold launch. unfold bind at 1.
  destruct (child_setup w run_as_user script s) as [[setup | e] s1] eqn:Hsetup;
    destruct (child_setup_silent w _ _ _ _ _ Hsetup) as [[d [T O]] _ _ _].
  - cbv zeta. steps.
    destruct (popen w (clock s1) _) as [proc | e].
    + steps. intros H. inversion H; subst; clear H.
      exists d. split; [exact O |]. right. eexists _, proc.
      simpl. rewrite T, <- app_assoc. reflexivity.
    + intros H. inversion H; subst; clear H.
      exists d. split; [exact O |]. left. exact T.
  - intros H. inversion H; subst; clear H.
    exists d. split; [exact O |]. left. exact T.
Qed.

Lemma start_cart_process_gated mount_point :
  Gated (start_cart_process w mount_point run_as_user).
Proof.
  intros s r s' H. rewrite start_cart_process_halves in H.
  destruct (read_exec w mount_point s) as [[[script |] | e] s1] eqn:Hread.
  - destruct (read_exec_returns w _ _ _ _ Hread)
      as [_ [_ [_ [_ [_ [_ [_ [_ T1]]]]]]]].
    destruct (launch_trace _ _ _ _ _ H) as [lines [O [T2 | [req [p T2]]]]].
    + eexists. split; [rewrite T2, T1, <- app_assoc; reflexivity |].
      apply gated_without_spawn. simpl. apply silent_without_spawn. exact O.
    + eexists. split; [rewrite T2, T1, <- app_assoc; reflexivity |].
      simpl. clear T2.
      induction lines as [| x lines IH]; simpl in *; auto.
      apply andb_prop in O. destruct O as [Ox Ol].
      destruct x; simpl in *; auto; discriminate.
  - inversion H; subst. apply (Gated_silent _ (read_exec_silent w mount_point) _ _ _ Hread).
  - inversion H; subst. apply (Gated_silent _ (read_exec_silent w mount_point) _ _ _ Hread).
Qed.

Lemma kill_cart_process_gated proc : Gated (kill_cart_process w proc).
Proof.
  eapply Gated_without_spawn; [| apply kill_cart_process_no_spawn].
  intros e H. apply negb_true_iff. exact H.
Qed.

Lemma kill_all_gated procs : Gated (kill_all w procs).
Proof.
  eapply Gated_without_spawn; [| apply kill_all_no_spawn].
  intros e H. apply negb_true_iff. exact H.
Qed.

Lemma print_gated line : Gated (print line).
Proof. apply Gated_silent, Framed_emit. reflexivity. Qed.

Lemma process_event_gated e : Gated (process_event w run_as_user e).
Proof.
  unfold process_event, prints.
  destruct (String.eqb (fst e) "insert").
  - apply Gated_bind; [apply print_gated | intros _].
    apply Gated_bind; [apply Gated_silent, get_mount_point_silent | intros mp].
    destruct (PyStr.truthy_opt mp); [| apply print_gated].
    destruct mp as [mp |]; [| apply Gated_ret].
    apply Gated_bind; [apply start_cart_process_gated | intros [p |]].
    + apply Gated_bind; intros; apply Gated_still; reflexivity.
    + apply Gated_ret.
  - apply Gated_bind; [apply print_gated | intros _].
    apply Gated_bind; [apply Gated_still; reflexivity | intros running].
    destruct (PyDict.get running (snd e)); [| apply Gated_ret].
    apply Gated_bind; [apply Gated_still; reflexivity | intros _].
    apply kill_cart_process_gated.
Qed.

Lemma handle_device_gated d : Gated (handle_device w run_as_user d).
Proof.
  unfold handle_device.
  apply Gated_bind; [apply Gated_silent, is_sd_card_silent | intros sd].
  destruct (negb sd); [apply Gated_ret |].
  apply Gated_bind; [apply Gated_silent, classify_silent | intros [e |]];
    [| apply Gated_ret].
  apply Gated_bind; [apply Gated_still; reflexivity | intros last].
  destruct (is_last_event last e); [apply Gated_ret |].
  apply Gated_bind; [apply Gated_still; reflexivity | intros _].
  apply process_event_gated.
Qed.

Lemma event_loop_gated polls : Gated (event_loop w run_as_user polls).
Proof.
  induction polls as [| [d | | x] polls IH]; simpl.
  - apply Gated_ret.
  - apply Gated_bind; [apply handle_device_gated | intros _; exact IH].
  - apply Gated_ret.
  - apply Gated_still. reflexivity.
Qed.

(** In every run of [monitor] each launch follows a trusted verdict of
    its own. *)
Lemma monitor_gated polls : Gated (monitor w run_as_user polls).
Proof.
  unfold monitor, prints.
  apply Gated_bind; [apply print_gated | intros _].
  apply Gated_bind.
  { destruct (PyStr.truthy_opt run_as_user); [| apply Gated_ret].
    destruct run_as_user; [apply print_gated | apply Gated_ret]. }
  intros _.
  apply Gated_bind; [apply Gated_still; reflexivity | intros _].
  apply Gated_bind; [apply Gated_still; reflexivity | intros _].
  apply Gated_try; [apply event_loop_gated | intros _].
  apply Gated_bind; [apply print_gated | intros _].
  apply Gated_bind; [apply Gated_still; reflexivity | intros running].
  apply Gated_bind; [apply kill_all_gated | intros _].
  apply Gated_bind; [apply print_gated | intros _].
  apply Gated_ret.
Qed.

End Gates.

(** What [start_cart_process] does when trust fails, and what its
    launching a process tells about the verdict. *)
Lemma start_cart_process_needs_trust
    (w : World) (mount_point : string) (run_as_user : option string) (s : St) :
  let cart_path := path_join mount_point "cart.yaml" in
  let run := start_cart_process w mount_point run_as_user s in
  (trust_failure w cart_path (S (clock s)) ->
   fst run = Ok None /\ spawns (since s (snd run)) = [])
  /\ (spawns (since s (snd run)) <> [] ->
      verdict w cart_path (S (clock s)) = Ok true).
Proof.
  intros cart_path run. subst run.
  destruct (start_cart_process w mount_point run_as_user s) as [r s'] eqn:R.
  cbn [fst snd]. unfold start_cart_process in R. fold cart_path in R.
  rewrite bind_ask in R.
  assert (Fpre : forall e, frame silent s (log (Print e) (advance s))).
  { intros e. eapply frame_trans; [apply frame_advance | now apply frame_log]. }
  destruct (path_exists w (clock s) cart_path); cbn [negb] in R.
  - unfold print at 1 in R. rewrite bind_emit in R. unfold bind at 1 in R.
    set (s1 := log _ (advance s)) in R.
    pose proof (verdict_of_run w cart_path s1) as Hv.
    change (clock s1) with (S (clock s)) in Hv.
    pose proof (verify_cart_signature_silent w cart_path s1) as Fv.
    destruct (verify_cart_signature w cart_path s1) as [[[|] | e] s2] eqn:V;
      simpl in Hv; specialize (Fv _ _ eq_refl).
    + split.
      * intros TF. apply trust_failure_verdict in TF. congruence.
      * intros _. symmetry. exact Hv.
    + cbn [negb] in R. unfold prints, print in R. rewrite bind_emit in R.
      inversion R; subst r s'; clear R.
      assert (Hno : spawns (since s (log (Print [OStr "Execution blocked (untrusted cart)"]) s2)) = []).
      { apply silent_no_spawn. eapply frame_trans; [apply Fpre |].
        eapply frame_trans; [exact Fv | now apply frame_log]. }
      split; [auto | intros Hsp; contradiction].
    + inversion R; subst r s'; clear R.
      assert (Hno : spawns (since s s2) = []).
      { apply silent_no_spawn. eapply frame_trans; [apply Fpre | exact Fv]. }
      split; [| intros Hsp; contradiction].
      intros TF. apply trust_failure_verdict in TF. congruence.
  - unfold prints, print in R. rewrite bind_emit in R.
    inversion R; subst r s'; clear R.
    assert (Hno : spawns (since s (log (Print [OStr "No cart.yaml detected"]) (advance s))) = []).
    { apply silent_no_spawn. apply Fpre. }
    split; [auto | intros Hsp; contradiction].
Qed.

(** C1: a payload is started only after a trusted verdict.  When the
    signature file is missing, the trusted-signer store is missing or the
    verifier exits nonzero, [start_cart_process] returns [None] and
    launches no process; whenever it launches one, the verdict of
    [verify_cart_signature] on the manifest was the trusted one; and in
    every run of [monitor], whatever the notifications, each launch comes
    after a line "Signature verification OK" printed since the launch
    before it. *)
Theorem untrusted_cart_is_never_started
    (w : World) (mount_point : string) (run_as_user : option string) (s : St) :
  let cart_path := path_join mount_point "cart.yaml" in
  let run := start_cart_process w mount_point run_as_user s in
  (trust_failure w cart_path (S (clock s)) ->
   fst run = Ok None /\ spawns (since s (snd run)) = [])
  /\ (spawns (since s (snd run)) <> [] ->
      verdict w cart_path (S (clock s)) = Ok true)
  /\ (forall polls s0,
        gated false (since s0 (snd (monitor w run_as_user polls s0))) = true).
Proof.
  intros cart_path run.
  destruct (start_cart_process_needs_trust w mount_point run_as_user s)
    as [H1 H2].
  split; [exact H1 |]. split; [exact H2 |].
  intros polls s0.
  destruct (monitor w run_as_user polls s0) as [r s'] eqn:Hm.
  destruct (monitor_gated w run_as_user polls _ _ _ Hm) as [d [T G]].
  simpl. rewrite (since_of_trace _ _ _ T). exact G.
Qed.

(** On a card without [cart.yaml.sig] nothing is started. *)
Lemma untrusted_cart_is_never_started_witness :
  fst (start_cart_process Demo.unsigned "/mnt/a" None boot) = Ok None
  /\ spawns (since boot (snd (start_cart_process Demo.unsigned "/mnt/a" None boot))) = [].
Proof.
  apply (proj1 (untrusted_cart_is_never_started Demo.unsigned "/mnt/a" None boot)).
  apply signature_missing. reflexivity.
Defined.

(** ** An insert for a node that is already tracked *)

(** An insert event that launches a process stores it under the device
    node, over whatever the mapping held there, and calls [os.killpg] for
    nothing. *)
Lemma insert_replaces_tracked_process
    (w : World) (run_as_user : option string) (node mp : string)
    (p : process) (s s1 s2 : St) :
  get_mount_point w node 5 (log (Print [OStr "SD card inserted: "; OStr node]) s)
    = (Ok (Some mp), s1) ->
  PyStr.truthy mp = true ->
  start_cart_process w mp run_as_user s1 = (Ok (Some p), s2) ->
  exists s',
    process_event w run_as_user ("insert", node) s = (Ok tt, s')
    /\ running_processes s' = PyDict.set (running_processes s) node p
    /\ killpgs (since s s') = [].
Proof.
  intros Hm Hmp Hs.
  exists (with_running (PyDict.set (running_processes s2) node p) s2).
  rewrite process_event_insert, Hm, Hmp, Hs. split; [reflexivity |].
  destruct (get_mount_point_silent w _ _ _ _ _ Hm) as [[d1 [T1 O1]] _ _ R1].
  destruct (start_cart_process_no_signal w _ _ _ _ _ Hs) as [[d2 [T2 O2]] _ _ R2].
  split.
  - simpl. rewrite R2, R1. reflexivity.
  - rewrite (since_of_trace s _ ([Print [OStr "SD card inserted: "; OStr node]]
                                   ++ d1 ++ d2))
      by (simpl; rewrite T2, T1; simpl; rewrite <- !app_assoc; reflexivity).
    unfold killpgs. rewrite !filter_app. simpl.
    assert (H1 : filter is_killpg d1 = []).
    { clear T1. induction d1 as [| x d1 IH]; simpl in *; auto.
      apply andb_prop in O1. destruct O1 as [Ox Od].
      destruct x; simpl in *; auto; discriminate. }
    assert (H2 : filter is_killpg d2 = []).
    { clear T2. induction d2 as [| x d2 IH]; simpl in *; auto.
      apply andb_prop in O2. destruct O2 as [Ox Od].
      destruct x; simpl in *; auto; discriminate. }
    rewrite H1, H2. reflexivity.
Qed.

(** C2 does not hold of the code.  The card in [/dev/sda] is inserted,
    the card in [/dev/sdb] is removed, and [/dev/sda] is announced again:
    the second announcement is no duplicate of the event before it, so a
    second payload is launched for [/dev/sda].  The first one has never
    been signalled, and the mapping has lost it. *)
Theorem reinsertion_leaves_two_payloads :
  let polls := [PollDevice (Demo.card "/dev/sda" "add");
                PollDevice (Demo.card "/dev/sdb" "remove");
                PollDevice (Demo.card "/dev/sda" "add")] in
  let run := monitor Demo.calm None polls boot in
  let req := {| sr_script := PStr "./run.sh"; sr_cwd := "/mnt/a";
                sr_identity := None; sr_env := [("PATH", "/usr/bin")] |} in
  fst run = Ok Polling
  /\ spawns (trace (snd run)) = [Spawn req {| pid := 8 |}; Spawn req {| pid := 17 |}]
  /\ killpgs (trace (snd run)) = []
  /\ running_processes (snd run) = [("/dev/sda", {| pid := 17 |})].
Proof. vm_compute. repeat split. Qed.

(** ** What the classifier decides *)

Lemma truthy_iff s : PyStr.truthy s = true <-> s <> "".
Proof.
  unfold PyStr.truthy. rewrite negb_true_iff. apply String.eqb_neq.
Qed.

Lemma truthy_opt_iff o :
  PyStr.truthy_opt o = true <-> exists v, o = Some v /\ v <> "".
Proof.
  destruct o as [v |]; simpl.
  - rewrite truthy_iff. split.
    + intros H. now exists v.
    + intros [v' [E H]]. congruence.
  - split; [discriminate | intros [v [E _]]; discriminate].
Qed.

Lemma opt_eqb_iff o lit : PyStr.opt_eqb o lit = true <-> o = Some lit.
Proof.
  destruct o as [x |]; simpl.
  - rewrite String.eqb_eq. split; congruence.
  - split; discriminate.
Qed.

(** X1: [is_sd_card] never raises and adds nothing to the trace.  It
    answers [True] exactly for a whole disk that has a device node and is
    a native reader ([mmcblk] in the node) or a [/dev/sd*] disk that sits
    on the USB bus or whose sysfs [removable] attribute reads [1]; an
    unreadable attribute counts as not removable.  It consults the file
    system at most once. *)
Theorem is_sd_card_decides (w : World) (d : device) (s : St) :
  exists b s',
    is_sd_card w d s = (Ok b, s')
    /\ (b = true <-> card_like w d (clock s))
    /\ trace s' = trace s
    /\ clock s' <= S (clock s).
Proof.
  unfold is_sd_card.
  destruct (PyStr.truthy (device_node d)) eqn:Hnode; cbn [negb orb].
  2:{ exists false, s. repeat split; auto; try discriminate.
      intros [C _]. apply truthy_iff in C. congruence. }
  destruct (PyStr.opt_eqb (device_type d) "disk") eqn:Htype; cbn [negb].
  2:{ exists false, s. repeat split; auto; try discriminate.
      intros (_ & C & _). apply opt_eqb_iff in C. congruence. }
  apply truthy_iff in Hnode. apply opt_eqb_iff in Htype.
  destruct (PyStr.contains "mmcblk" (device_node d)) eqn:Hmmc.
  { exists true, s. repeat split; auto. }
  destruct (PyStr.startswith (device_node d) "/dev/sd") eqn:Hsd.
  2:{ exists false, s. repeat split; auto; try discriminate.
      intros (_ & _ & [C | [C _]]); congruence. }
  destruct (PyStr.opt_eqb (PyDict.get (properties d) "ID_BUS") "usb") eqn:Hbus.
  { apply opt_eqb_iff in Hbus. exists true, s. repeat split; auto. }
  assert (Hbus' : PyDict.get (properties d) "ID_BUS" <> Some "usb").
  { intros C. apply opt_eqb_iff in C. congruence. }
  destruct (PyStr.opt_eqb (PyDict.get (properties d) "DEVTYPE") "disk") eqn:Hdt.
  2:{ exists false, s. repeat split; auto; try discriminate.
      intros (_ & _ & [C | [_ [C | [C _]]]]); try congruence.
      apply opt_eqb_iff in C. congruence. }
  apply opt_eqb_iff in Hdt.
  unfold try_except, ask_or. rewrite bind_bind, bind_ask.
  fold (removable_path (device_node d)).
  destruct (read_file w (clock s) (removable_path (device_node d))) as [text |] eqn:Hr.
  - rewrite bind_ret. unfold bind, ret.
    exists (String.eqb (PyStr.strip text) "1"), (advance s).
    split; [reflexivity |]. split; [| split; [reflexivity | simpl; lia]].
    rewrite String.eqb_eq. split.
    + intros E. repeat split; auto. right. split; auto. right. split; auto.
      now exists text.
    + intros (_ & _ & [C | [_ [C | [_ [text' [E1 E2]]]]]]); try congruence.
  - cbn. exists false, (advance s).
    split; [reflexivity |]. split; [| split; [reflexivity | simpl; lia]].
    split; [discriminate |].
    intros (_ & _ & [C | [_ [C | [_ [text' [E1 E2]]]]]]); congruence.
Qed.

(** X2: on a device that has a node, [has_media] never raises and adds
    nothing to the trace.  It answers [True] exactly when the device has a
    non-empty [ID_PART_TABLE_TYPE] or [ID_FS_TYPE] property, or its sysfs
    [size] attribute reads as an integer greater than zero; an unreadable
    or malformed attribute counts as no media. *)
Theorem has_media_decides (w : World) (d : device) (s : St) :
  device_node d <> "" ->
  exists b s',
    has_media w d s = (Ok b, s')
    /\ (b = true <-> media_present w d (clock s))
    /\ trace s' = trace s
    /\ clock s' <= S (clock s).
Proof.
  intros _. unfold has_media.
  destruct (PyStr.truthy_opt (PyDict.get (properties d) "ID_PART_TABLE_TYPE")) eqn:Hpt.
  { apply truthy_opt_iff in Hpt. exists true, s. repeat split; auto. now left. }
  destruct (PyStr.truthy_opt (PyDict.get (properties d) "ID_FS_TYPE")) eqn:Hfs.
  { apply truthy_opt_iff in Hfs. exists true, s. repeat split; auto. right. now left. }
  assert (Hpt' : ~ exists v, PyDict.get (properties d) "ID_PART_TABLE_TYPE" = Some v /\ v <> "").
  { intros C. apply truthy_opt_iff in C. congruence. }
  assert (Hfs' : ~ exists v, PyDict.get (properties d) "ID_FS_TYPE" = Some v /\ v <> "").
  { intros C. apply truthy_opt_iff in C. congruence. }
  unfold try_except, ask_or. rewrite bind_bind, bind_ask.
  fold (size_path (device_node d)).
  destruct (read_file w (clock s) (size_path (device_node d))) as [text |] eqn:Hr.
  - rewrite bind_ret.
    destruct (PyStr.int (PyStr.strip text)) as [n |] eqn:Hn.
    + exists (Z.ltb 0 n), (advance s).
      split; [reflexivity |]. split; [| split; [reflexivity | simpl; lia]].
      rewrite Z.ltb_lt. split.
      * intros H. right. right. now exists text, n.
      * intros [C | [C | [text' [n' (E1 & E2 & E3)]]]]; try tauto.
        congruence.
    + exists false, (advance s).
      split; [reflexivity |]. split; [| split; [reflexivity | simpl; lia]].
      split; [discriminate |].
      intros [C | [C | [text' [n' (E1 & E2 & E3)]]]]; try tauto.
      congruence.
  - exists false, (advance s).
    split; [reflexivity |]. split; [| split; [reflexivity | simpl; lia]].
    split; [discriminate |].
    intros [C | [C | [text' [n' (E1 & E2 & E3)]]]]; try tauto.
    congruence.
Qed.

(** A card reader whose card has a partition table. *)
Lemma has_media_decides_witness :
  let d := {| device_node := "/dev/sda"; device_type := Some "disk";
              action := Some "change";
              properties := [("ID_BUS", "usb"); ("ID_PART_TABLE_TYPE", "dos")] |} in
  exists b s',
    has_media Demo.calm d boot = (Ok b, s')
    /\ (b = true <-> media_present Demo.calm d (clock boot))
    /\ trace s' = trace boot
    /\ clock s' <= S (clock boot).
Proof.
  cbv zeta.
  apply (has_media_decides Demo.calm
           {| device_node := "/dev/sda"; device_type := Some "disk";
              action := Some "change";
              properties := [("ID_BUS", "usb"); ("ID_PART_TABLE_TYPE", "dos")] |}
           boot).
  discriminate.
Defined.

(** ** Waiting for the mount point *)

Lemma scan_mounts_run partitions lines s :
  scan_mounts partitions lines s = (scan_result partitions lines, s).
Proof.
  unfold scan_result.
  induction lines as [| parts rest IH]; simpl; [reflexivity |].
  destruct parts as [| p0 tl]; [reflexivity |].
  destruct (existsb (String.eqb p0) partitions); [| exact IH].
  destruct tl; reflexivity.
Qed.

Lemma scan_result_cons partitions parts rest :
  scan_result partitions (parts :: rest) =
  match parts with
  | [] => Raise IndexError
  | p0 :: tl =>
      if existsb (String.eqb p0) partitions
      then match tl with
           | [] => Raise IndexError
           | p1 :: _ => Ok (Some p1)
           end
      else scan_result partitions rest
  end.
Proof.
  unfold scan_result. simpl.
  destruct parts as [| p0 tl]; [reflexivity |].
  destruct (existsb (String.eqb p0) partitions); [| reflexivity].
  destruct tl; reflexivity.
Qed.

Lemma existsb_eqb_In p l : existsb (String.eqb p) l = true <-> In p l.
Proof.
  rewrite existsb_exists. split.
  - intros [x [H E]]. apply String.eqb_eq in E. now subst.
  - intros H. exists p. split; auto. apply String.eqb_refl.
Qed.

Lemma scan_result_hit partitions lines mp :
  scan_result partitions lines = Ok (Some mp) ->
  exists p0 rest, In (p0 :: mp :: rest) lines /\ In p0 partitions.
Proof.
  induction lines as [| parts more IH]; [discriminate |].
  rewrite scan_result_cons.
  destruct parts as [| p0 tl]; [discriminate |].
  destruct (existsb (String.eqb p0) partitions) eqn:E.
  - destruct tl as [| p1 tl]; [discriminate |].
    intros H. inversion H; subst. exists p0, tl. split; [now left |].
    now apply existsb_eqb_In.
  - intros H. destruct (IH H) as (q & rest & Hin & Hq).
    exists q, rest. split; [now right | assumption].
Qed.

Lemma scan_result_raises partitions lines e :
  scan_result partitions lines = Raise e -> e = IndexError.
Proof.
  induction lines as [| parts more IH]; [discriminate |].
  rewrite scan_result_cons.
  destruct parts as [| p0 tl]; [congruence |].
  destruct (existsb (String.eqb p0) partitions); [| exact IH].
  destruct tl; congruence.
Qed.

(** One round of the polling loop, by what the two consultations give. *)
Lemma mount_rounds_step w node n partitions s :
  mount_rounds w node (S n) partitions s =
  let partitions' := partitions_after w node (clock s) partitions in
  let s2 := advance (advance s) in
  match proc_mounts w (S (clock s)) with
  | Some lines =>
      match scan_result partitions' lines with
      | Ok (Some mount_point) => (Ok (Some mount_point), s2)
      | Ok None => mount_rounds w node n partitions' (log (Sleep 500) s2)
      | Raise e => (Raise e, s2)
      end
  | None => mount_rounds w node n partitions' (log (Sleep 500) s2)
  end.
Proof.
  cbn [mount_rounds]. cbv zeta. unfold partitions_after.
  unfold bind at 1. unfold try_except at 1, ask_or at 1.
  rewrite bind_bind, bind_ask.
  assert (Hrest : forall found s1,
            clock s1 = S (clock s) ->
            (hit <- try_except
                      (lines <- ask_or OSError (proc_mounts w) ;;
                       scan_mounts match found with
                                   | [] => [node]
                                   | _ :: _ => found
                                   end lines)
                      is_OSError (fun _ : exn => ret None) ;;
             match hit with
             | Some mount_point => ret (Some mount_point)
             | None =>
                 emit (Sleep 500) ;;
                 mount_rounds w node n match found with
                                       | [] => [node]
                                       | _ :: _ => found
                                       end
             end) s1 =
            match proc_mounts w (S (clock s)) with
            | Some lines =>
                match scan_result match found with
                                  | [] => [node]
                                  | _ :: _ => found
                                  end lines with
                | Ok (Some mount_point) => (Ok (Some mount_point), advance s1)
                | Ok None =>
                    mount_rounds w node n match found with
                                          | [] => [node]
                                          | _ :: _ => found
                                          end (log (Sleep 500) (advance s1))
                | Raise e => (Raise e, advance s1)
                end
            | None =>
                mount_rounds w node n match found with
                                      | [] => [node]
                                      | _ :: _ => found
                                      end (log (Sleep 500) (advance s1))
            end).
  { intros found s1 Hc. unfold bind at 1. unfold try_except at 1, ask_or at 1.
    rewrite bind_bind, bind_ask, Hc.
    destruct (proc_mounts w (S (clock s))) as [lines |]; [| reflexivity].
    rewrite bind_ret, scan_mounts_run.
    destruct (scan_result _ lines) as [[mp |] | e] eqn:E; try reflexivity.
    rewrite (scan_result_raises _ _ _ E). reflexivity. }
  destruct (listdir w (clock s) _) as [entries |].
  - rewrite bind_ret. cbn [ret]. apply Hrest. reflexivity.
  - cbn [bind raise is_OSError ret]. apply Hrest. reflexivity.
Qed.

Lemma mount_rounds_waits w node n :
  forall partitions s,
    exists k,
      trace (snd (mount_rounds w node n partitions s))
        = trace s ++ repeat (Sleep 500) k
      /\ match fst (mount_rounds w node n partitions s) with
         | Ok None => k = n
         | _ => k < n
         end.
Proof.
  induction n as [| n IH]; intros partitions s.
  - exists 0. simpl. now rewrite app_nil_r.
  - rewrite mount_rounds_step. cbv zeta.
    set (partitions' := partitions_after w node (clock s) partitions).
    assert (Hgo : exists k,
               trace (snd (mount_rounds w node n partitions'
                             (log (Sleep 500) (advance (advance s)))))
                 = trace s ++ repeat (Sleep 500) k
               /\ match fst (mount_rounds w node n partitions'
                               (log (Sleep 500) (advance (advance s)))) with
                  | Ok None => k = S n
                  | _ => k < S n
                  end).
    { destruct (IH partitions' (log (Sleep 500) (advance (advance s))))
        as [k [T R]].
      exists (S k). split.
      - rewrite T. cbn [trace log emit snd advance tick].
        rewrite <- app_assoc. reflexivity.
      - destruct (fst (mount_rounds w node n partitions' _)) as [[mp |] | e]; lia. }
    destruct (proc_mounts w (S (clock s))) as [lines |]; [| exact Hgo].
    destruct (scan_result partitions' lines) as [[mp |] | e]; [| exact Hgo |].
    + exists 0. cbn. rewrite app_nil_r. split; [reflexivity | lia].
    + exists 0. cbn. rewrite app_nil_r. split; [reflexivity | lia].
Qed.

(** X3: all that [get_mount_point] does to its surroundings is to sleep
    half a second, once per round that found nothing.  It answers [None]
    only after [timeout * 2] such sleeps; when it returns a mount point or
    raises, it has slept fewer times. *)
Theorem get_mount_point_waits (w : World) (node : string) (timeout : nat) (s : St) :
  let run := get_mount_point w node timeout s in
  exists k,
    since s (snd run) = repeat (Sleep 500) k
    /\ match fst run with
       | Ok None => k = timeout * 2
       | _ => k < timeout * 2
       end.
Proof.
  cbv zeta. unfold get_mount_point.
  destruct (mount_rounds_waits w node (timeout * 2) [] s) as [k [T R]].
  exists k. split; [| exact R].
  now apply since_of_trace.
Qed.

Lemma partitions_after_candidates w node t partitions :
  Forall (candidate node) partitions ->
  Forall (candidate node) (partitions_after w node t partitions).
Proof.
  intros H. unfold partitions_after.
  assert (Hnode : Forall (candidate node) [node])
    by (constructor; [now left | constructor]).
  destruct (listdir w t _) as [entries |].
  - assert (Hall : Forall (candidate node)
                     (partitions ++
                      map (fun entry => ("/dev/" ++ entry)%string)
                        (filter (fun entry =>
                                   PyStr.startswith entry (PyStr.last_component node))
                           entries))).
    { apply Forall_app. split; [exact H |].
      apply Forall_forall. intros p Hp. apply in_map_iff in Hp.
      destruct Hp as [entry [E Hin]]. apply filter_In in Hin.
      right. exists entry. split; [tauto | now symmetry]. }
    destruct (partitions ++ _); auto.
  - destruct partitions; auto.
Qed.

Lemma partitions_after_listed w node t0 t partitions :
  t0 <= t ->
  Forall (listed_candidate w node t0) partitions ->
  Forall (listed_candidate w node t0) (partitions_after w node t partitions).
Proof.
  intros Ht H. unfold partitions_after.
  assert (Hnode : Forall (listed_candidate w node t0) [node])
    by (constructor; [now left | constructor]).
  destruct (listdir w t _) as [entries |] eqn:Hl.
  - assert (Hall : Forall (listed_candidate w node t0)
                     (partitions ++
                      map (fun entry => ("/dev/" ++ entry)%string)
                        (filter (fun entry =>
                                   PyStr.startswith entry (PyStr.last_component node))
                           entries))).
    { apply Forall_app. split; [exact H |].
      apply Forall_forall. intros p Hp. apply in_map_iff in Hp.
      destruct Hp as [entry [E Hin]]. apply filter_In in Hin.
      right. exists t, entries, entry. repeat split; auto; tauto. }
    destruct (partitions ++ _); auto.
  - destruct partitions; auto.
Qed.

Lemma mount_rounds_hit w node t0 n :
  forall partitions s mp s',
    t0 <= clock s ->
    Forall (listed_candidate w node t0) partitions ->
    mount_rounds w node n partitions s = (Ok (Some mp), s') ->
    exists t lines p0 rest,
      clock s <= t < clock s'
      /\ proc_mounts w t = Some lines
      /\ In (p0 :: mp :: rest) lines
      /\ listed_candidate w node t0 p0.
Proof.
  induction n as [| n IH]; intros partitions s mp s' Ht0 Hc H; [discriminate |].
  rewrite mount_rounds_step in H. cbv zeta in H.
  pose proof (partitions_after_listed w node t0 (clock s) _ Ht0 Hc) as Hc'.
  set (partitions' := partitions_after w node (clock s) partitions) in *.
  assert (Hgo : mount_rounds w node n partitions'
                  (log (Sleep 500) (advance (advance s))) = (Ok (Some mp), s') ->
                exists t lines p0 rest,
                  clock s <= t < clock s'
                  /\ proc_mounts w t = Some lines
                  /\ In (p0 :: mp :: rest) lines
                  /\ listed_candidate w node t0 p0).
  { intros H'.
    destruct (IH partitions' (log (Sleep 500) (advance (advance s))) mp s')
      as (t & lines & p0 & rest & Ht & R);
      [cbn; lia | exact Hc' | exact H' |].
    exists t, lines, p0, rest. split; [| exact R].
    cbn in Ht. lia. }
  destruct (proc_mounts w (S (clock s))) as [lines |] eqn:Hm; [| auto].
  destruct (scan_result partitions' lines) as [[mp' |] | e] eqn:Hs;
    [| auto | discriminate].
  inversion H; subst.
  destruct (scan_result_hit _ _ _ Hs) as (p0 & rest & Hin & Hp).
  exists (S (clock s)), lines, p0, rest. cbn. repeat split; auto.
  rewrite Forall_forall in Hc'. auto.
Qed.

(** X4: a mount point that [get_mount_point] returns is the second field
    of a line of the mount table, read during the call, whose first field
    is the device node or [/dev/] followed by an entry that a listing of
    the disk's sysfs directory held during the call and that starts with
    the disk's name. *)
Theorem mount_point_is_read_off_the_mount_table
    (w : World) (node : string) (timeout : nat) (s s' : St) (mp : string) :
  get_mount_point w node timeout s = (Ok (Some mp), s') ->
  exists t lines p0 rest,
    clock s <= t < clock s'
    /\ proc_mounts w t = Some lines
    /\ In (p0 :: mp :: rest) lines
    /\ listed_candidate w node (clock s) p0.
Proof.
  intros H. eapply mount_rounds_hit; [| | exact H]; constructor.
Qed.

Lemma mount_point_is_read_off_the_mount_table_witness :
  exists t lines p0 rest,
    clock boot <= t < clock (snd (get_mount_point Demo.calm "/dev/sda" 5 boot))
    /\ proc_mounts Demo.calm t = Some lines
    /\ In (p0 :: "/mnt/a" :: rest) lines
    /\ listed_candidate Demo.calm "/dev/sda" (clock boot) p0.
Proof.
  apply (mount_point_is_read_off_the_mount_table Demo.calm "/dev/sda" 5 boot).
  vm_compute. reflexivity.
Defined.

Lemma scan_result_foreign node partitions before rest :
  Forall (candidate node) partitions ->
  Forall (foreign_line node) before ->
  scan_result partitions (before ++ rest) = scan_result partitions rest.
Proof.
  intros Hc. induction 1 as [| parts more [p0 [tl [E Hn]]] _ IH]; [reflexivity |].
  simpl. rewrite scan_result_cons. subst parts.
  destruct (existsb (String.eqb p0) partitions) eqn:Ex; [| exact IH].
  apply existsb_eqb_In in Ex. rewrite Forall_forall in Hc.
  destruct (Hn (Hc _ Ex)).
Qed.

(** X5: a blank line in the mount table, met before any line for the
    card, is fatal for an insert: [parts[0]] raises [IndexError], which
    [except IOError] does not catch, so the exception leaves
    [get_mount_point] and the handling of the event in the first round,
    after two consultations and with nothing printed but the insert
    line. *)
Theorem blank_mount_line_is_fatal
    (w : World) (run_as_user : option string) (node : string)
    (before rest : list (list string)) (s : St) :
  proc_mounts w (S (clock s)) = Some (before ++ [] :: rest) ->
  Forall (foreign_line node) before ->
  exists s',
    process_event w run_as_user ("insert", node) s = (Raise IndexError, s')
    /\ since s s' = [Print [OStr "SD card inserted: "; OStr node]]
    /\ clock s' = 2 + clock s.
Proof.
  intros Hm Hb.
  exists (advance (advance (log (Print [OStr "SD card inserted: "; OStr node]) s))).
  rewrite process_event_insert. unfold get_mount_point.
  change (5 * 2) with (S 9). rewrite mount_rounds_step. cbv zeta.
  change (clock (log _ s)) with (clock s). rewrite Hm.
  rewrite (scan_result_foreign node).
  - rewrite scan_result_cons. split; [reflexivity |]. split; [| reflexivity].
    apply since_of_trace. reflexivity.
  - apply partitions_after_candidates. constructor.
  - exact Hb.
Qed.

Lemma blank_mount_line_is_fatal_witness :
  exists s',
    process_event Scenes.blank_line None ("insert", "/dev/sda") boot
      = (Raise IndexError, s')
    /\ since boot s' = [Print [OStr "SD card inserted: "; OStr "/dev/sda"]]
    /\ clock s' = 2 + clock boot.
Proof.
  apply (blank_mount_line_is_fatal Scenes.blank_line None "/dev/sda"
           [["tmpfs"; "/run"; "tmpfs"]] [["/dev/sda"; "/mnt/a"; "vfat"]] boot).
  - reflexivity.
  - constructor; [| constructor].
    exists "tmpfs", ["/run"; "tmpfs"]. split; [reflexivity |].
    intros [C | [entry [_ C]]]; discriminate.
Defined.

Lemma mount_rounds_never_mounted w node n :
  never_mounted w node ->
  forall partitions s,
    Forall (candidate node) partitions ->
    exists s',
      mount_rounds w node n partitions s = (Ok None, s')
      /\ trace s' = trace s ++ repeat (Sleep 500) n
      /\ clock s' = 2 * n + clock s
      /\ running_processes s' = running_processes s.
Proof.
  intros Hnm. induction n as [| n IH]; intros partitions s Hc.
  - exists s. simpl. now rewrite app_nil_r.
  - rewrite mount_rounds_step. cbv zeta.
    pose proof (partitions_after_candidates w node (clock s) _ Hc) as Hc'.
    set (partitions' := partitions_after w node (clock s) partitions) in *.
    destruct (IH partitions' (log (Sleep 500) (advance (advance s))) Hc')
      as (s' & R & T & C & Rn).
    assert (Hgo : exists s'',
               mount_rounds w node n partitions'
                 (log (Sleep 500) (advance (advance s))) = (Ok None, s'')
               /\ trace s'' = trace s ++ repeat (Sleep 500) (S n)
               /\ clock s'' = 2 * S n + clock s
               /\ running_processes s'' = running_processes s).
    { exists s'. split; [exact R |]. split; [| split].
      - rewrite T. cbn. rewrite <- app_assoc. reflexivity.
      - rewrite C. cbn. lia.
      - rewrite Rn. reflexivity. }
    specialize (Hnm (S (clock s))).
    destruct (proc_mounts w (S (clock s))) as [lines |]; [| exact Hgo].
    rewrite <- (app_nil_r lines).
    rewrite (scan_result_foreign node partitions' lines [] Hc' Hnm).
    exact Hgo.
Qed.

(** X6: an insert for a card that never shows up in the mount table is
    given up after ten rounds: the daemon sleeps ten times half a second,
    prints [Card not mounted], launches nothing and leaves the mapping as
    it is. *)
Theorem unmounted_card_is_given_up
    (w : World) (run_as_user : option string) (node : string) (s : St) :
  never_mounted w node ->
  let run := process_event w run_as_user ("insert", node) s in
  fst run = Ok tt
  /\ since s (snd run)
     = Print [OStr "SD card inserted: "; OStr node]
         :: repeat (Sleep 500) 10 ++ [Print [OStr "Card not mounted"]]
  /\ clock (snd run) = 20 + clock s
  /\ running_processes (snd run) = running_processes s.
Proof.
  intros Hnm. cbv zeta. rewrite process_event_insert. unfold get_mount_point.
  destruct (mount_rounds_never_mounted w node (5 * 2) Hnm []
              (log (Print [OStr "SD card inserted: "; OStr node]) s))
    as (s' & R & T & C & Rn); [constructor |].
  rewrite R. cbn [fst snd]. split; [reflexivity |]. split; [| split].
  - apply since_of_trace. cbn [trace log emit snd]. rewrite T.
    cbn [trace log emit snd]. rewrite <- !app_assoc. reflexivity.
  - cbn [clock log emit snd]. rewrite C. reflexivity.
  - cbn [running_processes log emit snd]. rewrite Rn. reflexivity.
Qed.

Lemma unmounted_card_is_given_up_witness :
  let run := process_event Scenes.unmounted None ("insert", "/dev/sda") boot in
  fst run = Ok tt
  /\ since boot (snd run)
     = Print [OStr "SD card inserted: "; OStr "/dev/sda"]
         :: repeat (Sleep 500) 10 ++ [Print [OStr "Card not mounted"]]
  /\ clock (snd run) = 20 + clock boot
  /\ running_processes (snd run) = running_processes boot.
Proof.
  apply (unmounted_card_is_given_up Scenes.unmounted None "/dev/sda" boot).
  intros t. unfold Scenes.unmounted. cbn [proc_mounts].
  destruct (Nat.even t); [exact I |].
  constructor; [| constructor].
  exists "tmpfs", ["/run"; "tmpfs"]. split; [reflexivity |].
  intros [C | [entry [_ C]]]; discriminate.
Defined.

(** ** The verdict, case by case *)

(** The run of [verify_cart_signature], by what its consultations give. *)
Lemma verify_cart_signature_steps w cart_path s :
  let sig_path := (cart_path ++ ".sig")%string in
  let t := clock s in
  let s1 := advance s in
  let s2 := advance s1 in
  let s3 := advance s2 in
  let s4 := advance s3 in
  verify_cart_signature w cart_path s =
  if negb (path_exists w t sig_path)
  then (Ok false, log (Print [OStr "ERROR: cart.yaml.sig missing"]) s1)
  else if negb (path_exists w (S t) TRUSTED_PUBKEY)
  then (Ok false, log (Print [OStr "ERROR: Trusted public key missing"]) s2)
  else
    match read_file w (S (S t)) cart_path with
    | None => (Raise OSError, s3)
    | Some f =>
        match ssh_keygen_verify w (S (S (S t))) TRUSTED_PUBKEY SIGNATURE_NAMESPACE
                sig_path f with
        | Exited 0 => (Ok true, log (Print [OStr "Signature verification OK"]) s4)
        | Exited _ =>
            (Ok false, log (Print [OStr "ERROR: Signature verification FAILED"]) s4)
        | NotStarted => (Raise OSError, s4)
        end
    end.
Proof.
  cbv zeta. unfold verify_cart_signature, prints, print.
  rewrite bind_ask.
  destruct (path_exists w (clock s) _); cbn [negb]; [| reflexivity].
  rewrite bind_ask. change (clock (advance s)) with (S (clock s)).
  destruct (path_exists w (S (clock s)) _); cbn [negb]; [| reflexivity].
  unfold try_except, ask_or. rewrite !bind_bind, bind_ask.
  change (clock (advance (advance s))) with (S (S (clock s))).
  destruct (read_file w (S (S (clock s))) cart_path) as [f |]; [| reflexivity].
  rewrite ?bind_ret, ?bind_bind, ?bind_ask.
  change (clock (advance (advance (advance s)))) with (S (S (S (clock s)))).
  destruct (ssh_keygen_verify w _ _ _ _ f) as [code |]; [| reflexivity].
  destruct code; reflexivity.
Qed.

(** X7: the verdict of [verify_cart_signature], case by case.  It is
    [True] exactly when the signature and the signer store exist and the
    verifier exits with status 0 on the manifest; [False] exactly on a
    trust failure; and the call raises, always [OSError], exactly when both
    files exist but the manifest cannot be read or the verifier cannot be
    started. *)
Theorem verdict_cases (w : World) (cart_path : string) (t : nat) :
  (verdict w cart_path t = Ok true <-> accepted w cart_path t)
  /\ (verdict w cart_path t = Ok false <-> trust_failure w cart_path t)
  /\ (forall e, verdict w cart_path t = Raise e <->
                e = OSError /\ cannot_verify w cart_path t).
Proof.
  unfold verdict, accepted, cannot_verify.
  pose proof (trust_failure_verdict w cart_path t) as TF. unfold verdict in TF.
  rewrite verify_cart_signature_steps in *. cbv zeta in *.
  change (clock (at_time t)) with t in *.
  destruct (path_exists w t (cart_path ++ ".sig")) eqn:Hsig; cbn [negb fst] in *.
  2:{ split; [| split].
      - split; [discriminate | intros [C _]; discriminate].
      - split; [intros _; now apply signature_missing | reflexivity].
      - intros e. split; [discriminate | intros [_ [C _]]; discriminate]. }
  destruct (path_exists w (S t) TRUSTED_PUBKEY) eqn:Hkey; cbn [negb fst] in *.
  2:{ split; [| split].
      - split; [discriminate | intros (_ & C & _); discriminate].
      - split; [intros _; now apply signers_missing | reflexivity].
      - intros e. split; [discriminate | intros [_ (_ & C & _)]; discriminate]. }
  destruct (read_file w (S (S t)) cart_path) as [f |] eqn:Hr; cbn [fst] in *.
  2:{ split; [| split].
      - split; [discriminate | intros (_ & _ & f & C & _); discriminate].
      - split; [discriminate | exact TF].
      - intros e. split.
        + intros E. inversion E. repeat split; auto.
        + intros [-> _]. reflexivity. }
  destruct (ssh_keygen_verify w (S (S (S t))) _ _ _ f) as [code |] eqn:Hv.
  - assert (Hcode : code = 0%Z \/ code <> 0%Z) by lia.
    destruct Hcode as [-> | Hcode].
    + cbn [fst] in *. split; [| split].
      * split; [intros _; repeat split; auto; now exists f | reflexivity].
      * split; [discriminate | exact TF].
      * intros e. split; [discriminate |].
        intros [_ (_ & _ & [C | (f' & C1 & C2)])]; congruence.
    + assert (Hf : fst (match code with
                        | 0%Z => (Ok true,
                                  log (Print [OStr "Signature verification OK"])
                                    (advance (advance (advance (advance (at_time t))))))
                        | _ => (Ok false,
                                log (Print [OStr "ERROR: Signature verification FAILED"])
                                  (advance (advance (advance (advance (at_time t))))))
                        end) = Ok false)
        by (destruct code; [congruence | reflexivity | reflexivity]).
      split; [| split].
      * split; [destruct code; try discriminate; congruence |].
        intros (_ & _ & f' & C1 & C2). congruence.
      * split; [intros _; now apply (verifier_rejects w cart_path t f code) |].
        intros _. destruct code; [congruence | reflexivity | reflexivity].
      * intros e. split; [destruct code; discriminate |].
        intros [_ (_ & _ & [C | (f' & C1 & C2)])]; congruence.
  - cbn [fst] in *. split; [| split].
    + split; [discriminate | intros (_ & _ & f' & C1 & C2); congruence].
    + split; [discriminate | exact TF].
    + intros e. split.
      * intros E. inversion E. repeat split; auto. right. now exists f.
      * intros [-> _]. reflexivity.
Qed.

(** X8: a verification that returns has printed exactly one line, and
    that line is [Signature verification OK] exactly when the answer is
    [True]; a verification that raises raises [OSError] and has printed
    nothing.  It takes between one and four consultations. *)
Theorem verification_prints_its_verdict (w : World) (cart_path : string) (s : St) :
  let run := verify_cart_signature w cart_path s in
  clock s < clock (snd run) <= 4 + clock s
  /\ match fst run with
     | Ok answer =>
         exists text,
           since s (snd run) = [Print [OStr text]]
           /\ (text = "Signature verification OK" <-> answer = true)
     | Raise e => e = OSError /\ since s (snd run) = []
     end.
Proof.
  cbv zeta. rewrite verify_cart_signature_steps. cbv zeta.
  assert (Hno : forall text, (text = "Signature verification OK" <-> false = true)
                             <-> text <> "Signature verification OK").
  { intros text. split; [intros [H _] C; now apply H in C | intros H; split; [tauto | discriminate]]. }
  destruct (path_exists w (clock s) _); cbn [negb].
  2:{ split; [cbn; lia |]. eexists. split; [apply since_of_trace; reflexivity |].
      apply Hno. discriminate. }
  destruct (path_exists w (S (clock s)) _); cbn [negb].
  2:{ split; [cbn; lia |]. eexists. split; [apply since_of_trace; reflexivity |].
      apply Hno. discriminate. }
  destruct (read_file w (S (S (clock s))) cart_path) as [f |].
  2:{ split; [cbn; lia |]. split; [reflexivity |].
      apply since_of_trace. cbn. now rewrite app_nil_r. }
  destruct (ssh_keygen_verify w _ _ _ _ f) as [code |].
  - destruct code.
    + split; [cbn; lia |]. eexists. split; [apply since_of_trace; reflexivity |].
      tauto.
    + split; [cbn; lia |]. eexists. split; [apply since_of_trace; reflexivity |].
      apply Hno. discriminate.
    + split; [cbn; lia |]. eexists. split; [apply since_of_trace; reflexivity |].
      apply Hno. discriminate.
  - split; [cbn; lia |]. split; [reflexivity |].
    apply since_of_trace. cbn. now rewrite app_nil_r.
Qed.

(** ** The display variables of the session *)

(** *** Dictionaries *)

Lemma get_set_same {V} (d : dict V) k v : PyDict.get (PyDict.set d k v) k = Some v.
Proof.
  induction d as [| [k' v'] d IH]; simpl.
  - now rewrite String.eqb_refl.
  - destruct (String.eqb k' k) eqn:E; simpl; rewrite E; auto.
Qed.

Lemma get_set_other {V} (d : dict V) k v k' :
  k <> k' -> PyDict.get (PyDict.set d k v) k' = PyDict.get d k'.
Proof.
  intros N. induction d as [| [k0 v0] d IH]; simpl.
  - apply String.eqb_neq in N. now rewrite N.
  - destruct (String.eqb k0 k) eqn:E; simpl.
    + apply String.eqb_eq in E. subst k0.
      apply String.eqb_neq in N. now rewrite N.
    + now rewrite IH.
Qed.

Lemma mem_In {V} (d : dict V) k : PyDict.mem d k = true <-> In k (map fst d).
Proof.
  unfold PyDict.mem. induction d as [| [k' v'] d IH]; simpl.
  - split; [discriminate | tauto].
  - destruct (String.eqb k' k) eqn:E.
    + apply String.eqb_eq in E. split; auto.
    + apply String.eqb_neq in E. rewrite IH. split; [auto | intros [C | C]; tauto].
Qed.

Lemma In_set {V} (d : dict V) k v k' v' :
  In (k', v') (PyDict.set d k v) -> In (k', v') d \/ (k' = k /\ v' = v).
Proof.
  induction d as [| [k0 v0] d IH]; simpl.
  - intros [E | []]. inversion E. auto.
  - destruct (String.eqb k0 k) eqn:E; simpl.
    + apply String.eqb_eq in E. subst k0.
      intros [H | H]; [inversion H; auto | auto].
    + intros [H | H]; [auto |]. destruct (IH H); auto.
Qed.

Lemma keys_set {V} (d : dict V) k v :
  map fst (PyDict.set d k v) =
  if PyDict.mem d k then map fst d else map fst d ++ [k].
Proof.
  unfold PyDict.mem. induction d as [| [k0 v0] d IH]; simpl; [reflexivity |].
  destruct (String.eqb k0 k) eqn:E; simpl; [reflexivity |].
  rewrite IH. destruct (PyDict.get d k); reflexivity.
Qed.

(** *** The display variables *)

Lemma split_once_spec sep s k v :
  PyStr.split_once sep s = Some (k, v) -> s = (k ++ String sep v)%string.
Proof.
  revert k. induction s as [| c s IH]; intros k; simpl; [discriminate |].
  destruct (Ascii.eqb c sep) eqn:E.
  - apply Ascii.eqb_eq in E. subst c. intros H. now inversion H.
  - destruct (PyStr.split_once sep s) as [[k0 v0] |]; [| discriminate].
    intros H. inversion H; subst. simpl. now rewrite (IH k0).
Qed.

Lemma take_item_keys vars item :
  display_keys vars -> display_keys (take_item vars item).
Proof.
  intros [N I]. unfold take_item.
  destruct (PyStr.split_once "=" item) as [[key val] |]; [| now split].
  destruct (existsb (String.eqb key) target_vars) eqn:T; [| now split].
  destruct (PyDict.mem vars key) eqn:Mm; [now split |].
  cbn [negb andb]. unfold display_keys. rewrite keys_set, Mm.
  assert (Hk : In key target_vars).
  { apply existsb_exists in T. destruct T as [x [Hx E]].
    apply String.eqb_eq in E. now subst. }
  split.
  - apply NoDup_rev in N. rewrite <- (rev_involutive (_ ++ _)).
    apply NoDup_rev. rewrite rev_app_distr. simpl. constructor; auto.
    rewrite <- in_rev. intros C. apply mem_In in C. congruence.
  - intros x Hx. apply in_app_or in Hx. destruct Hx as [Hx | [Hx | []]]; auto.
    now subst.
Qed.

Lemma take_items_keys items :
  forall vars, display_keys vars -> display_keys (fold_left take_item items vars).
Proof.
  induction items as [| item items IH]; intros vars H; simpl; auto.
  apply IH. now apply take_item_keys.
Qed.

Lemma take_item_origin vars item k v :
  In (k, v) (take_item vars item) ->
  In (k, v) vars \/ item = (k ++ "=" ++ v)%string.
Proof.
  unfold take_item.
  destruct (PyStr.split_once "=" item) as [[key val] |] eqn:E; [| auto].
  destruct (existsb (String.eqb key) target_vars && negb (PyDict.mem vars key));
    [| auto].
  intros H. apply In_set in H. destruct H as [H | [-> ->]]; [auto |].
  right. now apply split_once_spec.
Qed.

Lemma take_items_origin items :
  forall vars k v,
    In (k, v) (fold_left take_item items vars) ->
    In (k, v) vars \/ In (k ++ "=" ++ v)%string items.
Proof.
  induction items as [| item items IH]; intros vars k v H; simpl in *; auto.
  destruct (IH _ _ _ H) as [H1 | H1]; [| auto].
  destruct (take_item_origin _ _ _ _ H1); auto.
Qed.

(** The loop of [get_user_display_env], one entry of [/proc] at a time. *)
Lemma scan_environs_step w uid pid rest vars s :
  scan_environs w uid (pid :: rest) vars s =
  if negb (PyStr.isdigit pid) then scan_environs w uid rest vars s
  else
    match stat_uid w (clock s) (stat_path pid) with
    | None => scan_environs w uid rest vars (advance s)
    | Some owner =>
        if negb (Z.eqb owner uid) then scan_environs w uid rest vars (advance s)
        else
          match read_file w (S (clock s)) (environ_path pid) with
          | None => scan_environs w uid rest vars (advance (advance s))
          | Some env_data =>
              let vars' := fold_left take_item
                             (PyStr.split Ascii.zero env_data) vars in
              if PyDict.mem vars' "DISPLAY" || PyDict.mem vars' "WAYLAND_DISPLAY"
              then (Ok vars', advance (advance s))
              else scan_environs w uid rest vars' (advance (advance s))
          end
    end.
Proof.
  cbn [scan_environs]. cbv zeta.
  destruct (negb (PyStr.isdigit pid)); [reflexivity |].
  unfold bind at 1. unfold try_except at 1, ask_or at 1.
  rewrite bind_bind, bind_ask. fold (stat_path pid). fold (environ_path pid).
  destruct (stat_uid w (clock s) (stat_path pid)) as [owner |]; [| reflexivity].
  rewrite bind_ret.
  destruct (negb (Z.eqb owner uid)); [reflexivity |].
  unfold ask_or. rewrite bind_bind, bind_ask.
  change (clock (advance s)) with (S (clock s)).
  destruct (read_file w (S (clock s)) (environ_path pid)) as [env_data |];
    [| reflexivity].
  rewrite bind_ret. cbn [ret fst snd].
  destruct (PyDict.mem _ "DISPLAY" || PyDict.mem _ "WAYLAND_DISPLAY"); reflexivity.
Qed.

Lemma scan_environs_answers w uid pids :
  forall vars s,
    exists env s',
      scan_environs w uid pids vars s = (Ok env, s')
      /\ trace s' = trace s
      /\ (display_keys vars -> display_keys env)
      /\ (forall k v, In (k, v) env -> In (k, v) vars \/ in_session w uid pids k v).
Proof.
  induction pids as [| pid rest IH]; intros vars s.
  - exists vars, s. simpl. split; [reflexivity |]. split; [reflexivity |].
    split; auto.
  - assert (Hgo : forall vars' s1,
               trace s1 = trace s ->
               (display_keys vars -> display_keys vars') ->
               (forall k v, In (k, v) vars' ->
                            In (k, v) vars \/ in_session w uid (pid :: rest) k v) ->
               exists env s',
                 scan_environs w uid rest vars' s1 = (Ok env, s')
                 /\ trace s' = trace s
                 /\ (display_keys vars -> display_keys env)
                 /\ (forall k v, In (k, v) env ->
                       In (k, v) vars \/ in_session w uid (pid :: rest) k v)).
    { intros vars' s1 T K O. destruct (IH vars' s1) as (env & s' & R & T' & K' & O').
      exists env, s'. split; [exact R |]. split; [congruence |].
      split; [auto |]. intros k v Hin.
      destruct (O' k v Hin) as [H | (p & t & data & Hp & R')]; [auto |].
      right. exists p, t, data. split; [now right | exact R']. }
    rewrite scan_environs_step.
    destruct (PyStr.isdigit pid) eqn:Hd; cbn [negb]; [| apply Hgo; auto].
    destruct (stat_uid w (clock s) (stat_path pid)) as [owner |] eqn:Hs;
      [| apply Hgo; auto].
    destruct (Z.eqb owner uid) eqn:Ho; cbn [negb]; [| apply Hgo; auto].
    apply Z.eqb_eq in Ho. subst owner.
    destruct (read_file w (S (clock s)) (environ_path pid)) as [env_data |] eqn:Hr;
      [| apply Hgo; auto].
    cbv zeta.
    assert (Ho : forall k v,
               In (k, v) (fold_left take_item (PyStr.split Ascii.zero env_data) vars) ->
               In (k, v) vars \/ in_session w uid (pid :: rest) k v).
    { intros k v Hin. apply take_items_origin in Hin. destruct Hin as [H | H]; [auto |].
      right. exists pid, (clock s), env_data. repeat split; auto. now left. }
    destruct (PyDict.mem _ "DISPLAY" || PyDict.mem _ "WAYLAND_DISPLAY").
    + eexists _, _. split; [reflexivity |]. split; [reflexivity |].
      split; [apply take_items_keys | exact Ho].
    + apply Hgo; auto. apply take_items_keys.
Qed.

(** The whole of [get_user_display_env], by the listing of [/proc]. *)
Lemma get_user_display_env_steps w uid s :
  get_user_display_env w uid s =
  match listdir w (clock s) "/proc" with
  | Some pids => scan_environs w uid pids [] (advance s)
  | None => (Ok [], advance s)
  end.
Proof.
  unfold get_user_display_env, try_except, ask_or. rewrite bind_bind, bind_ask.
  destruct (listdir w (clock s) "/proc") as [pids |]; [| reflexivity].
  rewrite bind_ret.
  destruct (scan_environs_answers w uid pids [] (advance s)) as (env & s' & R & _).
  now rewrite R.
Qed.

Lemma display_keys_nil : display_keys [].
Proof. split; [constructor | intros x []]. Qed.

(** X9: [get_user_display_env] never raises and has no effect: every
    error of the scan of [/proc] is swallowed.  Its result holds each of
    the four target variables at most once, and nothing else. *)
Theorem get_user_display_env_answers (w : World) (uid : Z) (s : St) :
  exists env s',
    get_user_display_env w uid s = (Ok env, s')
    /\ trace s' = trace s
    /\ NoDup (map fst env)
    /\ incl (map fst env) target_vars
    /\ length env <= 4.
Proof.
  rewrite get_user_display_env_steps.
  destruct (listdir w (clock s) "/proc") as [pids |].
  - destruct (scan_environs_answers w uid pids [] (advance s))
      as (env & s' & R & T & K & _).
    destruct (K display_keys_nil) as [N I].
    exists env, s'. repeat split; auto.
    rewrite <- (length_map fst).
    apply (NoDup_incl_length N I).
  - exists [], (advance s). repeat split; simpl; auto; try lia.
    + constructor.
    + intros x [].
Qed.

(** X10: every variable in the result of [get_user_display_env] was read
    from the environment of a process that is listed in [/proc] under a
    numeric name and is owned by the given uid. *)
Theorem display_variables_come_from_the_session
    (w : World) (uid : Z) (s s' : St) (env : dict string) (key val : string) :
  get_user_display_env w uid s = (Ok env, s') ->
  In (key, val) env ->
  exists pids,
    listdir w (clock s) "/proc" = Some pids
    /\ in_session w uid pids key val.
Proof.
  rewrite get_user_display_env_steps.
  destruct (listdir w (clock s) "/proc") as [pids |].
  - intros R Hin. exists pids. split; [reflexivity |].
    destruct (scan_environs_answers w uid pids [] (advance s))
      as (env' & s1 & R' & _ & _ & O).
    rewrite R' in R. inversion R; subst.
    destruct (O _ _ Hin) as [[] | H]. exact H.
  - intros R Hin. inversion R; subst. destruct Hin.
Qed.

Lemma display_variables_come_from_the_session_witness :
  exists pids,
    listdir Scenes.session (clock boot) "/proc" = Some pids
    /\ in_session Scenes.session 1000 pids "DISPLAY" ":0".
Proof.
  apply (display_variables_come_from_the_session Scenes.session 1000 boot
           (snd (get_user_display_env Scenes.session 1000 boot))
           [("DISPLAY", ":0"); ("XAUTHORITY", "/home/player/.Xauthority")]).
  - vm_compute. reflexivity.
  - left. reflexivity.
Defined.

(** ** The identity and the environment of the child *)

Lemma get_update {V} (other : dict V) :
  forall d k,
    NoDup (map fst other) ->
    PyDict.get (PyDict.update d other) k =
    match PyDict.get other k with
    | Some v => Some v
    | None => PyDict.get d k
    end.
Proof.
  unfold PyDict.update.
  induction other as [| [k0 v0] other IH]; intros d k N; simpl; [reflexivity |].
  inversion N as [| x l Hnot N']; subst. rewrite (IH _ _ N').
  destruct (String.eqb k0 k) eqn:E.
  - apply String.eqb_eq in E. subst k0.
    destruct (PyDict.get other k) eqn:G.
    + exfalso. apply Hnot. apply mem_In. unfold PyDict.mem. now rewrite G.
    + apply get_set_same.
  - apply String.eqb_neq in E.
    destruct (PyDict.get other k); [reflexivity |]. now apply get_set_other.
Qed.

Lemma get_absent {V} (d : dict V) k : ~ In k (map fst d) -> PyDict.get d k = None.
Proof.
  intros H. destruct (PyDict.get d k) eqn:G; [| reflexivity].
  exfalso. apply H. apply mem_In. unfold PyDict.mem. now rewrite G.
Qed.

Section Child.

Variable w : World.

(** The setup of a child that runs under an account. *)
Lemma child_setup_account user script s :
  PyStr.truthy user = true ->
  child_setup w (Some user) script s =
  match getpwnam w (clock s) user with
  | None => (Raise KeyError, advance s)
  | Some pw =>
      let env :=
        PyDict.set
          (PyDict.set
             (PyDict.set
                (PyDict.set (environ w) "HOME" (pw_dir pw))
                "USER" user)
             "LOGNAME" user)
          "XDG_RUNTIME_DIR" ("/run/user/" ++ str_of_Z (pw_uid pw))%string in
      match get_user_display_env w (pw_uid pw) (advance s) with
      | (Ok user_env, s1) =>
          (Ok (Some (pw_uid pw, pw_gid pw), PyDict.update env user_env),
           log (Print [OStr "Executing as "; OStr user; OStr ": "; OVal script]) s1)
      | (Raise e, s1) => (Raise e, s1)
      end
  end.
Proof.
  intros Hu. unfold child_setup. rewrite Hu. unfold ask_or.
  rewrite bind_bind, bind_ask.
  destruct (getpwnam w (clock s) user) as [pw |]; [| reflexivity].
  rewrite bind_ret. cbv zeta. unfold bind at 1.
  destruct (get_user_display_env w (pw_uid pw) (advance s)) as [[user_env | e] s1];
    reflexivity.
Qed.

(** The setup of a child when no account is given. *)
Lemma child_setup_plain run_as_user script s :
  run_as_user = None \/ run_as_user = Some "" ->
  child_setup w run_as_user script s =
  (Ok (None, environ w), log (Print [OStr "Executing: "; OVal script]) s).
Proof.
  intros [-> | ->]; reflexivity.
Qed.

(** A [Spawn] of [start_cart_process] is appended by its second half,
    after a setup that returned. *)
Lemma spawn_has_a_setup mount_point run_as_user s r s' req p :
  start_cart_process w mount_point run_as_user s = (r, s') ->
  In (Spawn req p) (since s s') ->
  exists script s1 setup s2,
    read_exec w mount_point s = (Ok (Some script), s1)
    /\ child_setup w run_as_user script s1 = (Ok setup, s2)
    /\ req = {| sr_script := script; sr_cwd := mount_point;
                sr_identity := fst setup; sr_env := snd setup |}
    /\ popen w (clock s2) req = Ok p.
Proof.
  rewrite start_cart_process_halves.
  destruct (read_exec w mount_point s) as [[[script |] | e] s1] eqn:Hread.
  2,3: intros H Hin; inversion H; subst;
       destruct (read_exec_silent w _ _ _ _ Hread) as [[d [T O]] _ _ _];
       rewrite (since_of_trace _ _ _ T) in Hin;
       destruct (silent_not_spawn _ _ _ O Hin).
  destruct (read_exec_silent w _ _ _ _ Hread) as [[d1 [T1 O1]] _ _ _].
  unfold launch. unfold bind at 1.
  destruct (child_setup w run_as_user script s1) as [[setup | e] s2] eqn:Hsetup.
  - destruct (child_setup_silent w _ _ _ _ _ Hsetup) as [[d2 [T2 O2]] _ _ _].
    assert (O12 : forallb silent (d1 ++ d2) = true)
      by (rewrite forallb_app, O1, O2; reflexivity).
    cbv zeta. rewrite bind_ask.
    destruct (popen w (clock s2) _) as [proc | e] eqn:Hp.
    + rewrite bind_emit. intros H. inversion H; subst; clear H.
      rewrite (since_of_trace s _ ((d1 ++ d2) ++
                 [Spawn {| sr_script := script; sr_cwd := mount_point;
                           sr_identity := fst setup; sr_env := snd setup |} proc]))
        by (simpl; rewrite T2, T1, <- !app_assoc; reflexivity).
      intros Hin. apply in_app_or in Hin. destruct Hin as [Hin | [Hin | []]].
      * destruct (silent_not_spawn _ _ _ O12 Hin).
      * inversion Hin; subst. exists script, s1, setup, s2. auto.
    + intros H. inversion H; subst; clear H.
      rewrite (since_of_trace s _ (d1 ++ d2))
        by (simpl; rewrite T2, T1, <- !app_assoc; reflexivity).
      intros Hin. destruct (silent_not_spawn _ _ _ O12 Hin).
  - destruct (child_setup_silent w _ _ _ _ _ Hsetup) as [[d2 [T2 O2]] _ _ _].
    assert (O12 : forallb silent (d1 ++ d2) = true)
      by (rewrite forallb_app, O1, O2; reflexivity).
    intros H. inversion H; subst; clear H.
    rewrite (since_of_trace s _ (d1 ++ d2))
      by (rewrite T2, T1, <- !app_assoc; reflexivity).
    intros Hin. destruct (silent_not_spawn _ _ _ O12 Hin).
Qed.

End Child.

(** X11: a child launched under an account runs with the uid and the gid
    of the account's passwd entry, in the mount point.  Its environment
    has [HOME], [USER], [LOGNAME] and [XDG_RUNTIME_DIR] set from the
    account; each display variable is that of the user's session where the
    session has it (it takes precedence over the daemon's own) and the
    daemon's otherwise; every other variable is as in the daemon's
    environment. *)
Theorem child_gets_the_identity_of_the_account
    (w : World) (mount_point user : string) (s s' : St)
    (r : result (option process)) (req : spawn_req) (p : process) :
  PyStr.truthy user = true ->
  start_cart_process w mount_point (Some user) s = (r, s') ->
  In (Spawn req p) (since s s') ->
  exists t pw s1 user_env,
    getpwnam w t user = Some pw
    /\ clock s1 = S t
    /\ fst (get_user_display_env w (pw_uid pw) s1) = Ok user_env
    /\ sr_identity req = Some (pw_uid pw, pw_gid pw)
    /\ sr_cwd req = mount_point
    /\ PyDict.get (sr_env req) "HOME" = Some (pw_dir pw)
    /\ PyDict.get (sr_env req) "USER" = Some user
    /\ PyDict.get (sr_env req) "LOGNAME" = Some user
    /\ PyDict.get (sr_env req) "XDG_RUNTIME_DIR"
       = Some ("/run/user/" ++ str_of_Z (pw_uid pw))%string
    /\ (forall k, In k target_vars ->
          PyDict.get (sr_env req) k =
          match PyDict.get user_env k with
          | Some v => Some v
          | None => PyDict.get (environ w) k
          end)
    /\ (forall k, ~ In k (account_vars ++ target_vars) ->
          PyDict.get (sr_env req) k = PyDict.get (environ w) k).
Proof.
  intros Hu Hrun Hin.
  destruct (spawn_has_a_setup w _ _ _ _ _ _ _ Hrun Hin)
    as (script & s1 & setup & s2 & _ & Hsetup & -> & _).
  rewrite (child_setup_account w user script s1 Hu) in Hsetup.
  destruct (getpwnam w (clock s1) user) as [pw |] eqn:Hpw; [| discriminate].
  cbv zeta in Hsetup.
  destruct (get_user_display_env_answers w (pw_uid pw) (advance s1))
    as (user_env & s3 & Hget & _ & N & I & _).
  rewrite Hget in Hsetup. inversion Hsetup; subst; clear Hsetup.
  exists (clock s1), pw, (advance s1), user_env.
  cbn [sr_identity sr_cwd sr_env fst snd].
  split; [exact Hpw |]. split; [reflexivity |]. split; [now rewrite Hget |].
  split; [reflexivity |]. split; [reflexivity |].
  assert (Hacc : forall k, In k account_vars -> PyDict.get user_env k = None).
  { intros k Hk. apply get_absent. intros C. apply I in C.
    simpl in Hk, C.
    repeat match goal with H : _ \/ _ |- _ => destruct H end;
      try contradiction; subst; discriminate. }
  split; [| split; [| split; [| split; [| split]]]].
  - rewrite (get_update _ _ _ N), Hacc by (simpl; auto).
    rewrite !get_set_other by discriminate. apply get_set_same.
  - rewrite (get_update _ _ _ N), Hacc by (simpl; auto).
    rewrite !get_set_other by discriminate. apply get_set_same.
  - rewrite (get_update _ _ _ N), Hacc by (simpl; auto).
    rewrite !get_set_other by discriminate. apply get_set_same.
  - rewrite (get_update _ _ _ N), Hacc by (simpl; auto).
    apply get_set_same.
  - intros k Hk. rewrite (get_update _ _ _ N).
    destruct (PyDict.get user_env k); [reflexivity |].
    rewrite !get_set_other; [reflexivity | | | |];
      intros <-; simpl in Hk;
      repeat match goal with H : _ \/ _ |- _ => destruct H end;
      try contradiction; discriminate.
  - intros k Hk. rewrite (get_update _ _ _ N).
    rewrite (get_absent user_env k)
      by (intros C; apply Hk, in_or_app; right; now apply I).
    rewrite !get_set_other; [reflexivity | | | |];
      intros <-; apply Hk; simpl; auto.
Qed.

Lemma child_gets_the_identity_of_the_account_witness :
  let env := [("PATH", "/usr/bin"); ("HOME", "/home/player"); ("DISPLAY", ":0");
              ("USER", "player"); ("LOGNAME", "player");
              ("XDG_RUNTIME_DIR", "/run/user/1000");
              ("XAUTHORITY", "/home/player/.Xauthority")] in
  let req := {| sr_script := PStr "./run.sh"; sr_cwd := "/mnt/a";
                sr_identity := Some (1000%Z, 1000%Z); sr_env := env |} in
  exists t pw s1 user_env,
    getpwnam Scenes.session t "player" = Some pw
    /\ clock s1 = S t
    /\ fst (get_user_display_env Scenes.session (pw_uid pw) s1) = Ok user_env
    /\ sr_identity req = Some (pw_uid pw, pw_gid pw)
    /\ sr_cwd req = "/mnt/a"
    /\ PyDict.get (sr_env req) "HOME" = Some (pw_dir pw)
    /\ PyDict.get (sr_env req) "USER" = Some "player"
    /\ PyDict.get (sr_env req) "LOGNAME" = Some "player"
    /\ PyDict.get (sr_env req) "XDG_RUNTIME_DIR"
       = Some ("/run/user/" ++ str_of_Z (pw_uid pw))%string
    /\ (forall k, In k target_vars ->
          PyDict.get (sr_env req) k =
          match PyDict.get user_env k with
          | Some v => Some v
          | None => PyDict.get (environ Scenes.session) k
          end)
    /\ (forall k, ~ In k (account_vars ++ target_vars) ->
          PyDict.get (sr_env req) k = PyDict.get (environ Scenes.session) k).
Proof.
  cbv zeta.
  apply (child_gets_the_identity_of_the_account Scenes.session "/mnt/a" "player" boot
           (snd (start_cart_process Scenes.session "/mnt/a" (Some "player") boot))
           (fst (start_cart_process Scenes.session "/mnt/a" (Some "player") boot))
           _ {| pid := 11 |}).
  - reflexivity.
  - vm_compute. reflexivity.
  - vm_compute. repeat first [left; reflexivity | right].
Defined.

(** X12: without an account ([run_as_user] is [None] or the empty
    string) the child keeps the daemon's identity and gets the daemon's
    environment unchanged. *)
Theorem child_without_account_inherits
    (w : World) (mount_point : string) (run_as_user : option string) (s s' : St)
    (r : result (option process)) (req : spawn_req) (p : process) :
  run_as_user = None \/ run_as_user = Some "" ->
  start_cart_process w mount_point run_as_user s = (r, s') ->
  In (Spawn req p) (since s s') ->
  sr_identity req = None
  /\ sr_env req = environ w
  /\ sr_cwd req = mount_point.
Proof.
  intros Hu Hrun Hin.
  destruct (spawn_has_a_setup w _ _ _ _ _ _ _ Hrun Hin)
    as (script & s1 & setup & s2 & Hread & Hsetup & -> & Hp).
  rewrite (child_setup_plain w _ script s1 Hu) in Hsetup.
  injection Hsetup as <- <-. repeat split.
Qed.

Lemma child_without_account_inherits_witness :
  let req := {| sr_script := PStr "./run.sh"; sr_cwd := "/mnt/a";
                sr_identity := None;
                sr_env := [("PATH", "/usr/bin"); ("HOME", "/root"); ("DISPLAY", ":7")] |} in
  sr_identity req = None
  /\ sr_env req = environ Scenes.session
  /\ sr_cwd req = "/mnt/a".
Proof.
  cbv zeta.
  apply (child_without_account_inherits Scenes.session "/mnt/a" (Some "") boot
           (snd (start_cart_process Scenes.session "/mnt/a" (Some "") boot))
           (fst (start_cart_process Scenes.session "/mnt/a" (Some "") boot))
           _ {| pid := 6 |}).
  - right. reflexivity.
  - vm_compute. reflexivity.
  - vm_compute. repeat first [left; reflexivity | right].
Defined.

(** The two halves print and do nothing else, up to the creation of the
    child. *)
Lemma read_exec_prints w mount_point : Framed is_print (read_exec w mount_point).
Proof.
  assert (Framed is_print (verify_cart_signature w (path_join mount_point "cart.yaml")))
    by (unfold verify_cart_signature, prints, print; framed).
  unfold read_exec, prints, print. framed.
Qed.

Lemma scan_environs_prints w uid pids :
  forall vars, Framed is_print (scan_environs w uid pids vars).
Proof.
  induction pids as [| pid rest IH]; intros vars; simpl; framed.
Qed.

Lemma child_setup_prints w run_as_user script :
  Framed is_print (child_setup w run_as_user script).
Proof.
  assert (forall uid, Framed is_print (get_user_display_env w uid))
    by (intros uid; unfold get_user_display_env; framed;
        apply scan_environs_prints).
  unfold child_setup, print. framed.
Qed.

(** What the second half leaves in the trace, by its outcome. *)
Lemma launch_outcome w mount_point run_as_user script s r s' :
  launch w mount_point run_as_user script s = (r, s') ->
  exists lines,
    forallb is_print lines = true
    /\ match r with
       | Ok (Some p) =>
           exists req,
             trace s' = trace s ++ lines ++ [Spawn req p]
             /\ sr_cwd req = mount_point
             /\ popen w (pred (clock s')) req = Ok p
       | Ok None | Raise _ => trace s' = trace s ++ lines
       end.
Proof.
  unfold launch. unfold bind at 1.
  destruct (child_setup w run_as_user script s) as [[setup | e] s2] eqn:Hsetup;
    destruct (child_setup_prints w _ _ _ _ _ Hsetup) as [[d [T O]] _ _ _].
  - cbv zeta. rewrite bind_ask.
    destruct (popen w (clock s2) _) as [proc | e] eqn:Hp.
    + rewrite bind_emit. intros H. inversion H; subst; clear H.
      exists d. split; [exact O |]. eexists. split; [| split; [| exact Hp]].
      * cbn. rewrite T, <- app_assoc. reflexivity.
      * reflexivity.
    + intros H. inversion H; subst; clear H.
      exists d. split; [exact O | exact T].
  - intros H. inversion H; subst; clear H.
    exists d. split; [exact O | exact T].
Qed.

(** X13: [start_cart_process] returns a process handle exactly when
    [Popen] succeeded: the [Spawn] of that process is then the last effect
    of the call, after nothing but printed lines, and its working
    directory is the mount point.  When the call returns [None] or raises
    (a failure of [Popen] included), it has done nothing but print. *)
Theorem handle_is_returned_for_a_new_child
    (w : World) (mount_point : string) (run_as_user : option string) (s : St) :
  let run := start_cart_process w mount_point run_as_user s in
  exists lines,
    forallb is_print lines = true
    /\ match fst run with
       | Ok (Some p) =>
           exists req,
             since s (snd run) = lines ++ [Spawn req p]
             /\ sr_cwd req = mount_point
             /\ popen w (pred (clock (snd run))) req = Ok p
       | Ok None | Raise _ => since s (snd run) = lines
       end.
Proof.
  cbv zeta.
  destruct (start_cart_process w mount_point run_as_user s) as [r s'] eqn:R.
  rewrite start_cart_process_halves in R. cbn [fst snd].
  destruct (read_exec w mount_point s) as [[[script |] | e] s1] eqn:Hread;
    destruct (read_exec_prints w _ _ _ _ Hread) as [[d1 [T1 O1]] _ _ _].
  2,3: inversion R; subst; exists d1; split;
       [exact O1 | now apply since_of_trace].
  destruct (launch_outcome w _ _ _ _ _ _ R) as [d2 [O2 H]].
  exists (d1 ++ d2). split; [rewrite forallb_app, O1, O2; reflexivity |].
  destruct r as [[p |] | e].
  - destruct H as (req & T & Hc & Hp). exists req. split; [| auto].
    apply since_of_trace. rewrite T, T1, <- !app_assoc. reflexivity.
  - apply since_of_trace. rewrite H, T1, <- !app_assoc. reflexivity.
  - apply since_of_trace. rewrite H, T1, <- !app_assoc. reflexivity.
Qed.

(** ** Kills that fail, removals that kill nothing *)

(** X14: [kill_cart_process] raises in exactly two situations, both for a
    child that has not exited: [os.killpg] with [SIGTERM] is not
    permitted; or the wait has timed out and the [SIGKILL] call itself
    fails, a vanished process group included, since [ProcessLookupError]
    is caught for the first signal only. *)
Theorem kill_cart_process_raises_when
    (w : World) (proc : process) (s : St) (e : exn) :
  let t := clock s in
  let pgid := getpgid w (S t) (pid proc) in
  fst (kill_cart_process w proc s) = Raise e <->
  proc_poll w t proc = None
  /\ ((killpg w (2 + t) pgid SIGTERM = NotPermitted /\ e = OSError)
      \/ (killpg w (2 + t) pgid SIGTERM = Signalled
          /\ proc_wait w (3 + t) proc 3000 = None
          /\ ((killpg w (4 + t) pgid SIGKILL = NoSuchProcess
               /\ e = ProcessLookupError)
              \/ (killpg w (4 + t) pgid SIGKILL = NotPermitted
                  /\ e = OSError)))).
Proof.
  cbv zeta.
  destruct (proc_poll w (clock s) proc) as [code |] eqn:Hpoll.
  - rewrite (kill_cart_process_exited w proc code s Hpoll).
    split; [discriminate | intros [C _]; discriminate].
  - rewrite (kill_cart_process_running w proc s Hpoll). cbv zeta.
    change (2 + clock s) with (S (S (clock s))).
    change (3 + clock s) with (S (S (S (clock s)))).
    change (4 + clock s) with (S (S (S (S (clock s))))).
    destruct (killpg w (S (S (clock s))) _ SIGTERM) eqn:Hterm.
    + destruct (proc_wait w (S (S (S (clock s)))) proc 3000) eqn:Hwait.
      * split; [discriminate |].
        intros [_ [[C _] | (_ & C & _)]]; discriminate.
      * cbn [fst].
        destruct (killpg w (S (S (S (S (clock s))))) _ SIGKILL) eqn:Hkill.
        -- split; [discriminate |].
           intros [_ [[C _] | (_ & _ & [[C _] | [C _]])]]; discriminate.
        -- split.
           ++ intros E. inversion E. split; [reflexivity |].
              right. split; [reflexivity |]. split; [reflexivity |].
              left. split; reflexivity.
           ++ intros [_ [[C _] | (_ & _ & [[_ C] | [C _]])]];
                try discriminate. now subst.
        -- split.
           ++ intros E. inversion E. split; [reflexivity |].
              right. split; [reflexivity |]. split; [reflexivity |].
              right. split; reflexivity.
           ++ intros [_ [[C _] | (_ & _ & [[C _] | [_ C]])]];
                try discriminate. now subst.
    + split; [discriminate |].
      intros [_ [[C _] | (C & _)]]; discriminate.
    + split.
      * intros E. inversion E. split; [reflexivity |]. left. split; reflexivity.
      * intros [_ [[_ C] | (C & _)]]; try discriminate. now subst.
Qed.

Lemma remove_absent {V} (d : dict V) k :
  PyDict.get d k = None -> PyDict.remove d k = d.
Proof.
  unfold PyDict.remove. induction d as [| [k' v'] d IH]; simpl; [reflexivity |].
  destruct (String.eqb k' k); [discriminate |].
  intros H. simpl. now rewrite IH.
Qed.

(** X15: a remove event for a node that is not tracked, or whose tracked
    process has already exited, prints the removal line and nothing else:
    no signal is sent, the event returns normally, and the node is not
    tracked afterwards. *)
Theorem removal_with_nothing_to_kill
    (w : World) (run_as_user : option string) (node : string) (s : St) :
  (PyDict.get (running_processes s) node = None
   \/ exists proc code,
        PyDict.get (running_processes s) node = Some proc
        /\ proc_poll w (clock s) proc = Some code) ->
  let run := process_event w run_as_user ("remove", node) s in
  fst run = Ok tt
  /\ since s (snd run) = [Print [OStr "SD card removed: "; OStr node]]
  /\ running_processes (snd run) = PyDict.remove (running_processes s) node
  /\ PyDict.get (running_processes (snd run)) node = None.
Proof.
  intros H. cbv zeta. rewrite process_event_remove. cbv zeta.
  destruct H as [H | (proc & code & H & Hpoll)]; rewrite H.
  - cbn [fst snd]. split; [reflexivity |].
    split; [apply since_of_trace; reflexivity |].
    split; [symmetry; now apply remove_absent | exact H].
  - rewrite (kill_cart_process_exited w proc code); [| exact Hpoll].
    cbn [fst snd]. split; [reflexivity |].
    split; [apply since_of_trace; reflexivity |].
    split; [reflexivity | apply get_remove].
Qed.

Lemma removal_with_nothing_to_kill_witness :
  let run := process_event Demo.calm None ("remove", "/dev/sdb") Demo.tracking in
  fst run = Ok tt
  /\ since Demo.tracking (snd run) = [Print [OStr "SD card removed: "; OStr "/dev/sdb"]]
  /\ running_processes (snd run)
     = PyDict.remove (running_processes Demo.tracking) "/dev/sdb"
  /\ PyDict.get (running_processes (snd run)) "/dev/sdb" = None.
Proof.
  apply (removal_with_nothing_to_kill Demo.calm None "/dev/sdb" Demo.tracking).
  left. reflexivity.
Defined.

Lemma remove_set {V} (d : dict V) k v :
  PyDict.remove (PyDict.set d k v) k = PyDict.remove d k.
Proof.
  unfold PyDict.remove. induction d as [| [k' v'] d IH]; simpl.
  - now rewrite String.eqb_refl.
  - destruct (String.eqb k' k) eqn:E; simpl; rewrite E; simpl; auto.
    now rewrite IH.
Qed.

(** A child that has not exited is sent [SIGTERM]. *)
Lemma kill_cart_process_sends_term w proc s :
  proc_poll w (clock s) proc = None ->
  exists tail,
    since s (snd (kill_cart_process w proc s))
    = Print [OStr "Killing process group ";
             ONum (getpgid w (S (clock s)) (pid proc))]
        :: Killpg (getpgid w (S (clock s)) (pid proc)) SIGTERM :: tail.
Proof.
  intros Hpoll. rewrite (kill_cart_process_running w proc s Hpoll). cbv zeta.
  set (g := getpgid w (S (clock s)) (pid proc)).
  destruct (killpg w (S (S (clock s))) g SIGTERM).
  - destruct (proc_wait w (S (S (S (clock s)))) proc 3000).
    + exists [Wait proc 3000]. apply since_of_trace.
      cbn. rewrite <- !app_assoc. reflexivity.
    + exists [Wait proc 3000; Killpg g SIGKILL]. apply since_of_trace.
      cbn. rewrite <- !app_assoc. reflexivity.
  - exists []. apply since_of_trace. cbn. rewrite <- !app_assoc. reflexivity.
  - exists []. apply since_of_trace. cbn. rewrite <- !app_assoc. reflexivity.
Qed.

(** X16: insert, then remove.  The process that an insert has launched
    is the one tracked for the node; a remove event for the node that
    follows, while the child is running, sends [SIGTERM] to the process
    group of that child, and the mapping is then what it was before the
    insert, without the node. *)
Theorem removal_signals_the_child_of_the_insert
    (w : World) (run_as_user : option string) (node mp : string) (p : process)
    (s s1 s2 : St) :
  get_mount_point w node 5 (log (Print [OStr "SD card inserted: "; OStr node]) s)
    = (Ok (Some mp), s1) ->
  PyStr.truthy mp = true ->
  start_cart_process w mp run_as_user s1 = (Ok (Some p), s2) ->
  let si := snd (process_event w run_as_user ("insert", node) s) in
  let run := process_event w run_as_user ("remove", node) si in
  proc_poll w (clock si) p = None ->
  PyDict.get (running_processes si) node = Some p
  /\ (exists tail,
        since si (snd run)
        = Print [OStr "SD card removed: "; OStr node]
            :: Print [OStr "Killing process group ";
                      ONum (getpgid w (S (clock si)) (pid p))]
            :: Killpg (getpgid w (S (clock si)) (pid p)) SIGTERM :: tail)
  /\ running_processes (snd run) = PyDict.remove (running_processes s) node.
Proof.
  intros Hm Ht Hs. cbv zeta.
  rewrite process_event_insert, Hm, Ht, Hs. cbn [snd].
  set (si := with_running (PyDict.set (running_processes s2) node p) s2).
  intros Hpoll.
  assert (Hget : PyDict.get (running_processes si) node = Some p)
    by apply get_set_same.
  split; [exact Hget |].
  rewrite process_event_remove. cbv zeta. rewrite Hget.
  set (st := with_running (PyDict.remove (running_processes si) node)
               (log (Print [OStr "SD card removed: "; OStr node]) si)).
  destruct (kill_cart_process_sends_term w p st Hpoll) as [tail Hk].
  destruct (kill_cart_process w p st) as [r s'] eqn:Ek. cbn [snd] in *.
  destruct (kill_cart_process_no_spawn w _ _ _ _ Ek) as [[d [T _]] _ _ R].
  split.
  - exists tail. rewrite (since_of_trace _ _ _ T) in Hk. subst d.
    apply since_of_trace. rewrite T. cbn. rewrite <- app_assoc. reflexivity.
  - rewrite R.
    change (running_processes st)
      with (PyDict.remove (PyDict.set (running_processes s2) node p) node).
    rewrite remove_set.
    rewrite (fr_running _ _ _ (start_cart_process_no_signal w _ _ _ _ _ Hs)).
    rewrite (fr_running _ _ _ (get_mount_point_silent w _ _ _ _ _ Hm)).
    reflexivity.
Qed.

Lemma removal_signals_the_child_of_the_insert_witness :
  let si := snd (process_event Demo.calm None ("insert", "/dev/sda") boot) in
  let run := process_event Demo.calm None ("remove", "/dev/sda") si in
  PyDict.get (running_processes si) "/dev/sda" = Some {| pid := 8 |}
  /\ (exists tail,
        since si (snd run)
        = Print [OStr "SD card removed: "; OStr "/dev/sda"]
            :: Print [OStr "Killing process group ";
                      ONum (getpgid Demo.calm (S (clock si)) (pid {| pid := 8 |}))]
            :: Killpg (getpgid Demo.calm (S (clock si)) (pid {| pid := 8 |})) SIGTERM
            :: tail)
  /\ running_processes (snd run) = PyDict.remove (running_processes boot) "/dev/sda".
Proof.
  apply (removal_signals_the_child_of_the_insert Demo.calm None "/dev/sda" "/mnt/a"
           {| pid := 8 |} boot
           (snd (get_mount_point Demo.calm "/dev/sda" 5
                   (log (Print [OStr "SD card inserted: "; OStr "/dev/sda"]) boot)))
           (snd (start_cart_process Demo.calm "/mnt/a" None
                   (snd (get_mount_point Demo.calm "/dev/sda" 5
                           (log (Print [OStr "SD card inserted: "; OStr "/dev/sda"])
                              boot)))))).
  - vm_compute. reflexivity.
  - reflexivity.
  - vm_compute. reflexivity.
  - reflexivity.
Defined.

(** ** One node at a time *)

Lemma get_remove_other {V} (d : dict V) k k' :
  k <> k' -> PyDict.get (PyDict.remove d k) k' = PyDict.get d k'.
Proof.
  intros N. unfold PyDict.remove.
  induction d as [| [k0 v0] d IH]; simpl; [reflexivity |].
  destruct (String.eqb k0 k) eqn:E; simpl.
  - apply String.eqb_eq in E. subst k0.
    apply String.eqb_neq in N. now rewrite N.
  - now rewrite IH.
Qed.

Lemma classify_node w d s e s' :
  classify w d s = (Ok (Some e), s') -> snd e = device_node d.
Proof.
  unfold classify.
  destruct (PyStr.opt_eqb (action d) "add");
    [intros H; inversion H; reflexivity |].
  destruct (PyStr.opt_eqb (action d) "remove");
    [intros H; inversion H; reflexivity |].
  destruct (PyStr.opt_eqb (action d) "change"); [| discriminate].
  unfold bind. destruct (has_media w d s) as [[media | x] s1]; [| discriminate].
  intros H; inversion H; reflexivity.
Qed.

Section Isolation.

Variable w : World.
Variable run_as_user : option string.

(** An event for one node leaves the entries of the other nodes alone. *)
Lemma process_event_other_node a node other s :
  other <> node ->
  PyDict.get (running_processes (snd (process_event w run_as_user (a, node) s))) other
  = PyDict.get (running_processes s) other.
Proof.
  intros N. destruct (String.eqb a "insert") eqn:Ha.
  - apply String.eqb_eq in Ha. subst a. rewrite process_event_insert.
    destruct (get_mount_point w node 5 _) as [[[mp |] | x] s1] eqn:Em;
      pose proof (fr_running _ _ _ (get_mount_point_silent w _ _ _ _ _ Em)) as R1;
      simpl in R1; try (simpl; congruence).
    destruct (PyStr.truthy mp); [| simpl; congruence].
    destruct (start_cart_process w mp run_as_user s1) as [[[p |] | x] s2] eqn:Es;
      pose proof (fr_running _ _ _ (start_cart_process_no_signal w _ _ _ _ _ Es)) as R2;
      try (simpl; congruence).
    simpl. rewrite get_set_other by congruence. congruence.
  - rewrite (process_event_other _ _ _ _ _ Ha). cbv zeta.
    destruct (PyDict.get (running_processes s) node) as [proc |]; [| reflexivity].
    destruct (kill_cart_process w proc _) as [r s'] eqn:Ek.
    pose proof (fr_running _ _ _ (kill_cart_process_no_spawn w _ _ _ _ Ek)) as R.
    simpl in *. rewrite R. apply get_remove_other. congruence.
Qed.

End Isolation.

(** X17: a notification never changes what is tracked for a node other
    than its own. *)
Theorem other_nodes_are_left_alone
    (w : World) (run_as_user : option string) (d : device) (node : string) (s : St) :
  node <> device_node d ->
  PyDict.get (running_processes (snd (handle_device w run_as_user d s))) node
  = PyDict.get (running_processes s) node.
Proof.
  intros N. rewrite handle_device_steps.
  destruct (is_sd_card w d s) as [[[|] | x] s1] eqn:E1;
    pose proof (fr_running _ _ _ (is_sd_card_silent w _ _ _ _ E1)) as R1;
    try (simpl; congruence).
  destruct (classify w d s1) as [[[e |] | x] s2] eqn:E2;
    pose proof (fr_running _ _ _ (classify_silent w _ _ _ _ E2)) as R2;
    try (simpl; congruence).
  destruct (is_last_event (last_event s2) e); [simpl; congruence |].
  pose proof (classify_node _ _ _ _ _ E2) as Hn.
  destruct e as [a n]. simpl in Hn. subst n.
  rewrite process_event_other_node by exact N.
  simpl. congruence.
Qed.

Lemma other_nodes_are_left_alone_witness :
  PyDict.get (running_processes
                (snd (handle_device Demo.calm None (Demo.card "/dev/sdb" "add")
                        Demo.tracking))) "/dev/sda"
  = PyDict.get (running_processes Demo.tracking) "/dev/sda".
Proof.
  apply (other_nodes_are_left_alone Demo.calm None (Demo.card "/dev/sdb" "add")
           "/dev/sda" Demo.tracking).
  discriminate.
Defined.

(** X18: a notification for a device that is no whole disk (a partition,
    say) or has no device node is invisible: the run is the same as
    without it.  In particular it does not reset the duplicate
    suppression. *)
Theorem other_devices_are_invisible
    (w : World) (run_as_user : option string) (d : device)
    (before after : list poll_outcome) (s : St) :
  device_type d <> Some "disk" \/ device_node d = "" ->
  event_loop w run_as_user (before ++ PollDevice d :: after) s
  = event_loop w run_as_user (before ++ after) s.
Proof.
  intros H. rewrite !event_loop_app.
  destruct (event_loop w run_as_user before s) as [[[|] | x] s'];
    try reflexivity.
  apply event_loop_goes_on. rewrite handle_device_steps.
  assert (Hsd : is_sd_card w d s' = (Ok false, s')).
  { unfold is_sd_card. destruct H as [H | H].
    - rewrite (opt_eqb_false _ _ H). now rewrite orb_true_r.
    - rewrite H. reflexivity. }
  now rewrite Hsd.
Qed.

Lemma other_devices_are_invisible_witness :
  let partition := {| device_node := "/dev/sda1"; device_type := Some "partition";
                      action := Some "add"; properties := [("ID_BUS", "usb")] |} in
  event_loop Demo.calm None
    ([PollDevice (Demo.card "/dev/sda" "add")]
       ++ PollDevice partition :: [PollDevice (Demo.card "/dev/sda" "add")]) boot
  = event_loop Demo.calm None
      ([PollDevice (Demo.card "/dev/sda" "add")]
         ++ [PollDevice (Demo.card "/dev/sda" "add")]) boot.
Proof.
  cbv zeta.
  apply (other_devices_are_invisible Demo.calm None
           {| device_node := "/dev/sda1"; device_type := Some "partition";
              action := Some "add"; properties := [("ID_BUS", "usb")] |}).
  left. discriminate.
Defined.

(** *** Launches of a whole run *)

Lemma Spawning_add {A B} n k (m : M A) (f : A -> M B) :
  Spawning n m -> (forall a, Spawning k (f a)) -> Spawning (n + k) (bind m f).
Proof.
  intros Hm Hk s r s' H. unfold bind in H.
  destruct (m s) as [[a | e] s1] eqn:E.
  - destruct (Hm _ _ _ E) as [d1 [T1 L1]]. destruct (Hk _ _ _ _ H) as [d2 [T2 L2]].
    exists (d1 ++ d2). rewrite T2, T1, app_assoc, spawns_app, length_app.
    split; auto. lia.
  - inversion H; subst. destruct (Hm _ _ _ E) as [d1 [T1 L1]].
    exists d1. split; auto. lia.
Qed.

Lemma Spawning_still {A} n (m : M A) :
  (forall s, trace (snd (m s)) = trace s) -> Spawning n m.
Proof.
  intros Hm s r s' H. exists []. rewrite app_nil_r.
  specialize (Hm s). rewrite H in Hm. split; [auto | simpl; lia].
Qed.

Lemma Spawning_try {A} n (m : M A) catches (h : exn -> M A) :
  Spawning n m -> (forall e, Spawning 0 (h e)) -> Spawning n (try_except m catches h).
Proof.
  intros Hm Hh s r s' H. unfold try_except in H.
  destruct (m s) as [[a | e] s1] eqn:E.
  - inversion H; subst. apply (Hm _ _ _ E).
  - destruct (catches e).
    + destruct (Hm _ _ _ E) as [d1 [T1 L1]].
      destruct (Hh _ _ _ _ H) as [d2 [T2 L2]].
      exists (d1 ++ d2). rewrite T2, T1, app_assoc, spawns_app, length_app.
      split; auto. lia.
    + inversion H; subst. apply (Hm _ _ _ E).
Qed.

Lemma Spawning_print line : Spawning 0 (print line).
Proof.
  apply Spawning_silent. apply Framed_emit. reflexivity.
Qed.

Lemma event_loop_spawning w run_as_user polls :
  Spawning (length (filter is_notification polls)) (event_loop w run_as_user polls).
Proof.
  induction polls as [| [d | | x] polls IH]; simpl.
  - apply Spawning_ret.
  - apply (Spawning_add 1); [apply handle_device_spawning | intros _; exact IH].
  - apply Spawning_ret.
  - apply Spawning_raise.
Qed.

(** X19: over a whole run of [monitor] the daemon launches at most one
    process per notification delivered. *)
Theorem at_most_one_launch_per_notification
    (w : World) (run_as_user : option string) (polls : list poll_outcome) (s : St) :
  length (spawns (since s (snd (monitor w run_as_user polls s))))
  <= length (filter is_notification polls).
Proof.
  assert (H : Spawning (length (filter is_notification polls))
                (monitor w run_as_user polls)).
  { unfold monitor, prints.
    apply Spawning_bind; [apply Spawning_print | intros _].
    apply Spawning_bind.
    { destruct (PyStr.truthy_opt run_as_user); [| apply Spawning_ret].
      destruct run_as_user; [apply Spawning_print | apply Spawning_ret]. }
    intros _.
    apply Spawning_bind; [apply Spawning_still; reflexivity | intros _].
    apply Spawning_bind; [apply Spawning_still; reflexivity | intros _].
    apply Spawning_try; [apply event_loop_spawning | intros _].
    apply Spawning_bind; [apply Spawning_print | intros _].
    apply Spawning_bind; [apply Spawning_still; reflexivity | intros running].
    apply Spawning_bind.
    { apply (Spawning_quiet (fun e => negb (is_spawn e))).
      - intros e He. now apply negb_true_iff.
      - apply kill_all_no_spawn. }
    intros _.
    apply Spawning_bind; [apply Spawning_print | intros _].
    apply Spawning_ret. }
  destruct (monitor w run_as_user polls s) as [r s'] eqn:R.
  destruct (H _ _ _ R) as [d [T L]].
  simpl. now rewrite (since_of_trace _ _ _ T).
Qed.

(** ** The daemon deals with its own children *)

Lemma get_In {V} (d : dict V) k v : PyDict.get d k = Some v -> In (k, v) d.
Proof.
  induction d as [| [k' v'] d IH]; simpl; [discriminate |].
  destruct (String.eqb k' k) eqn:E.
  - apply String.eqb_eq in E. intros H. inversion H. subst. now left.
  - auto.
Qed.

Lemma In_remove {V} (d : dict V) k kv : In kv (PyDict.remove d k) -> In kv d.
Proof.
  unfold PyDict.remove. intros H. apply filter_In in H. tauto.
Qed.

Section Children.

Variable w : World.
Variable s0 : St.

Lemma own_children_extend s s' d' :
  own_children w s0 s ->
  trace s' = trace s ++ d' ->
  (forall node p, In (node, p) (running_processes s') ->
                  is_child s0 s p \/ exists req, In (Spawn req p) d') ->
  (forall pgid sig, In (Killpg pgid sig) d' ->
                    exists t p, is_child s0 s p /\ pgid = getpgid w t (pid p)) ->
  own_children w s0 s'.
Proof.
  intros [[d T] [Hrun Hsig]] T' Hrun' Hsig'.
  assert (S1 : since s0 s = d) by now apply since_of_trace.
  assert (S2 : since s0 s' = d ++ d')
    by (apply since_of_trace; rewrite T', T, app_assoc; reflexivity).
  assert (Hmono : forall p, is_child s0 s p -> is_child s0 s' p).
  { intros p [req Hin]. exists req. rewrite S2. apply in_or_app. left. congruence. }
  split; [| split].
  - exists (d ++ d'). rewrite T', T, app_assoc. reflexivity.
  - intros node p Hin. destruct (Hrun' _ _ Hin) as [H | [req H]]; [auto |].
    exists req. rewrite S2. apply in_or_app. now right.
  - intros pgid sig Hin. rewrite S2 in Hin. apply in_app_or in Hin.
    destruct Hin as [Hin | Hin].
    + rewrite <- S1 in Hin. destruct (Hsig _ _ Hin) as (t & p & Hl & E).
      exists t, p. auto.
    + destruct (Hsig' _ _ Hin) as (t & p & Hl & E). exists t, p. auto.
Qed.

(** A run that sends no signal and leaves the mapping alone. *)
Lemma own_children_frame (ok : effect -> bool) s s' :
  (forall e, ok e = true -> is_killpg e = false) ->
  frame ok s s' -> own_children w s0 s -> own_children w s0 s'.
Proof.
  intros Hok [[d [T O]] _ _ R] H.
  apply (own_children_extend s s' d H T).
  - intros node p Hin. left. rewrite R in Hin. destruct H as [_ [Hrun _]]. eauto.
  - intros pgid sig Hin. rewrite forallb_forall in O.
    specialize (Hok _ (O _ Hin)). discriminate.
Qed.

Lemma silent_no_killpg e : silent e = true -> is_killpg e = false.
Proof. destruct e; simpl; auto; discriminate. Qed.

Lemma spawning_no_killpg e : silent e || is_spawn e = true -> is_killpg e = false.
Proof. destruct e; simpl; auto; discriminate. Qed.

Lemma own_children_with_last e s :
  own_children w s0 s -> own_children w s0 (with_last e s).
Proof.
  intros H. apply (own_children_extend s _ [] H).
  - simpl. now rewrite app_nil_r.
  - intros node p Hin. left. destruct H as [_ [Hrun _]]. eauto.
  - intros pgid sig [].
Qed.

(** The signals of [kill_cart_process] go to the group of its process. *)
Lemma kill_cart_process_signals proc s r s' :
  kill_cart_process w proc s = (r, s') ->
  exists d,
    trace s' = trace s ++ d
    /\ running_processes s' = running_processes s
    /\ forall pgid sig, In (Killpg pgid sig) d ->
                        pgid = getpgid w (S (clock s)) (pid proc).
Proof.
  intros H.
  destruct (kill_cart_process_no_spawn w _ _ _ _ H) as [[d [T _]] _ _ R].
  exists d. split; [exact T |]. split; [exact R |].
  assert (Hd : since s s' = d) by now apply since_of_trace.
  rewrite <- Hd. clear Hd T R d.
  destruct (proc_poll w (clock s) proc) as [code |] eqn:Hpoll.
  - rewrite (kill_cart_process_exited w proc code s Hpoll) in H.
    inversion H; subst.
    rewrite (since_of_trace s (advance s) [])
      by (simpl; now rewrite app_nil_r).
    intros pgid sig [].
  - rewrite (kill_cart_process_running w proc s Hpoll) in H. cbv zeta in H.
    set (g := getpgid w (S (clock s)) (pid proc)) in *.
    assert (Hin : forall pgid sig tail,
               In (Killpg pgid sig)
                 (Print [OStr "Killing process group "; ONum g]
                    :: Killpg g SIGTERM :: tail) ->
               (forall pgid' sig', In (Killpg pgid' sig') tail -> pgid' = g) ->
               pgid = g).
    { intros pgid sig tail [C | [C | C]] Ht; [discriminate | congruence | eauto]. }
    destruct (killpg w (S (S (clock s))) g SIGTERM).
    + destruct (proc_wait w (S (S (S (clock s)))) proc 3000).
      * inversion H; subst.
        rewrite (since_of_trace s _
                   [Print [OStr "Killing process group "; ONum g];
                    Killpg g SIGTERM; Wait proc 3000])
          by (cbn; rewrite <- !app_assoc; reflexivity).
        intros pgid sig Hk. apply (Hin _ _ _ Hk).
        intros pgid' sig' [C | []]. discriminate.
      * inversion H; subst.
        rewrite (since_of_trace s _
                   [Print [OStr "Killing process group "; ONum g];
                    Killpg g SIGTERM; Wait proc 3000; Killpg g SIGKILL])
          by (cbn; rewrite <- !app_assoc; reflexivity).
        intros pgid sig Hk. apply (Hin _ _ _ Hk).
        intros pgid' sig' [C | [C | []]]; [discriminate | congruence].
    + inversion H; subst.
      rewrite (since_of_trace s _
                 [Print [OStr "Killing process group "; ONum g];
                  Killpg g SIGTERM])
        by (cbn; rewrite <- !app_assoc; reflexivity).
      intros pgid sig Hk. apply (Hin _ _ _ Hk). intros pgid' sig' [].
    + inversion H; subst.
      rewrite (since_of_trace s _
                 [Print [OStr "Killing process group "; ONum g];
                  Killpg g SIGTERM])
        by (cbn; rewrite <- !app_assoc; reflexivity).
      intros pgid sig Hk. apply (Hin _ _ _ Hk). intros pgid' sig' [].
Qed.

Lemma own_children_kill proc s r s' :
  own_children w s0 s ->
  is_child s0 s proc ->
  kill_cart_process w proc s = (r, s') ->
  own_children w s0 s'.
Proof.
  intros H Hl Hk.
  destruct (kill_cart_process_signals _ _ _ _ Hk) as (d & T & R & Hsig).
  apply (own_children_extend s s' d H T).
  - intros node p Hin. left. rewrite R in Hin. destruct H as [_ [Hrun _]]. eauto.
  - intros pgid sig Hin. exists (S (clock s)), proc. split; [exact Hl | eauto].
Qed.

Lemma own_children_kill_all procs :
  forall s,
    own_children w s0 s ->
    (forall p, In p procs -> is_child s0 s p) ->
    own_children w s0 (snd (kill_all w procs s)).
Proof.
  induction procs as [| proc rest IH]; intros s H Hl; [exact H |].
  simpl. unfold bind.
  destruct (kill_cart_process w proc s) as [[[] | x] s1] eqn:Hk;
    pose proof (own_children_kill _ _ _ _ H (Hl _ (or_introl eq_refl)) Hk) as H1.
  - apply IH; [exact H1 |].
    intros p Hp. specialize (Hl p (or_intror Hp)).
    destruct (kill_cart_process_signals _ _ _ _ Hk) as (d & T & _).
    destruct H as [[d0 T0] _]. destruct Hl as [req Hin]. exists req.
    rewrite (since_of_trace s0 s d0 T0) in Hin.
    rewrite (since_of_trace s0 s1 (d0 ++ d))
      by (rewrite T, T0, app_assoc; reflexivity).
    apply in_or_app. now left.
  - exact H1.
Qed.

Variable run_as_user : option string.

(** A handle that [start_cart_process] returns is that of a new child. *)
Lemma start_cart_process_child mount_point s p s' :
  start_cart_process w mount_point run_as_user s = (Ok (Some p), s') ->
  exists req, In (Spawn req p) (since s s').
Proof.
  intros R. rewrite start_cart_process_halves in R.
  destruct (read_exec w mount_point s) as [[[script |] | e] s1] eqn:Hread;
    try discriminate.
  destruct (read_exec_silent w _ _ _ _ Hread) as [[d1 [T1 _]] _ _ _].
  destruct (launch_outcome w _ _ _ _ _ _ R) as (d2 & _ & req & T & _).
  exists req.
  rewrite (since_of_trace s s' (d1 ++ d2 ++ [Spawn req p]))
    by (rewrite T, T1, <- !app_assoc; reflexivity).
  apply in_or_app. right. apply in_or_app. right. now left.
Qed.

Lemma own_children_process_event e s :
  own_children w s0 s ->
  own_children w s0 (snd (process_event w run_as_user e s)).
Proof.
  intros H. destruct e as [a node].
  destruct (String.eqb a "insert") eqn:Ha.
  - apply String.eqb_eq in Ha. subst a. rewrite process_event_insert.
    assert (Hlog : forall line st, own_children w s0 st ->
                                   own_children w s0 (log (Print line) st)).
    { intros line st Hst.
      apply (own_children_frame silent st _ silent_no_killpg); [| exact Hst].
      now apply frame_log. }
    pose proof (Hlog [OStr "SD card inserted: "; OStr node] s H) as H0.
    destruct (get_mount_point w node 5 _) as [[[mp |] | x] s1] eqn:Em;
      pose proof (own_children_frame silent _ _ silent_no_killpg
                    (get_mount_point_silent w _ _ _ _ _ Em) H0) as H1;
      [| now apply Hlog | exact H1].
    destruct (PyStr.truthy mp); [| now apply Hlog].
    destruct (start_cart_process w mp run_as_user s1) as [[[p |] | x] s2] eqn:Es;
      pose proof (own_children_frame _ _ _ spawning_no_killpg
                    (start_cart_process_no_signal w _ _ _ _ _ Es) H1) as H2;
      [| exact H2 | exact H2].
    cbn [snd].
    apply (own_children_extend s2 _ [] H2).
    + simpl. now rewrite app_nil_r.
    + intros n q Hin. left. cbn in Hin. apply In_set in Hin.
      destruct Hin as [Hin | [_ ->]].
      * destruct H2 as [_ [Hrun _]]. eauto.
      * destruct (start_cart_process_child _ _ _ _ Es) as [req Hs].
        destruct (start_cart_process_no_signal w _ _ _ _ _ Es) as [[d2 [T2 _]] _ _ _].
        destruct H1 as [[d1 T1] _]. exists req.
        rewrite (since_of_trace _ _ _ T2) in Hs.
        rewrite (since_of_trace s0 s2 (d1 ++ d2))
          by (rewrite T2, T1, app_assoc; reflexivity).
        apply in_or_app. now right.
    + intros pgid sig [].
  - rewrite (process_event_other _ _ _ _ _ Ha). cbv zeta.
    assert (H0 : own_children w s0
                   (log (Print [OStr "SD card removed: "; OStr node]) s)).
    { apply (own_children_frame silent s _ silent_no_killpg); [| exact H].
      now apply frame_log. }
    destruct (PyDict.get (running_processes s) node) as [proc |] eqn:Hg;
      [| exact H0].
    destruct (kill_cart_process w proc _) as [r s'] eqn:Hk. cbn [snd].
    assert (Hl : is_child s0 s proc)
      by (destruct H as [_ [Hrun _]]; apply (Hrun node); now apply get_In).
    refine (own_children_kill proc _ r s' _ _ Hk).
    + apply (own_children_extend s _ [Print [OStr "SD card removed: "; OStr node]] H).
      * reflexivity.
      * intros n q Hin. left. cbn in Hin. apply In_remove in Hin.
        destruct H as [_ [Hrun _]]. eauto.
      * intros pgid sig [C | []]. discriminate.
    + destruct Hl as [req Hin]. exists req. destruct H as [[d T] _].
      rewrite (since_of_trace _ _ _ T) in Hin.
      rewrite (since_of_trace s0 _ (d ++ [Print [OStr "SD card removed: "; OStr node]]))
        by (cbn; rewrite T, app_assoc; reflexivity).
      apply in_or_app. now left.
Qed.

Lemma own_children_handle_device d s :
  own_children w s0 s ->
  own_children w s0 (snd (handle_device w run_as_user d s)).
Proof.
  intros H. rewrite handle_device_steps.
  destruct (is_sd_card w d s) as [[[|] | x] s1] eqn:E1;
    pose proof (own_children_frame silent _ _ silent_no_killpg
                  (is_sd_card_silent w _ _ _ _ E1) H) as H1;
    [| exact H1 | exact H1].
  destruct (classify w d s1) as [[[e |] | x] s2] eqn:E2;
    pose proof (own_children_frame silent _ _ silent_no_killpg
                  (classify_silent w _ _ _ _ E2) H1) as H2;
    [| exact H2 | exact H2].
  destruct (is_last_event (last_event s2) e); [exact H2 |].
  apply own_children_process_event. now apply own_children_with_last.
Qed.

Lemma own_children_event_loop polls :
  forall s,
    own_children w s0 s ->
    own_children w s0 (snd (event_loop w run_as_user polls s)).
Proof.
  induction polls as [| [d | | x] polls IH]; intros s H; simpl; auto.
  unfold bind.
  destruct (handle_device w run_as_user d s) as [[[] | x] s1] eqn:Hd;
    pose proof (own_children_handle_device d s H) as H1;
    rewrite Hd in H1.
  - now apply IH.
  - exact H1.
Qed.

End Children.

Lemma own_children_started w run_as_user s0 :
  own_children w s0 (started run_as_user s0).
Proof.
  assert (H : exists lines,
             trace (started run_as_user s0) = trace s0 ++ lines
             /\ forallb silent lines = true).
  { unfold started. destruct run_as_user as [user |].
    - destruct (PyStr.truthy user); eexists; split;
        try reflexivity; cbn; rewrite <- ?app_assoc; reflexivity.
    - eexists. split; reflexivity. }
  destruct H as (lines & T & O).
  split; [| split].
  - now exists lines.
  - intros node p Hin.
    assert (R : running_processes (started run_as_user s0) = [])
      by reflexivity.
    rewrite R in Hin. destruct Hin.
  - intros pgid sig Hin. rewrite (since_of_trace _ _ _ T) in Hin.
    rewrite forallb_forall in O. specialize (O _ Hin). discriminate.
Qed.

Lemma own_children_monitor w run_as_user polls s0 :
  own_children w s0 (snd (monitor w run_as_user polls s0)).
Proof.
  rewrite monitor_steps.
  pose proof (own_children_event_loop w s0 run_as_user polls _
                (own_children_started w run_as_user s0)) as H.
  destruct (event_loop w run_as_user polls (started run_as_user s0))
    as [[end_ | x] s1]; [exact H |].
  destruct x; try exact H.
  cbn [snd] in H. unfold shutdown, prints, print.
  rewrite bind_emit. unfold get_running at 1. unfold bind at 1.
  set (s2 := log (Print [OStr (newline ++ "Stopping...")]) s1).
  assert (H2 : own_children w s0 s2).
  { apply (own_children_frame w s0 silent s1 _ silent_no_killpg); [| exact H].
    now apply frame_log. }
  pose proof (own_children_kill_all w s0 (PyDict.values (running_processes s2)) s2 H2)
    as H3.
  assert (Hl : forall p, In p (PyDict.values (running_processes s2)) ->
                         is_child s0 s2 p).
  { intros p Hp. unfold PyDict.values in Hp. apply in_map_iff in Hp.
    destruct Hp as [[node q] [E Hin]]. simpl in E. subst q.
    destruct H2 as [_ [Hrun _]]. eauto. }
  specialize (H3 Hl). unfold bind at 1.
  destruct (kill_all w (PyDict.values (running_processes s2)) s2) as [[[] | x] s3];
    cbn [snd] in *; [| exact H3].
  rewrite bind_emit. cbn [snd ret].
  apply (own_children_frame w s0 silent s3 _ silent_no_killpg); [| exact H3].
  now apply frame_log.
Qed.

(** X20: in the state in which a run of [monitor] ends, or waits for the
    next notification, every process in the mapping was created by the
    daemon during this run. *)
Theorem tracked_processes_are_children
    (w : World) (run_as_user : option string) (polls : list poll_outcome) (s0 : St) :
  let s := snd (monitor w run_as_user polls s0) in
  Forall (fun entry => exists req, In (Spawn req (snd entry)) (since s0 s))
         (running_processes s).
Proof.
  cbv zeta. destruct (own_children_monitor w run_as_user polls s0) as [_ [H _]].
  apply Forall_forall. intros [node p] Hin. exact (H node p Hin).
Qed.

(** X21: every signal the daemon sends during a run of [monitor] goes to
    the process group that [os.getpgid] gave for a process the daemon has
    created during this run. *)
Theorem signals_go_to_children_only
    (w : World) (run_as_user : option string) (polls : list poll_outcome) (s0 : St) :
  let s := snd (monitor w run_as_user polls s0) in
  Forall (fun e =>
            match e with
            | Killpg pgid _ =>
                exists t req p,
                  In (Spawn req p) (since s0 s) /\ pgid = getpgid w t (pid p)
            | _ => True
            end)
         (since s0 s).
Proof.
  cbv zeta. destruct (own_children_monitor w run_as_user polls s0) as [_ [_ H]].
  apply Forall_forall. intros e Hin. destruct e as [| | | pgid sig |]; auto.
  destruct (H pgid sig Hin) as (t & p & [req Hl] & E).
  exists t, req, p. auto.
Qed.

(** ** A kill that fails during the shutdown *)

(** X22: a kill that fails aborts the shutdown.  On an interrupt, when
    the first tracked process is still running and [SIGTERM] is not
    permitted, the [PermissionError] leaves [monitor]: the other tracked
    processes get no signal and [Stopped.] is not printed. *)
Theorem failed_kill_aborts_the_shutdown
    (w : World) (run_as_user : option string) (before rest : list poll_outcome)
    (s0 s : St) (node : string) (p : process) (others : dict process) :
  event_loop w run_as_user before (started run_as_user s0) = (Ok Polling, s) ->
  running_processes s = (node, p) :: others ->
  proc_poll w (clock s) p = None ->
  killpg w (2 + clock s) (getpgid w (S (clock s)) (pid p)) SIGTERM = NotPermitted ->
  exists s',
    monitor w run_as_user (before ++ PollRaise KeyboardInterrupt :: rest) s0
      = (Raise OSError, s')
    /\ since s s'
       = [Print [OStr (newline ++ "Stopping...")];
          Print [OStr "Killing process group ";
                 ONum (getpgid w (S (clock s)) (pid p))];
          Killpg (getpgid w (S (clock s)) (pid p)) SIGTERM].
Proof.
  intros Hloop Hrun Hpoll Hterm.
  rewrite monitor_steps, event_loop_app, Hloop. cbn [event_loop raise].
  unfold shutdown, prints, print. rewrite bind_emit.
  unfold get_running at 1. unfold bind at 1.
  set (s1 := log (Print [OStr (newline ++ "Stopping...")]) s).
  change (running_processes s1) with (running_processes s). rewrite Hrun.
  cbn [PyDict.values map snd kill_all]. rewrite bind_bind. unfold bind at 1.
  rewrite (kill_cart_process_running w p s1) by exact Hpoll. cbv zeta.
  change (clock s1) with (clock s).
  change (S (S (clock s))) with (2 + clock s). rewrite Hterm.
  eexists. split; [reflexivity |].
  apply since_of_trace. cbn. rewrite <- !app_assoc. reflexivity.
Qed.

Lemma failed_kill_aborts_the_shutdown_witness :
  let before := [PollDevice (Demo.card "/dev/sda" "add");
                 PollDevice (Demo.card "/dev/sdb" "add")] in
  let s := snd (event_loop Scenes.guarded None before (started None boot)) in
  exists s',
    monitor Scenes.guarded None (before ++ PollRaise KeyboardInterrupt :: []) boot
      = (Raise OSError, s')
    /\ since s s'
       = [Print [OStr (newline ++ "Stopping...")];
          Print [OStr "Killing process group ";
                 ONum (getpgid Scenes.guarded (S (clock s)) (pid {| pid := 8 |}))];
          Killpg (getpgid Scenes.guarded (S (clock s)) (pid {| pid := 8 |})) SIGTERM].
Proof.
  cbv zeta.
  apply (failed_kill_aborts_the_shutdown Scenes.guarded None
           [PollDevice (Demo.card "/dev/sda" "add");
            PollDevice (Demo.card "/dev/sdb" "add")] [] boot
           (snd (event_loop Scenes.guarded None
                   [PollDevice (Demo.card "/dev/sda" "add");
                    PollDevice (Demo.card "/dev/sdb" "add")] (started None boot)))
           "/dev/sda" {| pid := 8 |} [("/dev/sdb", {| pid := 17 |})]).
  - vm_compute. reflexivity.
  - vm_compute. reflexivity.
  - reflexivity.
  - reflexivity.
Defined.

(** ** A trusted manifest, by its shape *)

Lemma find_existsb {A} (f : A -> bool) l :
  existsb f l = match find f l with Some _ => true | None => false end.
Proof.
  induction l as [| x l IH]; simpl; [reflexivity |].
  destruct (f x); auto.
Qed.

(** The three tests on the parsed manifest, taken together. *)
Lemma tests_by_shape (config : pyval) (otherwise : M (option pyval)) (st : St) :
  (no_exec <- (if negb (PyVal.truthy config) then ret true
               else has <- lift (PyVal.contains_exec config) ;; ret (negb has)) ;;
   if no_exec : bool then otherwise
   else script <- lift (PyVal.getitem_exec config) ;; ret (Some script)) st
  = match command_of config with
    | Ok None => otherwise st
    | other => (other, st)
    end.
Proof.
  destruct config as [| b | z | text | l | kv].
  - reflexivity.
  - destruct b; reflexivity.
  - unfold PyVal.truthy, command_of. destruct (Z.eqb z 0); reflexivity.
  - destruct text as [| c text]; [reflexivity |].
    change (PyVal.truthy (PStr (String c text))) with true.
    unfold PyVal.contains_exec, PyVal.getitem_exec, command_of.
    set (b := PyStr.contains "exec" (String c text)). clearbody b.
    destruct b; reflexivity.
  - destruct l as [| x l]; [reflexivity |].
    change (PyVal.truthy (PList (x :: l))) with true.
    unfold PyVal.contains_exec, PyVal.getitem_exec, command_of.
    set (b := existsb PyVal.is_exec (x :: l)). clearbody b.
    destruct b; reflexivity.
  - destruct kv as [| x kv]; [reflexivity |].
    change (PyVal.truthy (PDict (x :: kv))) with true.
    unfold PyVal.contains_exec, PyVal.getitem_exec, command_of.
    rewrite find_existsb.
    set (f := find (fun p => PyVal.is_exec (fst p)) (x :: kv)). clearbody f.
    destruct f; reflexivity.
Qed.

(** The first half on a manifest that is there, is trusted and parses. *)
Lemma read_exec_by_shape w mount_point s text config :
  let cart_path := path_join mount_point "cart.yaml" in
  path_exists w (clock s) cart_path = true ->
  verdict w cart_path (S (clock s)) = Ok true ->
  read_file w (5 + clock s) cart_path = Some text ->
  yaml_safe_load w text = Some config ->
  exists s1,
    read_exec w mount_point s = (command_of config, s1)
    /\ since s s1
       = [Print [OStr "Found cart.yaml at "; OStr cart_path];
          Print [OStr "Signature verification OK"]]
           ++ match command_of config with
              | Ok None => [Print [OStr "No 'exec' field in cart.yaml"]]
              | _ => []
              end.
Proof.
  cbv zeta. intros Hex Hv Hf Hy.
  unfold read_exec. cbv zeta. set (cart_path := path_join _ _) in *.
  steps. rewrite Hex. cbn [negb]. unfold print at 1. steps.
  set (s1 := log _ (advance s)).
  destruct (verify_cart_signature_trusted w cart_path s1 Hv) as [Hrun _].
  unfold bind at 1. rewrite Hrun. cbn [negb]. unfold ask_or. steps.
  change (clock (log _ (advance (advance (advance (advance s1))))))
    with (5 + clock s). rewrite Hf. steps. rewrite Hy. steps.
  rewrite tests_by_shape.
  destruct (command_of config) as [[script |] | e].
  - eexists. split; [reflexivity |]. apply since_of_trace.
    subst s1. cbn. rewrite <- !app_assoc. reflexivity.
  - unfold prints, print. rewrite bind_emit.
    eexists. split; [reflexivity |]. apply since_of_trace.
    subst s1. cbn. rewrite <- !app_assoc. reflexivity.
  - eexists. split; [reflexivity |]. apply since_of_trace.
    subst s1. cbn. rewrite <- !app_assoc. reflexivity.
Qed.

(** X23: what becomes of a manifest that is there, is trusted and parses,
    by the shape of the parsed value.  A mapping with an [exec] key hands
    the value of that key to the second half of [start_cart_process]; a
    mapping without the key, and every value that counts as false, ends
    the call with [No 'exec' field in cart.yaml] and [None]; a sequence
    that holds the item [exec], a string that contains it, a nonzero
    number and [True] make the call raise [TypeError]. *)
Theorem trusted_manifest_by_shape
    (w : World) (mount_point : string) (run_as_user : option string) (s : St)
    (text : string) (config : pyval) :
  let cart_path := path_join mount_point "cart.yaml" in
  path_exists w (clock s) cart_path = true ->
  verdict w cart_path (S (clock s)) = Ok true ->
  read_file w (5 + clock s) cart_path = Some text ->
  yaml_safe_load w text = Some config ->
  exists s1,
    since s s1
    = [Print [OStr "Found cart.yaml at "; OStr cart_path];
       Print [OStr "Signature verification OK"]]
        ++ match command_of config with
           | Ok None => [Print [OStr "No 'exec' field in cart.yaml"]]
           | _ => []
           end
    /\ start_cart_process w mount_point run_as_user s
       = match command_of config with
         | Ok (Some script) => launch w mount_point run_as_user script s1
         | Ok None => (Ok None, s1)
         | Raise e => (Raise e, s1)
         end.
Proof.
  cbv zeta. intros Hex Hv Hf Hy.
  destruct (read_exec_by_shape w mount_point s text config Hex Hv Hf Hy)
    as (s1 & Hread & T).
  exists s1. split; [exact T |].
  rewrite start_cart_process_halves, Hread.
  destruct (command_of config) as [[script |] | e]; reflexivity.
Qed.

Lemma trusted_manifest_by_shape_witness :
  exists s1,
    since boot s1
    = [Print [OStr "Found cart.yaml at "; OStr (path_join "/mnt/a" "cart.yaml")];
       Print [OStr "Signature verification OK"]]
        ++ match command_of (PList [PStr "exec"; PStr "./run.sh"]) with
           | Ok None => [Print [OStr "No 'exec' field in cart.yaml"]]
           | _ => []
           end
    /\ start_cart_process Scenes.listed "/mnt/a" None boot
       = match command_of (PList [PStr "exec"; PStr "./run.sh"]) with
         | Ok (Some script) => launch Scenes.listed "/mnt/a" None script s1
         | Ok None => (Ok None, s1)
         | Raise e => (Raise e, s1)
         end.
Proof.
  apply (trusted_manifest_by_shape Scenes.listed "/mnt/a" None boot
           "[exec, ./run.sh]" (PList [PStr "exec"; PStr "./run.sh"])).
  - reflexivity.
  - vm_compute. reflexivity.
  - reflexivity.
  - reflexivity.
Defined.

(** ** A failure while a notification is handled *)

(** X24: an exception other than [KeyboardInterrupt] that is raised
    while a notification is handled leaves [monitor] at once, in the state
    in which the handling stopped: no later notification is looked at, the
    sweep that kills the tracked processes does not run, and the script
    ends with status 1. *)
Theorem failure_in_handling_is_fatal
    (w : World) (run_as_user : option string) (before rest : list poll_outcome)
    (d : device) (s0 s s' : St) (x : exn) :
  event_loop w run_as_user before (started run_as_user s0) = (Ok Polling, s) ->
  handle_device w run_as_user d s = (Raise x, s') ->
  x <> KeyboardInterrupt ->
  monitor w run_as_user (before ++ PollDevice d :: rest) s0 = (Raise x, s')
  /\ exit_status (fst (monitor w run_as_user (before ++ PollDevice d :: rest) s0))
     = Some 1%Z.
Proof.
  intros Hloop Hd Hx.
  assert (H : monitor w run_as_user (before ++ PollDevice d :: rest) s0 = (Raise x, s')).
  { rewrite monitor_steps, event_loop_app, Hloop.
    rewrite (event_loop_raises w run_as_user d rest s x s' Hd).
    destruct x; try reflexivity. now destruct Hx. }
  split; [exact H |]. now rewrite H.
Qed.

Lemma failure_in_handling_is_fatal_witness :
  let before := [PollDevice (Demo.card "/dev/sda" "add")] in
  let d := Demo.card "/dev/sdb" "add" in
  let s := snd (event_loop Scenes.guarded None before (started None boot)) in
  let s' := snd (handle_device Scenes.guarded None (Demo.card "/dev/sda" "remove") s) in
  monitor Scenes.guarded None
    (before ++ PollDevice (Demo.card "/dev/sda" "remove") :: [PollDevice d]) boot
    = (Raise OSError, s')
  /\ exit_status
       (fst (monitor Scenes.guarded None
               (before ++ PollDevice (Demo.card "/dev/sda" "remove") :: [PollDevice d])
               boot))
     = Some 1%Z.
Proof.
  cbv zeta.
  apply (failure_in_handling_is_fatal Scenes.guarded None
           [PollDevice (Demo.card "/dev/sda" "add")]
           [PollDevice (Demo.card "/dev/sdb" "add")]
           (Demo.card "/dev/sda" "remove") boot
           (snd (event_loop Scenes.guarded None
                   [PollDevice (Demo.card "/dev/sda" "add")] (started None boot)))).
  - vm_compute. reflexivity.
  - vm_compute. reflexivity.
  - discriminate.
Defined.
